(** * Circuit compilation dashboard: status store, log classifier, renderer

    A shallow embedding of [circuits/verify_header/dashboard.py] and the
    properties of its status file, of its log classification rules and of
    its progress rendering.

    Conventions of the embedding.
    - A Python [str] that holds status or log text is a [str]: a list of
      characters, each standing for one code point in U+0000..U+00FF.  On
      this range [str.isspace], [str.lower], [int] and [float] are the
      functions written below.
    - Rendered panels contain box-drawing glyphs above U+00FF, so a
      rendered text is a [text]: a list of code points.
    - A Python [int] is a [Z]; a Python [float] is the rational it denotes,
      or an infinity or a NaN ([pyfloat]).  The arithmetic on them is
      exact: the limit on the digits of a conversion between [int] and
      [str], the rounding and the overflow of [float] operations and the
      limits on the length of a text are stated where a property depends on
      them, as bounds on its inputs.
    - A raised exception is the [Raise] case of [result]; [try]/[except] is
      [try_except].
    - A file is given by what the calls on it return: its text, whether
      opening it succeeds, and whether the test for it answers. *)

From Stdlib Require Import List String Ascii Bool ZArith NArith QArith Lia.
From Stdlib Require Import Qabs Lqa DecimalN DecimalPos.
Import ListNotations.

Open Scope string_scope.
Open Scope list_scope.
Open Scope Z_scope.

(** ** Python values *)

Definition str := list ascii.

Definition lit (s : string) : str := list_ascii_of_string s.
Coercion lit : string >-> str.

Definition text := list N.

Definition code_points (s : str) : text := map N_of_ascii s.

Inductive exn : Type :=
| ValueError
| ZeroDivisionError
| OverflowError
| OSError
| FileNotFoundError
| PermissionError.

Inductive result (A : Type) : Type :=
| Ok (a : A)
| Raise (e : exn).
Arguments Ok {A} a.
Arguments Raise {A} e.

Definition bind {A B} (m : result A) (k : A -> result B) : result B :=
  match m with
  | Ok a => k a
  | Raise e => Raise e
  end.

Definition try_except {A} (body : result A) (handler : exn -> result A) : result A :=
  match body with
  | Ok a => Ok a
  | Raise e => handler e
  end.

Declare Scope py_scope.
Notation "x <- m ;; k" := (bind m (fun x => k))
  (at level 61, m at next level, right associativity) : py_scope.
Notation "' pat <- m ;; k" := (bind m (fun x => let 'pat := x in k))
  (at level 61, pat pattern, m at next level, right associativity) : py_scope.
Open Scope py_scope.

(** ** Strings *)

Module PyStr.

Definition code (c : ascii) : N := N_of_ascii c.

Definition chr (n : N) : ascii := ascii_of_N n.

Definition LF : ascii := chr 10.
Definition CR : ascii := chr 13.

(** [str.isspace] for one character. *)
Definition isspace (c : ascii) : bool :=
  let n := code c in
  ((9 <=? n) && (n <=? 13) || (28 <=? n) && (n <=? 32)
   || (n =? 133) || (n =? 160))%N.

(** [str.lower] for one character. *)
Definition lower_char (c : ascii) : ascii :=
  let n := code c in
  if ((65 <=? n) && (n <=? 90))%N then chr (n + 32)
  else if ((192 <=? n) && (n <=? 222) && negb (n =? 215))%N then chr (n + 32)
  else c.

Definition lower (s : str) : str := map lower_char s.

Fixpoint eqb (a b : str) : bool :=
  match a, b with
  | [], [] => true
  | x :: a', y :: b' => Ascii.eqb x y && eqb a' b'
  | _, _ => false
  end.

(** [s.startswith(p)] *)
Fixpoint startswith (p s : str) : bool :=
  match p, s with
  | [], _ => true
  | x :: p', y :: s' => Ascii.eqb x y && startswith p' s'
  | _ :: _, [] => false
  end.

(** [sub in s] *)
Fixpoint contains (sub s : str) : bool :=
  startswith sub s
  || match s with
     | [] => false
     | _ :: s' => contains sub s'
     end.

Fixpoint dropwhile (p : ascii -> bool) (s : str) : str :=
  match s with
  | [] => []
  | c :: s' => if p c then dropwhile p s' else s
  end.

Definition lstrip (s : str) : str := dropwhile isspace s.
Definition rstrip (s : str) : str := rev (dropwhile isspace (rev s)).

(** [s.strip()] *)
Definition strip (s : str) : str := rstrip (lstrip s).

(** [s.split()]: the maximal runs of characters that are not white space.
    [cur] is the run being read, last character first. *)
Fixpoint split_from (cur : str) (s : str) : list str :=
  match s with
  | [] => match cur with [] => [] | _ => [rev cur] end
  | c :: s' =>
      if isspace c
      then match cur with
           | [] => split_from [] s'
           | _ => rev cur :: split_from [] s'
           end
      else split_from (c :: cur) s'
  end.

Definition split (s : str) : list str := split_from [] s.

(** [s.split(sep, 1)] for a one-character separator: one piece when [sep]
    does not occur, otherwise the text before and the text after its first
    occurrence. *)
Fixpoint split_once (sep : ascii) (s : str) : list str :=
  match s with
  | [] => [[]]
  | c :: s' =>
      if Ascii.eqb c sep then [[]; s']
      else match split_once sep s' with
           | [a] => [c :: a]
           | a :: rest => (c :: a) :: rest
           | [] => []
           end
  end.

(** The lines a text-mode file object yields when iterated: universal
    newlines turn [\r\n] and a lone [\r] into [\n]; every line keeps its
    terminator, the last line has one only when the text ends with one. *)
Fixpoint lines_from (cur : str) (s : str) : list str :=
  match s with
  | [] => match cur with [] => [] | _ => [rev cur] end
  | c :: s' =>
      if Ascii.eqb c LF then rev (LF :: cur) :: lines_from [] s'
      else if Ascii.eqb c CR then
        match s' with
        | c' :: s'' =>
            if Ascii.eqb c' LF then rev (LF :: cur) :: lines_from [] s''
            else rev (LF :: cur) :: lines_from [] s'
        | [] => [rev (LF :: cur)]
        end
      else lines_from (c :: cur) s'
  end.

Definition file_lines (s : str) : list str := lines_from [] s.

Definition concat (l : list str) : str := List.concat l.

End PyStr.

(** ** Paths *)

(** [pathlib] on a POSIX system. *)
Module PyPath.

Import PyStr.

(** A [PurePosixPath]: the root, which is empty, ["/"] or ["//"], and the
    names after it. *)
Record t : Type := mk {
  root : str;
  parts : list str
}.

(** The texts between the separators; [cur] is the text being read, last
    character first. *)
Fixpoint split_sep (cur : str) (s : str) : list str :=
  match s with
  | [] => [rev cur]
  | c :: s' =>
      if Ascii.eqb c "/" then rev cur :: split_sep [] s' else split_sep (c :: cur) s'
  end.

(** An empty text and a single dot are no names of a path. *)
Definition is_name (n : str) : bool := negb (eqb n "" || eqb n ".").

(** [PurePosixPath(s)]: two slashes in front are kept, three or more are
    one. *)
Definition parse (s : str) : t :=
  let root : str :=
    if startswith "///" s then "/"
    else if startswith "//" s then "//"
    else if startswith "/" s then "/"
    else "" in
  mk root (filter is_name (split_sep [] s)).

(** ["/".join(names)] *)
Fixpoint join_names (names : list str) : str :=
  match names with
  | [] => []
  | [n] => n
  | n :: names' => n ++ "/"%char :: join_names names'
  end.

(** [str(p)] *)
Definition to_str (p : t) : str :=
  match root p, parts p with
  | [], [] => "."
  | r, names => r ++ join_names names
  end.

(** [p / s]: a text with a root replaces the path. *)
Definition truediv (p : t) (s : str) : t :=
  let q := parse s in
  match root q with
  | [] => mk (root p) (parts p ++ parts q)
  | _ => q
  end.

End PyPath.

(** ** Numbers *)

Module PyNum.

Import PyStr.

Definition is_digit (c : ascii) : bool := ((48 <=? code c) && (code c <=? 57))%N.

Definition digit_val (c : ascii) : option N :=
  if is_digit c then Some (code c - 48)%N else None.

(** The rest of a group of decimal digits in which single underscores may
    separate digits: the value read so far, the number of digits read so
    far, and the text left over, which starts where the group stops. *)
Fixpoint digits_rest (s : str) (acc : N) (n : nat) : N * nat * str :=
  match s with
  | [] => (acc, n, [])
  | c :: s' =>
      match digit_val c with
      | Some v => digits_rest s' (acc * 10 + v)%N (S n)
      | None =>
          if Ascii.eqb c "_"
          then match s' with
               | d :: s'' =>
                   match digit_val d with
                   | Some v => digits_rest s'' (acc * 10 + v)%N (S n)
                   | None => (acc, n, s)
                   end
               | [] => (acc, n, s)
               end
          else (acc, n, s)
      end
  end.

Definition digitpart (s : str) : option (N * nat * str) :=
  match s with
  | c :: s' =>
      match digit_val c with
      | Some v => Some (digits_rest s' v 1%nat)
      | None => None
      end
  | [] => None
  end.

(** The white space that [int] and [float] skip at both ends: the
    separators U+001C..U+001F are not part of it. *)
Definition is_space (c : ascii) : bool :=
  let n := code c in
  ((9 <=? n) && (n <=? 13) || (n =? 32) || (n =? 133) || (n =? 160))%N.

Definition trim (s : str) : str := rev (dropwhile is_space (rev (dropwhile is_space s))).

Definition sign_of (s : str) : bool * str :=
  match s with
  | c :: s' =>
      if Ascii.eqb c "-" then (true, s')
      else if Ascii.eqb c "+" then (false, s')
      else (false, s)
  | [] => (false, [])
  end.

(** [int(s)] in base ten.  The digit-count limit that recent interpreters
    put on the conversion is not part of the embedding. *)
Definition int (s : str) : result Z :=
  let '(neg, body) := sign_of (trim s) in
  match digitpart body with
  | Some (n, _, []) => Ok (if neg then - Z.of_N n else Z.of_N n)
  | _ => Raise ValueError
  end.

Fixpoint uint_chars (d : Decimal.uint) : str :=
  match d with
  | Decimal.Nil => []
  | Decimal.D0 d => "0"%char :: uint_chars d
  | Decimal.D1 d => "1"%char :: uint_chars d
  | Decimal.D2 d => "2"%char :: uint_chars d
  | Decimal.D3 d => "3"%char :: uint_chars d
  | Decimal.D4 d => "4"%char :: uint_chars d
  | Decimal.D5 d => "5"%char :: uint_chars d
  | Decimal.D6 d => "6"%char :: uint_chars d
  | Decimal.D7 d => "7"%char :: uint_chars d
  | Decimal.D8 d => "8"%char :: uint_chars d
  | Decimal.D9 d => "9"%char :: uint_chars d
  end.

Definition str_of_N (n : N) : str := uint_chars (N.to_uint n).

(** [str(z)], as for [int] without the limit on the digits. *)
Definition str_of_Z (z : Z) : str :=
  if z <? 0 then "-"%char :: str_of_N (Z.abs_N z) else str_of_N (Z.to_N z).

Definition rjust (width : nat) (s : str) : str :=
  repeat " "%char (width - List.length s) ++ s.

Definition ljust (width : nat) (s : str) : str :=
  s ++ repeat " "%char (width - List.length s).

Definition zfill (width : nat) (s : str) : str :=
  repeat "0"%char (width - List.length s) ++ s.

(** [format(z, "<width>d")] *)
Definition fmt_d (width : nat) (z : Z) : str := rjust width (str_of_Z z).

(** [format(z, "0<width>d")]: the zeros go between the sign and the digits. *)
Definition fmt_0d (width : nat) (z : Z) : str :=
  if z <? 0 then "-"%char :: zfill (width - 1) (str_of_N (Z.abs_N z))
  else zfill width (str_of_N (Z.to_N z)).

(** Groups of three digits from the right, separated by commas; [s] is
    read last digit first. *)
Fixpoint group3 (s : str) (k : nat) : str :=
  match s with
  | [] => []
  | c :: s' =>
      match k, s' with
      | 2%nat, _ :: _ => c :: ","%char :: group3 s' 0
      | 2%nat, [] => [c]
      | _, _ => c :: group3 s' (S k)
      end
  end.

(** [format(z, ",")] *)
Definition fmt_comma (z : Z) : str :=
  let digits := rev (group3 (rev (str_of_N (Z.abs_N z))) 0) in
  if z <? 0 then "-"%char :: digits else digits.

(** A [float]: the rational a finite one denotes, an infinity or a NaN. *)
Inductive pyfloat : Type :=
| Finite (q : Q)
| PosInf
| NegInf
| NaN.

Definition ten_to (e : Z) : Q := Qpower (10 # 1) e.

(** Digits, an optional point and more digits: all the digits as one
    number, how many of them follow the point, and the text left over. *)
Definition mantissa (s : str) : option (N * nat * str) :=
  match digitpart s with
  | Some (ip, _, rest) =>
      match rest with
      | c :: rest' =>
          if Ascii.eqb c "."
          then match digitpart rest' with
               | Some (fp, nd, rest'') => Some (ip * 10 ^ N.of_nat nd + fp, nd, rest'')%N
               | None => Some (ip, 0%nat, rest')
               end
          else Some (ip, 0%nat, rest)
      | [] => Some (ip, 0%nat, [])
      end
  | None =>
      match s with
      | c :: rest' =>
          if Ascii.eqb c "." then digitpart rest' else None
      | [] => None
      end
  end.

Definition exponent (s : str) : option Z :=
  match s with
  | [] => Some 0
  | c :: s' =>
      if Ascii.eqb c "e" || Ascii.eqb c "E"
      then let '(neg, body) := sign_of s' in
           match digitpart body with
           | Some (e, _, []) => Some (if neg then - Z.of_N e else Z.of_N e)
           | _ => None
           end
      else None
  end.

Definition decimal (s : str) : option Q :=
  match mantissa s with
  | Some (m, nd, rest) =>
      match exponent rest with
      | Some e => Some (inject_Z (Z.of_N m) * ten_to (e - Z.of_nat nd))%Q
      | None => None
      end
  | None => None
  end.

(** Two to the 1024: every finite [float] is below it in absolute value,
    and [float] reads a decimal text of that size or more as an infinity. *)
Definition FLOAT_CEILING : Q := inject_Z (2 ^ 1024).

(** [float(s)] as the number that the text denotes: the rounding to the
    nearest binary float is not part of the embedding, and neither is the
    overflow, so a decimal text of [FLOAT_CEILING] or more is read here as
    its number.  The words are compared without regard to case; no
    character above U+007F becomes a letter of theirs in lower case. *)
Definition float (s : str) : result pyfloat :=
  let '(neg, body) := sign_of (trim s) in
  let low := lower body in
  if PyStr.eqb low "inf" || PyStr.eqb low "infinity"
  then Ok (if neg then NegInf else PosInf)
  else if PyStr.eqb low "nan" then Ok NaN
  else match decimal body with
       | Some q => Ok (Finite (if neg then - q else q)%Q)
       | None => Raise ValueError
       end.

(** [a > b] on floats; every comparison with a NaN is false. *)
Definition gt (a b : pyfloat) : bool :=
  match a, b with
  | NaN, _ | _, NaN => false
  | PosInf, PosInf => false
  | PosInf, _ => true
  | _, PosInf => false
  | NegInf, _ => false
  | Finite _, NegInf => true
  | Finite x, Finite y => negb (Qle_bool x y)
  end.

(** The integer nearest to a rational that is not negative, ties to even. *)
Definition round_half_even (q : Q) : Z :=
  let n := Qnum q in
  let d := Z.pos (Qden q) in
  let fl := n / d in
  let r2 := 2 * (n mod d) in
  if r2 <? d then fl
  else if d <? r2 then fl + 1
  else if Z.even fl then fl else fl + 1.

(** [format(x, ".<nd>f")] *)
Definition fmt_f (nd : nat) (x : pyfloat) : str :=
  match x with
  | NaN => "nan"
  | PosInf => "inf"
  | NegInf => "-inf"
  | Finite q =>
      let m := Z.to_N (round_half_even (Qabs q * ten_to (Z.of_nat nd))) in
      let p := (10 ^ N.of_nat nd)%N in
      let body :=
        str_of_N (m / p)
        ++ match nd with
           | O => []
           | _ => "."%char :: zfill nd (str_of_N (m mod p))
           end in
      if Qle_bool 0 q then body else "-"%char :: body
  end.

(** [format(x, "<width>.<nd>f")] *)
Definition fmt_wf (width nd : nat) (x : pyfloat) : str := rjust width (fmt_f nd x).

(** [int(x)] on a float: truncation towards zero. *)
Definition trunc (x : pyfloat) : result Z :=
  match x with
  | Finite q => Ok (Z.quot (Qnum q) (Z.pos (Qden q)))
  | NaN => Raise ValueError
  | PosInf | NegInf => Raise OverflowError
  end.

(** The most digits that [str], [int] and the formatting of an integer
    convert. *)
Definition MAX_STR_DIGITS : Z := 4300.

(** [z] has no more decimal digits than that. *)
Definition within_str_digits (z : Z) : Prop := Z.abs z < 10 ^ MAX_STR_DIGITS.

(** [a // b] on integers. *)
Definition floordiv (a b : Z) : result Z :=
  if b =? 0 then Raise ZeroDivisionError else Ok (a / b).

(** [a % b] on integers. *)
Definition modulo_ (a b : Z) : result Z :=
  if b =? 0 then Raise ZeroDivisionError else Ok (a mod b).

End PyNum.

(** ** Status records *)

(** A [Dict[str, str]]: the items in insertion order, no key twice. *)
Module Dict.

Definition t := list (str * str).

Definition empty : t := [].

(** [d.get(k)] *)
Fixpoint get (k : str) (d : t) : option str :=
  match d with
  | [] => None
  | (k', v) :: d' => if PyStr.eqb k' k then Some v else get k d'
  end.

(** [d.get(k, default)] *)
Definition get_default (k default : str) (d : t) : str :=
  match get k d with
  | Some v => v
  | None => default
  end.

(** [d[k] = v]: a key already there keeps its place, a new key goes last. *)
Fixpoint set (k v : str) (d : t) : t :=
  match d with
  | [] => [(k, v)]
  | (k', v') :: d' =>
      if PyStr.eqb k' k then (k', v) :: d' else (k', v') :: set k v d'
  end.

Definition keys (d : t) : list str := map fst d.

End Dict.

(** ** The status file *)

(** The file behind [STATUS_FILE], as long as the test for it answers:
    its text when it exists, and whether opening it for reading or for
    writing succeeds. *)
Record store : Type := mkStore {
  content : option str;
  can_read : bool;
  can_write : bool
}.

(** [STATUS_FILE.exists()], when the [stat] behind it returns or reports
    that the file is missing. *)
Definition exists_ (st : store) : bool :=
  match content st with
  | Some _ => true
  | None => false
  end.

(** [open(STATUS_FILE, 'r')] and the text the file object yields. *)
Definition open_read (st : store) : result str :=
  match content st with
  | Some s => if can_read st then Ok s else Raise PermissionError
  | None => Raise FileNotFoundError
  end.

(** [open(STATUS_FILE, 'w')], the writes and the close. *)
Definition open_write (s : str) (st : store) : result store :=
  if can_write st
  then Ok (mkStore (Some s) (can_read st) (can_write st))
  else Raise PermissionError.

(** The body of the loop of [read_status]. *)
Definition read_line (line : str) (status : Dict.t) : result Dict.t :=
  let line := PyStr.strip line in
  if PyStr.contains "=" line
  then match PyStr.split_once "=" line with
       | [key; value] => Ok (Dict.set key value status)
       | _ => Raise ValueError
       end
  else Ok status.

(** The loop of [read_status]: an exception leaves the loop, and the
    handler around it returns what [status] holds by then. *)
Fixpoint read_loop (lines : list str) (status : Dict.t) : Dict.t :=
  match lines with
  | [] => status
  | line :: lines' =>
      match read_line line status with
      | Ok status' => read_loop lines' status'
      | Raise _ => status
      end
  end.

Definition read_status (st : store) : result Dict.t :=
  let status := Dict.empty in
  if exists_ st
  then try_except
         (f <- open_read st ;; Ok (read_loop (PyStr.file_lines f) status))
         (fun _ => Ok status)
  else Ok status.

Definition status_line (item : str * str) : str :=
  fst item ++ "="%char :: snd item ++ [PyStr.LF].

Definition serialize (status : Dict.t) : str :=
  PyStr.concat (map status_line status).

Definition write_status (status : Dict.t) (st : store) : result store :=
  try_except (open_write (serialize status) st) (fun _ => Ok st).

Definition update_status (key value : str) (st : store) : result store :=
  status <- read_status st ;;
  write_status (Dict.set key value status) st.

(** [str(SCRIPT_DIR / 'logs' / 'current.log')]; [script_dir] is the text
    of [SCRIPT_DIR]. *)
Definition current_log (script_dir : str) : str :=
  PyPath.to_str
    (PyPath.truediv (PyPath.truediv (PyPath.parse script_dir) "logs") "current.log").

(** [init_status(mode, total_parts)]; [now] is [int(time.time())] and
    [script_dir] is the text of [SCRIPT_DIR]. *)
Definition init_status (script_dir : str) (now : Z) (mode : str) (total_parts : Z)
    (st : store) : result store :=
  let status : Dict.t :=
    [ (lit "MODE", mode);
      (lit "STAGE", lit "initializing");
      (lit "PART", lit "");
      (lit "STEP", lit "");
      (lit "START_TIME", PyNum.str_of_Z now);
      (lit "TOTAL_PARTS", PyNum.str_of_Z total_parts);
      (lit "COMPLETED_PARTS", lit "0");
      (lit "CURRENT_CONSTRAINTS", lit "0");
      (lit "PEAK_MEMORY", lit "0");
      (lit "ERRORS", lit "0");
      (lit "WARNINGS", lit "0");
      (lit "LOG_FILE", current_log script_dir) ] in
  write_status status st.

(** The record that a read of the store returns. *)
Definition record_of (st : store) : Dict.t :=
  match read_status st with
  | Ok d => d
  | Raise _ => Dict.empty
  end.



(** ** Log classification *)

Module Classifier.

Import PyStr.

Fixpoint span (p : ascii -> bool) (s : str) : str * str :=
  match s with
  | [] => ([], [])
  | c :: s' =>
      if p c then let '(a, b) := span p s' in (c :: a, b) else ([], s)
  end.

(** A match of [(\d+)\s*constraints] that starts at the head of [s]: the
    digits of group 1.  Both repetitions are greedy, and giving back a
    digit or a space never lets the literal match. *)
Definition match_constraints (s : str) : option str :=
  let '(digits, rest) := span PyNum.is_digit s in
  match digits with
  | [] => None
  | _ => if startswith "constraints" (dropwhile isspace rest) then Some digits else None
  end.

(** [re.search(r'(\d+)\s*constraints', s)]: group 1 of the leftmost match. *)
Fixpoint search_constraints (s : str) : option str :=
  match match_constraints s with
  | Some g => Some g
  | None =>
      match s with
      | [] => None
      | _ :: s' => search_constraints s'
      end
  end.

Definition is_part_word (word : str) : bool :=
  startswith "part" word || startswith "Part" word.

Definition part_rule (line : str) : bool :=
  contains "Compiling Part" line || contains "part" (lower line).

Definition constraints_rule (line : str) : bool :=
  contains "constraints" (lower line).

Definition compiled_rule (line : str) : bool :=
  contains "compiled" (lower line) || contains "Compiled" line.

Definition witness_rule (line : str) : bool :=
  contains "Generating witness" line.

Definition zkey_rule (line : str) : bool :=
  contains "zkey" (lower line).

Definition proof_rule (line : str) : bool :=
  contains "proof" (lower line).

Definition done_rule (line : str) : bool :=
  contains "Done" line || contains "success" (lower line).

Definition on_part (line : str) (st : store) : result store :=
  if part_rule line then
    st <- update_status "STAGE" "compiling" st ;;
    match find is_part_word (split line) with
    | Some word => update_status "PART" word st
    | None => Ok st
    end
  else Ok st.

Definition on_constraints (line : str) (st : store) : result store :=
  if constraints_rule line then
    match search_constraints line with
    | Some g => update_status "CURRENT_CONSTRAINTS" g st
    | None => Ok st
    end
  else Ok st.

Definition on_compiled (line : str) (st : store) : result store :=
  if compiled_rule line then
    status <- read_status st ;;
    completed <- PyNum.int (Dict.get_default "COMPLETED_PARTS" "0" status) ;;
    update_status "COMPLETED_PARTS" (PyNum.str_of_Z (completed + 1)) st
  else Ok st.

Definition on_witness (line : str) (st : store) : result store :=
  if witness_rule line then
    st <- update_status "STAGE" "witness" st ;;
    update_status "STEP" "generating witness" st
  else Ok st.

Definition on_zkey (line : str) (st : store) : result store :=
  if zkey_rule line then
    st <- update_status "STAGE" "trusted_setup" st ;;
    update_status "STEP" "generating zkey" st
  else Ok st.

Definition on_proof (line : str) (st : store) : result store :=
  if proof_rule line then
    st <- update_status "STAGE" "proving" st ;;
    update_status "STEP" "generating proof" st
  else Ok st.

Definition on_done (line : str) (st : store) : result store :=
  if done_rule line then update_status "STAGE" "complete" st else Ok st.

(** What the loop of [read_output] does with one line, once the line is
    in the log. *)
Definition classify (line : str) (st : store) : result store :=
  st <- on_part line st ;;
  st <- on_constraints line st ;;
  st <- on_compiled line st ;;
  st <- on_witness line st ;;
  st <- on_zkey line st ;;
  st <- on_proof line st ;;
  on_done line st.

Fixpoint classify_all (lines : list str) (st : store) : result store :=
  match lines with
  | [] => Ok st
  | line :: lines' => st <- classify line st ;; classify_all lines' st
  end.

(** The file behind [log_file], as [read_output] uses it: the error of
    [open(log_file, 'w')], when it fails, and the error of a [write] of a
    line followed by [flush], when they fail on the text written so far. *)
Record logfile : Type := mkLog {
  open_fails : option exn;
  write_fails : str -> str -> option exn
}.

(** The loop of [read_output]: a line goes to the log, then through the
    rules; [log] is the text written so far. *)
Fixpoint read_lines (dev : logfile) (lines : list str) (log : str) (st : store)
    : result (str * store) :=
  match lines with
  | [] => Ok (log, st)
  | line :: lines' =>
      match write_fails dev log line with
      | Some e => Raise e
      | None =>
          st <- classify line st ;;
          read_lines dev lines' (log ++ line) st
      end
  end.

(** [read_output]: the log is opened empty, the lines of the child's
    output go through the loop, and the end of the output sets the stage.
    The result is the text of the log and the status file. *)
Definition read_output (dev : logfile) (lines : list str) (st : store)
    : result (str * store) :=
  match open_fails dev with
  | Some e => Raise e
  | None =>
      '(log, st) <- read_lines dev lines [] st ;;
      st <- update_status "STAGE" "complete" st ;;
      Ok (log, st)
  end.

End Classifier.

(** ** Rendering *)

Module Render.

Definition T (s : string) : text := code_points (lit s).

Definition esc (s : string) : text := 27%N :: T s.

(** [s * k]: empty when [k] is not positive.  The error that a [k] beyond
    the longest text raises is not part of the embedding. *)
Definition times (s : text) (k : Z) : text := List.concat (repeat s (Z.to_nat k)).

(** ['\n'.join(lines)] *)
Fixpoint join_lines (lines : list text) : text :=
  match lines with
  | [] => []
  | [l] => l
  | l :: lines' => l ++ 10%N :: join_lines lines'
  end.

Module Colors.
Definition RED := esc "[0;31m".
Definition GREEN := esc "[0;32m".
Definition YELLOW := esc "[1;33m".
Definition BLUE := esc "[0;34m".
Definition CYAN := esc "[0;36m".
Definition MAGENTA := esc "[0;35m".
Definition WHITE := esc "[1;37m".
Definition GRAY := esc "[0;90m".
Definition NC := esc "[0m".
Definition BOLD := esc "[1m".
Definition DIM := esc "[2m".
End Colors.

Definition FULL_BLOCK : text := [9608%N].       (* U+2588 *)
Definition LIGHT_SHADE : text := [9617%N].      (* U+2591 *)
Definition DARK_SHADE : text := [9619%N].       (* U+2593 *)
Definition HORIZONTAL : text := [9472%N].       (* U+2500 *)
Definition VERTICAL : text := [9474%N].         (* U+2502 *)
Definition DOWN_RIGHT : text := [9484%N].       (* U+250C *)
Definition DOWN_LEFT : text := [9488%N].        (* U+2510 *)
Definition UP_RIGHT : text := [9492%N].         (* U+2514 *)
Definition UP_LEFT : text := [9496%N].          (* U+2518 *)
Definition DOWN_HORIZONTAL : text := [9516%N].  (* U+252C *)
Definition UP_HORIZONTAL : text := [9524%N].    (* U+2534 *)
Definition CHECK_MARK : text := [10003%N].      (* U+2713 *)
Definition BLACK_CIRCLE : text := [9679%N].     (* U+25CF *)
Definition WHITE_CIRCLE : text := [9675%N].     (* U+25CB *)

Definition draw_progress_bar (current total width : Z) : result text :=
  let total := if total =? 0 then 1 else total in
  percent <- PyNum.floordiv (current * 100) total ;;
  filled <- PyNum.floordiv (current * width) total ;;
  let empty := width - filled in
  let bar := times FULL_BLOCK filled ++ times LIGHT_SHADE empty in
  Ok (T "[" ++ bar ++ T "] " ++ code_points (PyNum.fmt_d 3 percent) ++ T "%").

(** [max_val] and [width] are integers at every call.  The product and
    the quotient are exact: the overflow of a product of [FLOAT_CEILING]
    or more to an infinity, on which the conversion to [int] raises, is
    not part of the embedding. *)
Definition draw_metric_bar (value : Q) (max_val width : Z) (color : text) : result text :=
  let max_val := if max_val =? 0 then 1 else max_val in
  filled <- PyNum.trunc (PyNum.Finite (value * inject_Z width / inject_Z max_val)%Q) ;;
  let filled := Z.min filled width in
  let empty := width - filled in
  let bar := times DARK_SHADE filled ++ times LIGHT_SHADE empty in
  match color with
  | [] => Ok bar
  | _ => Ok (color ++ bar ++ Colors.NC)
  end.

Definition format_duration (seconds : Z) : text :=
  let hours := seconds / 3600 in
  let mins := (seconds mod 3600) / 60 in
  let secs := seconds mod 60 in
  code_points (PyNum.fmt_0d 2 hours) ++ T ":" ++ code_points (PyNum.fmt_0d 2 mins)
  ++ T ":" ++ code_points (PyNum.fmt_0d 2 secs).

Definition get_color_for_percent (percent : Q) (warn crit : Z) : text :=
  if negb (Qle_bool percent (inject_Z crit)) then Colors.RED
  else if negb (Qle_bool percent (inject_Z warn)) then Colors.YELLOW
  else Colors.GREEN.

(** What the metrics provider returns in one frame: [get_cpu_usage],
    [get_memory_info], [get_swap_info] and [get_load_average]. *)
Record sample : Type := mkSample {
  cpu : Q;
  mem_used : Q;
  mem_total : Q;
  swap_used : Q;
  swap_total : Q;
  load : Q
}.

Definition border : text := Colors.WHITE ++ VERTICAL ++ Colors.NC.

Definition bottom_line : text :=
  Colors.WHITE ++ UP_RIGHT ++ times HORIZONTAL 69 ++ UP_LEFT ++ Colors.NC.

Definition fmt (width nd : nat) (q : Q) : text :=
  code_points (PyNum.fmt_wf width nd (PyNum.Finite q)).

(** The peak-memory update at the head of [draw_system_metrics]: the
    store after it and the peak to display. *)
Definition update_peak (status : Dict.t) (used : Q) (st : store)
    : result (store * PyNum.pyfloat) :=
  peak_mem <- PyNum.float (Dict.get_default "PEAK_MEMORY" "0" status) ;;
  if PyNum.gt (PyNum.Finite used) peak_mem then
    st <- update_status "PEAK_MEMORY" (PyNum.fmt_f 1 (PyNum.Finite used)) st ;;
    Ok (st, PyNum.Finite used)
  else Ok (st, peak_mem).

Definition draw_system_metrics (m : sample) (status : Dict.t) (st : store)
    : result (text * store) :=
  '(st, peak_mem) <- update_peak status (mem_used m) st ;;
  let lines :=
    [ [];
      Colors.WHITE ++ Colors.BOLD ++ DOWN_RIGHT ++ HORIZONTAL ++ T " SYSTEM METRICS "
        ++ times HORIZONTAL 52 ++ DOWN_LEFT ++ Colors.NC;
      border ] in
  let cpu_color := get_color_for_percent (cpu m) 50 80 in
  cpu_bar <- draw_metric_bar (cpu m) 100 25 cpu_color ;;
  let lines := lines ++
    [ border ++ T "  " ++ Colors.CYAN ++ T "CPU:" ++ Colors.NC ++ T "    " ++ cpu_bar
        ++ T " " ++ cpu_color ++ fmt 5 1 (cpu m) ++ T "%" ++ Colors.NC ] in
  let mem_percent :=
    if negb (Qle_bool (mem_total m) 0) then (mem_used m / mem_total m * 100)%Q else 0%Q in
  let mem_color := get_color_for_percent mem_percent 70 90 in
  mem_bar <- draw_metric_bar mem_percent 100 25 mem_color ;;
  let lines := lines ++
    [ border ++ T "  " ++ Colors.CYAN ++ T "Memory:" ++ Colors.NC ++ T " " ++ mem_bar
        ++ T " " ++ mem_color ++ fmt 5 1 (mem_used m) ++ Colors.NC ++ T "/"
        ++ Colors.WHITE ++ fmt 0 0 (mem_total m) ++ T " GB" ++ Colors.NC ] in
  lines <-
    (if negb (Qle_bool (swap_total m) 0) then
       let swap_percent :=
         if negb (Qle_bool (swap_total m) 0)
         then (swap_used m / swap_total m * 100)%Q else 0%Q in
       let swap_color := get_color_for_percent swap_percent 50 80 in
       swap_bar <- draw_metric_bar swap_percent 100 25 swap_color ;;
       Ok (lines ++
         [ border ++ T "  " ++ Colors.CYAN ++ T "Swap:" ++ Colors.NC ++ T "   " ++ swap_bar
             ++ T " " ++ swap_color ++ fmt 5 0 (swap_used m) ++ Colors.NC ++ T "/"
             ++ Colors.WHITE ++ fmt 0 0 (swap_total m) ++ T " MB" ++ Colors.NC ])
     else Ok lines) ;;
  let lines := lines ++
    [ border ++ T "  " ++ Colors.CYAN ++ T "Load:" ++ Colors.NC ++ T "   " ++ Colors.WHITE
        ++ fmt 0 2 (load m) ++ Colors.NC ++ T "  " ++ Colors.GRAY ++ T "Peak Mem: "
        ++ Colors.MAGENTA ++ code_points (PyNum.fmt_f 1 peak_mem) ++ T " GB" ++ Colors.NC ] in
  let lines := lines ++ [ border; bottom_line ] in
  Ok (join_lines lines, st).

Definition parts : list str :=
  [ lit "1A"; lit "1B"; lit "1C"; lit "1D"; lit "1E"; lit "2"; lit "3A"; lit "3B" ].

(** The symbol of the part at index [i]. *)
Definition part_symbol (completed_parts : Z) (part : str) (i : nat) : text :=
  if Z.of_nat i + 1 <? completed_parts
  then Colors.GREEN ++ CHECK_MARK ++ Colors.NC
  else if (Z.of_nat i + 1 =? completed_parts)
          && match part with [] => false | _ => true end
  then Colors.YELLOW ++ BLACK_CIRCLE ++ Colors.NC
  else Colors.GRAY ++ WHITE_CIRCLE ++ Colors.NC.

Definition part_symbols (completed_parts : Z) (part : str) : list text :=
  map (part_symbol completed_parts part) (seq 0 (List.length parts)).

Definition parts_row (symbols : list text) : text :=
  fold_left
    (fun row '(symbol, p) =>
       row ++ T " " ++ symbol ++ T " " ++ code_points (PyNum.ljust 2 p) ++ T " " ++ VERTICAL)
    (combine symbols parts)
    (border ++ T "  " ++ VERTICAL).

(** The lines of the current-activity block. *)
Definition activity (stage part step constraints : str) : list text :=
  let nonempty (s : str) := match s with [] => false | _ => true end in
  if nonempty stage && negb (PyStr.eqb stage "idle" || PyStr.eqb stage "complete") then
    [ border ++ T "  " ++ Colors.BOLD ++ T "Current Activity:" ++ Colors.NC;
      border ++ T "    Stage: " ++ Colors.CYAN ++ code_points stage ++ Colors.NC ]
    ++ (if nonempty part
        then [ border ++ T "    Part:  " ++ Colors.YELLOW ++ code_points part ++ Colors.NC ]
        else [])
    ++ (if nonempty step
        then [ border ++ T "    Step:  " ++ Colors.WHITE ++ code_points step ++ Colors.NC ]
        else [])
    ++ (if nonempty constraints && negb (PyStr.eqb constraints "0") then
          match PyNum.int constraints with
          | Ok n =>
              [ border ++ T "    Constraints: " ++ Colors.MAGENTA
                  ++ code_points (PyNum.fmt_comma n) ++ Colors.NC ]
          | Raise _ => []
          end
        else [])
  else if PyStr.eqb stage "complete" then
    [ border ++ T "  " ++ Colors.GREEN ++ Colors.BOLD ++ CHECK_MARK
        ++ T " COMPILATION COMPLETE" ++ Colors.NC ]
  else
    [ border ++ T "  " ++ Colors.GRAY ++ T "Waiting for compilation to start..." ++ Colors.NC ].

(** [now] is [int(time.time())]. *)
Definition draw_compilation_progress (now : Z) (status : Dict.t) : result text :=
  let stage := Dict.get_default "STAGE" "idle" status in
  let part := Dict.get_default "PART" "" status in
  let step := Dict.get_default "STEP" "" status in
  total_parts <- PyNum.int (Dict.get_default "TOTAL_PARTS" "8" status) ;;
  completed_parts <- PyNum.int (Dict.get_default "COMPLETED_PARTS" "0" status) ;;
  start_time <- PyNum.int (Dict.get_default "START_TIME" "0" status) ;;
  let constraints := Dict.get_default "CURRENT_CONSTRAINTS" "0" status in
  let lines :=
    [ [];
      Colors.WHITE ++ Colors.BOLD ++ DOWN_RIGHT ++ HORIZONTAL ++ T " COMPILATION PROGRESS "
        ++ times HORIZONTAL 46 ++ DOWN_LEFT ++ Colors.NC;
      border ] in
  progress_bar <- draw_progress_bar completed_parts total_parts 50 ;;
  let top_segment := times HORIZONTAL 6 ++ DOWN_HORIZONTAL in
  let bottom_segment := times HORIZONTAL 6 ++ UP_HORIZONTAL in
  let lines := lines ++
    [ border ++ T "  Overall " ++ progress_bar;
      border;
      border ++ T "  " ++ Colors.BOLD ++ T "Parts Status:" ++ Colors.NC;
      border ++ T "  " ++ DOWN_RIGHT ++ times top_segment 7 ++ times HORIZONTAL 6 ++ DOWN_LEFT;
      parts_row (part_symbols completed_parts part);
      border ++ T "  " ++ UP_RIGHT ++ times bottom_segment 7 ++ times HORIZONTAL 6 ++ UP_LEFT;
      border ] in
  let lines := lines ++ activity stage part step constraints ++ [ border ] in
  let lines := lines ++
    (if 0 <? start_time
     then [ border ++ T "  " ++ Colors.BOLD ++ T "Elapsed:" ++ Colors.NC ++ T " "
              ++ format_duration (now - start_time) ]
     else []) in
  let lines := lines ++ [ border; bottom_line ] in
  Ok (join_lines lines).

(** The status read and the two panels of [Dashboard.draw] that parse
    status fields, in the order in which [draw] builds them. *)
Definition draw_panels (now : Z) (m : sample) (st : store) : result (text * store) :=
  status <- read_status st ;;
  '(metrics, st) <- draw_system_metrics m status st ;;
  progress <- draw_compilation_progress now status ;;
  Ok (metrics ++ 10%N :: progress, st).

(** One frame of the renderer, as far as the status file goes: the read
    of [Dashboard.draw] and the system-metrics panel. *)
Definition frame (m : sample) (st : store) : result store :=
  status <- read_status st ;;
  '(_, st) <- draw_system_metrics m status st ;;
  Ok st.

Fixpoint frames (ms : list sample) (st : store) : result store :=
  match ms with
  | [] => Ok st
  | m :: ms' => st <- frame m st ;; frames ms' st
  end.

(** A sample on a machine of 16 GB with [used] GB in use. *)
Definition gb (used : Q) : sample := mkSample (25 # 1) used (16 # 1) 0 0 (1 # 2).

(** The stored peak is [t] tenths of a GB. *)
Definition peak_is (st : store) (t : N) : Prop :=
  exists q, PyNum.float (Dict.get_default "PEAK_MEMORY" "0" (record_of st))
            = Ok (PyNum.Finite q)
            /\ (q == inject_Z (Z.of_N t) / 10)%Q.

End Render.

(** ** Records that the file format can hold *)

Module Wf.

Import PyStr.

Definition is_eol (c : ascii) : bool := Ascii.eqb c LF || Ascii.eqb c CR.

Definition noeol (s : str) : bool := forallb (fun c => negb (is_eol c)) s.

(** The first character, when there is one, is not white space. *)
Definition head_ok (s : str) : bool :=
  match s with
  | c :: _ => negb (isspace c)
  | [] => true
  end.

(** A key that [read_status] gives back as it was written: no ['='], no
    line break, no white space in front. *)
Definition key_ok (k : str) : bool :=
  forallb (fun c => negb (Ascii.eqb c "=")) k && noeol k && head_ok k.

(** A value that [read_status] gives back as it was written: no line
    break, no white space at the end. *)
Definition value_ok (v : str) : bool := noeol v && head_ok (rev v).

Fixpoint nodup_keys (d : Dict.t) : bool :=
  match d with
  | [] => true
  | (k, _) :: d' =>
      match Dict.get k d' with
      | Some _ => false
      | None => nodup_keys d'
      end
  end.

Definition record_ok (d : Dict.t) : bool :=
  forallb (fun item => key_ok (fst item) && value_ok (snd item)) d && nodup_keys d.

(** The status file can be read and written. *)
Definition usable (st : store) : bool := can_read st && can_write st.

(** The text is empty or ends with a line feed. *)
Definition line_start (pre : str) : bool :=
  match rev pre with
  | [] => true
  | c :: _ => Ascii.eqb c LF
  end.

End Wf.

(** ** Status files, line by line *)

Module Layout.

Import PyStr.



(** A line as it stands in the file, without its terminator: a text
    without ['='], or a key, the first ['='] of the line and a value. *)
Inductive line : Type :=
| Plain (s : str)
| Pair (k v : str).









End Layout.

(** The number that the digits of [d] denote after the number [acc]. *)
Fixpoint val_acc (d : Decimal.uint) (acc : N) : N :=
  match d with
  | Decimal.Nil => acc
  | Decimal.D0 d => val_acc d (acc * 10 + 0)
  | Decimal.D1 d => val_acc d (acc * 10 + 1)
  | Decimal.D2 d => val_acc d (acc * 10 + 2)
  | Decimal.D3 d => val_acc d (acc * 10 + 3)
  | Decimal.D4 d => val_acc d (acc * 10 + 4)
  | Decimal.D5 d => val_acc d (acc * 10 + 5)
  | Decimal.D6 d => val_acc d (acc * 10 + 6)
  | Decimal.D7 d => val_acc d (acc * 10 + 7)
  | Decimal.D8 d => val_acc d (acc * 10 + 8)
  | Decimal.D9 d => val_acc d (acc * 10 + 9)
  end%N.

(** Where a group of digits stops: at the end of the text, or at a
    character that is neither a digit nor an underscore. *)
Definition stops (rest : str) : bool :=
  match rest with
  | [] => true
  | c :: _ => negb (PyNum.is_digit c) && negb (Ascii.eqb c "_")
  end.

(** The rules of the classifier as functions on the record that is read:
    on a usable status file every [update_status] sets one item of it. *)
Module Rec.

Import PyStr Classifier.

Definition on_part (line : str) (d : Dict.t) : Dict.t :=
  if part_rule line then
    let d := Dict.set "STAGE" "compiling" d in
    match find is_part_word (split line) with
    | Some word => Dict.set "PART" word d
    | None => d
    end
  else d.

Definition on_constraints (line : str) (d : Dict.t) : Dict.t :=
  if constraints_rule line then
    match search_constraints line with
    | Some g => Dict.set "CURRENT_CONSTRAINTS" g d
    | None => d
    end
  else d.

Definition on_compiled (line : str) (d : Dict.t) : result Dict.t :=
  if compiled_rule line then
    completed <- PyNum.int (Dict.get_default "COMPLETED_PARTS" "0" d) ;;
    Ok (Dict.set "COMPLETED_PARTS" (PyNum.str_of_Z (completed + 1)) d)
  else Ok d.

Definition on_witness (line : str) (d : Dict.t) : Dict.t :=
  if witness_rule line
  then Dict.set "STEP" "generating witness" (Dict.set "STAGE" "witness" d)
  else d.

Definition on_zkey (line : str) (d : Dict.t) : Dict.t :=
  if zkey_rule line
  then Dict.set "STEP" "generating zkey" (Dict.set "STAGE" "trusted_setup" d)
  else d.

Definition on_proof (line : str) (d : Dict.t) : Dict.t :=
  if proof_rule line
  then Dict.set "STEP" "generating proof" (Dict.set "STAGE" "proving" d)
  else d.

Definition on_done (line : str) (d : Dict.t) : Dict.t :=
  if done_rule line then Dict.set "STAGE" "complete" d else d.

Definition classify (line : str) (d : Dict.t) : result Dict.t :=
  d <- on_compiled line (on_constraints line (on_part line d)) ;;
  Ok (on_done line (on_proof line (on_zkey line (on_witness line d)))).

End Rec.

(** A store without a status file, and the store just after
    [init_status] in a run of the three-part build. *)
Definition fresh : store := mkStore None true true.

Definition started : store :=
  mkStore
    (Some (serialize
       [ (lit "MODE", lit "mini-3part");
         (lit "STAGE", lit "initializing");
         (lit "PART", lit "");
         (lit "STEP", lit "");
         (lit "START_TIME", lit "1700000000");
         (lit "TOTAL_PARTS", lit "8");
         (lit "COMPLETED_PARTS", lit "0");
         (lit "CURRENT_CONSTRAINTS", lit "0");
         (lit "PEAK_MEMORY", lit "0");
         (lit "ERRORS", lit "0");
         (lit "WARNINGS", lit "0");
         (lit "LOG_FILE", lit "/w/logs/current.log") ]))
    true true.

(** ** The rest of the frame *)

(** A file that is read as lines, as the test for it and the attempt to
    read it find it: absent, present with its text, present and failing
    when it is opened or read, or behind a path on which [stat] fails for
    another reason than absence, so that [exists()] raises. *)
Inductive textfile : Type :=
| NoFile
| FileText (s : str)
| FileUnreadable
| StatError.

Module Screen.

Import Render.

Module Terminal.
Definition HIDE_CURSOR := esc "[?25l".
Definition SHOW_CURSOR := esc "[?25h".
Definition CLEAR_SCREEN := esc "[2J".
Definition HOME := esc "[H".
Definition CLEAR_LINE := esc "[K".
End Terminal.

Definition DOUBLE_HORIZONTAL : text := [9552%N].   (* U+2550 *)
Definition DOUBLE_VERTICAL : text := [9553%N].     (* U+2551 *)
Definition DOUBLE_DOWN_RIGHT : text := [9556%N].   (* U+2554 *)
Definition DOUBLE_DOWN_LEFT : text := [9559%N].    (* U+2557 *)
Definition DOUBLE_UP_RIGHT : text := [9562%N].     (* U+255A *)
Definition DOUBLE_UP_LEFT : text := [9565%N].      (* U+255D *)
Definition HIGH_VOLTAGE : text := [9889%N].        (* U+26A1 *)

Definition draw_header (status : Dict.t) : text :=
  let mode := Dict.get_default "MODE" "N/A" status in
  let stage := Dict.get_default "STAGE" "idle" status in
  join_lines
    [ Colors.BLUE ++ DOUBLE_DOWN_RIGHT ++ times DOUBLE_HORIZONTAL 68 ++ DOUBLE_DOWN_LEFT
        ++ Colors.NC;
      Colors.BLUE ++ DOUBLE_VERTICAL ++ Colors.NC ++ T "  " ++ Colors.BOLD ++ Colors.WHITE
        ++ HIGH_VOLTAGE ++ T " CIRCUIT COMPILATION DASHBOARD" ++ Colors.NC
        ++ times (T " ") 34 ++ Colors.BLUE ++ DOUBLE_VERTICAL ++ Colors.NC;
      Colors.BLUE ++ DOUBLE_VERTICAL ++ Colors.NC ++ T "  " ++ Colors.GRAY ++ T "Mode: "
        ++ Colors.CYAN ++ code_points (PyNum.ljust 15 mode) ++ Colors.NC ++ T " "
        ++ Colors.GRAY ++ T "Stage: " ++ Colors.YELLOW ++ code_points (PyNum.ljust 20 stage)
        ++ Colors.NC ++ T "    " ++ Colors.BLUE ++ DOUBLE_VERTICAL ++ Colors.NC;
      Colors.BLUE ++ DOUBLE_UP_RIGHT ++ times DOUBLE_HORIZONTAL 68 ++ DOUBLE_UP_LEFT
        ++ Colors.NC ].

(** [l[start:]] *)
Definition slice_from {A} (start : Z) (l : list A) : list A :=
  let len := Z.of_nat (List.length l) in
  let i := if start <? 0 then Z.max (len + start) 0 else Z.min start len in
  skipn (Z.to_nat i) l.

(** What the loop of [draw_log_tail] makes of one line of the log. *)
Definition clip (line : str) : str :=
  let line := PyStr.strip line in
  if (68 <? List.length line)%nat then firstn 65 line ++ lit "..." else line.

Definition log_row (line : str) : text :=
  border ++ T "  " ++ Colors.GRAY ++ code_points line ++ Colors.NC.

(** The lines that open the log panel. *)
Definition log_head : list text :=
  [ [];
    Colors.WHITE ++ Colors.BOLD ++ DOWN_RIGHT ++ HORIZONTAL ++ T " RECENT LOG OUTPUT "
      ++ times HORIZONTAL 49 ++ DOWN_LEFT ++ Colors.NC ].

(** [fs] gives the file behind a path.  The test for the file stands
    before the [try]. *)
Definition draw_log_tail (fs : str -> textfile) (status : Dict.t) (num_lines : Z)
    : result text :=
  let log_file := Dict.get_default "LOG_FILE" "" status in
  let lines := log_head in
  rows <-
    match log_file with
    | [] => Ok [ log_row "No log file available" ]
    | _ =>
        match fs log_file with
        | StatError => Raise OSError
        | NoFile => Ok [ log_row "No log file available" ]
        | FileText s =>
            Ok (map (fun line => log_row (clip line))
                  (slice_from (- num_lines) (PyStr.file_lines s)))
        | FileUnreadable => Ok [ log_row "Error reading log file" ]
        end
    end ;;
  let lines := lines ++ rows in
  Ok (join_lines (lines ++ [ bottom_line ])).

Definition draw_help : text :=
  10%N :: Colors.GRAY ++ T "  Press " ++ Colors.WHITE ++ T "q" ++ Colors.GRAY
    ++ T " to quit | " ++ Colors.WHITE ++ T "r" ++ Colors.GRAY ++ T " to refresh | "
    ++ Colors.WHITE ++ T "h" ++ Colors.GRAY ++ T " for help" ++ Colors.NC.

(** [Dashboard.draw]; [now] is [int(time.time())] and [m] is what the
    metrics provider returns during the frame. *)
Definition draw (fs : str -> textfile) (now : Z) (m : sample) (st : store)
    : result (text * store) :=
  status <- read_status st ;;
  let head := Terminal.HOME ++ Terminal.CLEAR_SCREEN in
  let header := draw_header status in
  '(metrics, st) <- draw_system_metrics m status st ;;
  progress <- draw_compilation_progress now status ;;
  log <- draw_log_tail fs status 5 ;;
  Ok (join_lines [ head; header; metrics; progress; log; draw_help ], st).

(** The title and the rule that [show_history] prints first. *)
Definition history_head : list text :=
  [ Colors.BLUE ++ Colors.BOLD ++ T "Compilation History" ++ Colors.NC;
    Colors.GRAY ++ times HORIZONTAL 45 ++ Colors.NC ].

(** [show_history]: the lines it prints; [history] is the file behind
    [HISTORY_FILE]. *)
Definition show_history (history : textfile) : result (list text) :=
  match history with
  | NoFile =>
      Ok (history_head
            ++ [ Colors.GRAY ++ T "No compilation history available" ++ Colors.NC ])
  | FileText s =>
      Ok (history_head
            ++ map (fun line => code_points (PyStr.rstrip line))
                 (slice_from (-20) (PyStr.file_lines s)))
  | FileUnreadable => Raise PermissionError
  | StatError => Raise OSError
  end.

(** The cells of a bar: how many full or dark cells, how many light ones. *)
Definition cells (glyph : text) (filled empty : Z) : text :=
  times glyph filled ++ times LIGHT_SHADE empty.

(** The two decimal digits of a number below one hundred. *)
Definition two_digits (x : Z) : text :=
  [ Z.to_N (48 + x / 10); Z.to_N (48 + x mod 10) ].

(** The three symbols of the part tracker: a part that is done, the part
    that is running, a part that is pending. *)
Definition DONE : text := Colors.GREEN ++ CHECK_MARK ++ Colors.NC.
Definition RUNNING : text := Colors.YELLOW ++ BLACK_CIRCLE ++ Colors.NC.
Definition PENDING : text := Colors.GRAY ++ WHITE_CIRCLE ++ Colors.NC.

End Screen.

(** ** Limbs of the circuit input *)

Module Limbs.

Definition N_BITS : Z := 55.
Definition K_LIMBS : Z := 7.

(** [1 << n] *)
Definition shl1 (n : Z) : result Z :=
  if n <? 0 then Raise ValueError else Ok (Z.shiftl 1 n).

(** The loop of [bigint_to_limbs]: [k] more limbs of [x_temp]. *)
Fixpoint limbs_loop (k : nat) (modulus x_temp : Z) : result (list str) :=
  match k with
  | O => Ok []
  | S k' =>
      limb <- PyNum.modulo_ x_temp modulus ;;
      x_temp <- PyNum.floordiv x_temp modulus ;;
      limbs <- limbs_loop k' modulus x_temp ;;
      Ok (PyNum.str_of_Z limb :: limbs)
  end.

(** [bigint_to_limbs(x, n, k)] in [generate_mini_input.py].  The limit on
    the digits that [str] converts is not part of the embedding: it is
    not reached by limbs of [MAX_LIMB_BITS] bits or fewer. *)
Definition bigint_to_limbs (x n k : Z) : result (list str) :=
  modulus <- shl1 n ;;
  limbs_loop (Z.to_nat k) modulus x.

(** The most bits of a limb whose text [str] converts: two to the 14284 is
    the last power of two below ten to the 4300. *)
Definition MAX_LIMB_BITS : Z := 14284.

(** The number that limbs of [n] bits denote, lowest limb first. *)
Fixpoint value_of (n : Z) (limbs : list Z) : Z :=
  match limbs with
  | [] => 0
  | l :: limbs' => l + 2 ^ n * value_of n limbs'
  end.

(** [int] of every limb. *)
Fixpoint parse_all (limbs : list str) : result (list Z) :=
  match limbs with
  | [] => Ok []
  | l :: limbs' =>
      v <- PyNum.int l ;;
      vs <- parse_all limbs' ;;
      Ok (v :: vs)
  end.

End Limbs.

(** What [int] makes of the counter of completed parts that a read
    returns, the default of the classifier included. *)
Definition counter_of (st : store) : result Z :=
  PyNum.int (Dict.get_default "COMPLETED_PARTS" "0" (record_of st)).

(** * Properties *)

(** ** The embedding on small inputs *)

Example strip_example : PyStr.strip "  PART=1A 	" = "PART=1A".
Proof. reflexivity. Qed.

Example split_example :
  PyStr.split "Compiling Part 1A:  building constraints" =
  ["Compiling" : str; "Part" : str; "1A:" : str; "building" : str; "constraints" : str].
Proof. reflexivity. Qed.

Example split_once_example :
  PyStr.split_once "=" "LOG_FILE=/tmp/a=b.log" = ["LOG_FILE" : str; "/tmp/a=b.log" : str].
Proof. reflexivity. Qed.

Example file_lines_example :
  PyStr.file_lines (lit "A=1" ++ [PyStr.CR; PyStr.LF] ++ lit "B=2" ++ [PyStr.CR] ++ lit "C=3") =
  [ lit "A=1" ++ [PyStr.LF]; lit "B=2" ++ [PyStr.LF]; lit "C=3" ].
Proof. reflexivity. Qed.

Example lower_example : PyStr.lower "Compiled Part 1A" = "compiled part 1a".
Proof. reflexivity. Qed.

Example int_examples :
  PyNum.int " 42 " = Ok 42 /\ PyNum.int "-7" = Ok (-7) /\ PyNum.int "1_000" = Ok 1000 /\
  PyNum.int "007" = Ok 7 /\ PyNum.int "" = Raise ValueError /\ PyNum.int "8.5" = Raise ValueError /\
  PyNum.int "1__0" = Raise ValueError /\ PyNum.int "abc" = Raise ValueError /\ PyNum.int "+" = Raise ValueError /\
  PyNum.int [PyStr.chr 28; "5"%char] = Raise ValueError /\ PyNum.int [PyStr.chr 160; "5"%char] = Ok 5.
Proof. repeat split; reflexivity. Qed.

Example str_examples :
  PyNum.str_of_Z 0 = "0" /\ PyNum.str_of_Z 120 = "120" /\ PyNum.str_of_Z (-45) = "-45" /\
  PyNum.fmt_d 3 37 = " 37" /\ PyNum.fmt_0d 2 5 = "05" /\ PyNum.fmt_0d 2 (-5) = "-5" /\ PyNum.fmt_0d 3 (-5) = "-05" /\
  PyNum.fmt_comma 1234567 = "1,234,567" /\ PyNum.fmt_comma 123 = "123" /\ PyNum.fmt_comma (-1000) = "-1,000".
Proof. repeat split; reflexivity. Qed.

Example float_examples :
  PyNum.float "5.0" = Ok (PyNum.Finite (50 # 10)) /\
  PyNum.float "abc" = Raise ValueError /\
  PyNum.float " -INF " = Ok PyNum.NegInf /\
  PyNum.float "." = Raise ValueError /\
  PyNum.fmt_f 1 (PyNum.Finite (5 # 1)) = "5.0" /\
  PyNum.fmt_f 1 (PyNum.Finite (1 # 4)) = "0.2" /\
  PyNum.fmt_f 1 (PyNum.Finite (3 # 4)) = "0.8" /\
  PyNum.fmt_f 1 (PyNum.Finite (-1 # 25)) = "-0.0" /\
  PyNum.fmt_f 2 (PyNum.Finite (314159 # 100000)) = "3.14" /\
  PyNum.fmt_f 0 (PyNum.Finite (5 # 2)) = "2" /\
  PyNum.fmt_wf 5 1 (PyNum.Finite (5 # 1)) = "  5.0".
Proof. repeat split; vm_compute; reflexivity. Qed.

Example init_status_example :
  init_status "/w" 1700000000 "mini-3part" 8 fresh = Ok started.
Proof. reflexivity. Qed.

Example pathlib_examples :
  current_log "/w" = "/w/logs/current.log" /\ current_log "/" = "/logs/current.log"
  /\ current_log "//" = "//logs/current.log" /\ current_log "///x" = "/x/logs/current.log"
  /\ current_log "/a//b/./c/" = "/a/b/c/logs/current.log"
  /\ current_log "/a/../b" = "/a/../b/logs/current.log"
  /\ current_log "" = "logs/current.log"
  /\ PyPath.to_str (PyPath.parse "") = "." /\ PyPath.to_str (PyPath.parse "/.") = "/"
  /\ PyPath.to_str (PyPath.truediv (PyPath.parse "/a") "/b") = "/b".
Proof. repeat split; reflexivity. Qed.

Example log_probe_example :
  Screen.draw_log_tail (fun _ => StatError) [ (lit "LOG_FILE", lit "/w/logs/current.log") ] 5
  = Raise OSError
  /\ (exists panel,
        Screen.draw_log_tail (fun _ => StatError) [ (lit "LOG_FILE", lit "") ] 5 = Ok panel)
  /\ (exists panel,
        Screen.draw_log_tail (fun _ => FileUnreadable)
          [ (lit "LOG_FILE", lit "/w/logs/current.log") ] 5 = Ok panel).
Proof. repeat split; eexists; reflexivity. Qed.

Example search_example :
  Classifier.search_constraints "got 12345 constraints generated" = Some (lit "12345")
  /\ Classifier.search_constraints "12 34  constraints" = Some (lit "34")
  /\ Classifier.search_constraints "building constraints" = None.
Proof. repeat split. Qed.

Example constraints_example :
  exists st', Classifier.classify "12345 constraints generated" started = Ok st'
    /\ Dict.get "CURRENT_CONSTRAINTS" (record_of st') = Some (lit "12345").
Proof. eexists; split; reflexivity. Qed.
(** ** Strings *)

Section StrFacts.

Import PyStr.

Lemma eqb_eq (a b : str) : PyStr.eqb a b = true <-> a = b.
Proof.
  revert b; induction a as [|x a IH]; intros [|y b]; simpl; split; intro H;
    try reflexivity; try discriminate.
  - apply andb_true_iff in H as [Hx Hr].
    apply Ascii.eqb_eq in Hx; apply IH in Hr; congruence.
  - injection H as -> ->.
    rewrite Ascii.eqb_refl; simpl; now apply IH.
Qed.

Lemma eqb_refl (a : str) : PyStr.eqb a a = true.
Proof. now apply eqb_eq. Qed.

Lemma eqb_neq (a b : str) : PyStr.eqb a b = false <-> a <> b.
Proof.
  split.
  - intros H E; apply eqb_eq in E; congruence.
  - intro H; destruct (PyStr.eqb a b) eqn:E; [apply eqb_eq in E; contradiction | reflexivity].
Qed.

Lemma dropwhile_forall (P : ascii -> bool) (p : ascii -> bool) (s : str) :
  forallb P s = true -> forallb P (dropwhile p s) = true.
Proof.
  induction s as [|c s IH]; simpl; intro H; [reflexivity|].
  apply andb_true_iff in H as [Hc Hs].
  destruct (p c); [now apply IH | simpl; now rewrite Hc, Hs].
Qed.

Lemma forallb_rev (P : ascii -> bool) (s : str) : forallb P (rev s) = forallb P s.
Proof.
  induction s as [|c s IH]; simpl; [reflexivity|].
  rewrite forallb_app, IH; simpl; rewrite andb_true_r; apply andb_comm.
Qed.

Lemma strip_forall (P : ascii -> bool) (s : str) :
  forallb P s = true -> forallb P (strip s) = true.
Proof.
  intro H; unfold strip, rstrip, lstrip.
  rewrite forallb_rev; apply dropwhile_forall.
  rewrite forallb_rev; now apply dropwhile_forall.
Qed.

Lemma dropwhile_head (p : ascii -> bool) (s : str) :
  match dropwhile p s with c :: _ => p c = false | [] => True end.
Proof.
  induction s as [|c s IH]; simpl; [exact I|].
  destruct (p c) eqn:E; [exact IH | exact E].
Qed.

Lemma dropwhile_id (p : ascii -> bool) (s : str) :
  match s with c :: _ => p c = false | [] => True end -> dropwhile p s = s.
Proof. destruct s as [|c s]; simpl; [reflexivity|]. now intros ->. Qed.

Lemma head_ok_spec (s : str) :
  Wf.head_ok s = true <-> match s with c :: _ => isspace c = false | [] => True end.
Proof.
  destruct s as [|c s]; simpl; [tauto|].
  destruct (isspace c); simpl; split; congruence.
Qed.

(** A stripped text has no white space at either end. *)
Lemma strip_last_ok (s : str) : Wf.head_ok (rev (strip s)) = true.
Proof.
  unfold strip, rstrip; rewrite rev_involutive.
  apply head_ok_spec, dropwhile_head.
Qed.

Lemma dropwhile_rev_head (s : str) :
  Wf.head_ok s = true -> Wf.head_ok (rev (dropwhile isspace (rev s))) = true.
Proof.
  intro H.
  induction s as [|c s IH] using rev_ind; [reflexivity|].
  rewrite rev_app_distr; simpl.
  destruct (isspace c) eqn:Ec.
  - apply IH.
    destruct s as [|d s]; [reflexivity | exact H].
  - simpl. rewrite rev_involutive.
    destruct s as [|d s]; simpl in *; [now rewrite Ec | exact H].
Qed.

Lemma strip_head_ok (s : str) : Wf.head_ok (strip s) = true.
Proof.
  unfold strip, rstrip. apply dropwhile_rev_head.
  apply head_ok_spec, dropwhile_head.
Qed.

(** Text without white space at either end is left as it is. *)
Lemma strip_id (s : str) :
  Wf.head_ok s = true -> Wf.head_ok (rev s) = true -> strip s = s.
Proof.
  intros Hh Hl; unfold strip, rstrip, lstrip.
  rewrite (dropwhile_id isspace s) by now apply head_ok_spec.
  rewrite (dropwhile_id isspace (rev s)) by now apply head_ok_spec.
  apply rev_involutive.
Qed.

Lemma rstrip_eol (s : str) : rstrip (s ++ [LF]) = rstrip s.
Proof. unfold rstrip; rewrite rev_app_distr; reflexivity. Qed.

Lemma lstrip_eol (s : str) :
  (lstrip (s ++ [LF]) = [] /\ lstrip s = []) \/ lstrip (s ++ [LF]) = lstrip s ++ [LF].
Proof.
  unfold lstrip; induction s as [|c s IH]; simpl; [now left|].
  destruct (isspace c); [exact IH | now right].
Qed.

(** The terminator of a line does not survive [strip]. *)
Lemma strip_eol (s : str) : strip (s ++ [LF]) = strip s.
Proof.
  unfold strip; destruct (lstrip_eol s) as [[-> ->] | ->]; [reflexivity|].
  apply rstrip_eol.
Qed.

Lemma contains_app (sub a b : str) :
  contains sub b = true -> contains sub (a ++ b) = true.
Proof.
  intro H; induction a as [|c a IH]; simpl; [exact H|].
  rewrite IH; apply orb_true_r.
Qed.

Lemma startswith_app (p s : str) : startswith p (p ++ s) = true.
Proof. induction p as [|c p IH]; simpl; [reflexivity|]. now rewrite Ascii.eqb_refl. Qed.

Lemma contains_here (sub s : str) : startswith sub s = true -> contains sub s = true.
Proof. destruct s; simpl; intros ->; reflexivity. Qed.

Lemma contains_char (c : ascii) (s : str) :
  contains [c] s = true <-> In c s.
Proof.
  induction s as [|d s IH]; simpl.
  - split; [discriminate | tauto].
  - rewrite orb_true_iff, IH, andb_true_r, Ascii.eqb_eq.
    split; intros [H|H]; auto.
Qed.

(** [split_once] at the first separator. *)
Lemma split_once_app (sep : ascii) (k v : str) :
  ~ In sep k -> split_once sep (k ++ sep :: v) = [k; v].
Proof.
  induction k as [|c k IH]; simpl; intro H.
  - now rewrite Ascii.eqb_refl.
  - destruct (Ascii.eqb_spec c sep) as [->|Hc]; [tauto|].
    rewrite IH by tauto; reflexivity.
Qed.

Lemma split_once_inv (sep : ascii) (s : str) :
  In sep s -> exists k v, s = k ++ sep :: v /\ ~ In sep k /\ split_once sep s = [k; v].
Proof.
  induction s as [|c s IH]; simpl; [tauto|]; intro H.
  destruct (Ascii.eqb_spec c sep) as [->|Hc].
  - exists [], s; simpl; auto.
  - destruct H as [H|H]; [congruence|].
    destruct (IH H) as (k & v & -> & Hk & E).
    exists (c :: k), v; rewrite E; simpl; repeat split; auto.
    intros [?|?]; [congruence | contradiction].
Qed.

End StrFacts.

(** ** Dictionaries *)

Section DictFacts.

Lemma get_set_same (k v : str) (d : Dict.t) : Dict.get k (Dict.set k v d) = Some v.
Proof.
  induction d as [|[k' v'] d IH]; simpl.
  - now rewrite eqb_refl.
  - destruct (PyStr.eqb k' k) eqn:E; simpl; rewrite E; [reflexivity | exact IH].
Qed.

Lemma get_set_other (k k' v : str) (d : Dict.t) :
  k' <> k -> Dict.get k' (Dict.set k v d) = Dict.get k' d.
Proof.
  intro Hne; induction d as [|[k0 v0] d IH]; simpl.
  - assert (PyStr.eqb k k' = false) as -> by (apply eqb_neq; congruence).
    reflexivity.
  - destruct (PyStr.eqb k0 k) eqn:E; simpl.
    + apply eqb_eq in E; subst k0.
      assert (PyStr.eqb k k' = false) as -> by (apply eqb_neq; congruence).
      reflexivity.
    + now rewrite IH.
Qed.

Lemma get_none (k : str) (d : Dict.t) : Dict.get k d = None <-> ~ In k (Dict.keys d).
Proof.
  induction d as [|[k' v'] d IH]; simpl; [tauto|].
  destruct (PyStr.eqb k' k) eqn:E.
  - apply eqb_eq in E; split; [discriminate | tauto].
  - apply eqb_neq in E; rewrite IH; tauto.
Qed.

Lemma set_fresh (k v : str) (d : Dict.t) :
  Dict.get k d = None -> Dict.set k v d = d ++ [(k, v)].
Proof.
  induction d as [|[k' v'] d IH]; simpl; [reflexivity|].
  destruct (PyStr.eqb k' k); [discriminate|].
  now intros H; rewrite IH.
Qed.

Lemma keys_set (k v : str) (d : Dict.t) :
  forall k', In k' (Dict.keys (Dict.set k v d)) <-> k' = k \/ In k' (Dict.keys d).
Proof.
  intro k'; induction d as [|[k0 v0] d IH]; simpl.
  - intuition congruence.
  - destruct (PyStr.eqb k0 k) eqn:E; simpl.
    + apply eqb_eq in E; subst; intuition congruence.
    + rewrite IH; intuition congruence.
Qed.

Lemma nodup_keys_set (k v : str) (d : Dict.t) :
  Wf.nodup_keys d = true -> Wf.nodup_keys (Dict.set k v d) = true.
Proof.
  induction d as [|[k0 v0] d IH]; simpl; [reflexivity|].
  destruct (Dict.get k0 d) eqn:G; [discriminate|]; intro H.
  destruct (PyStr.eqb k0 k) eqn:E; simpl.
  - now rewrite G.
  - rewrite get_set_other, G by (apply eqb_neq in E; congruence).
    now apply IH.
Qed.

Lemma items_ok_set (k v : str) (d : Dict.t) :
  Wf.key_ok k = true -> Wf.value_ok v = true ->
  forallb (fun item => Wf.key_ok (fst item) && Wf.value_ok (snd item)) d = true ->
  forallb (fun item => Wf.key_ok (fst item) && Wf.value_ok (snd item)) (Dict.set k v d) = true.
Proof.
  intros Hk Hv; induction d as [|[k0 v0] d IH]; simpl.
  - now rewrite Hk, Hv.
  - intro H; apply andb_true_iff in H as [H0 Hd].
    apply andb_true_iff in H0 as [Hk0 Hv0].
    destruct (PyStr.eqb k0 k); simpl.
    + now rewrite Hk0, Hv, Hd.
    + now rewrite Hk0, Hv0, IH.
Qed.

(** Setting a well-formed item keeps a record well formed. *)
Lemma record_ok_set (k v : str) (d : Dict.t) :
  Wf.key_ok k = true -> Wf.value_ok v = true ->
  Wf.record_ok d = true -> Wf.record_ok (Dict.set k v d) = true.
Proof.
  unfold Wf.record_ok; intros Hk Hv H.
  apply andb_true_iff in H as [Hi Hn].
  now rewrite items_ok_set, nodup_keys_set.
Qed.

Lemma get_app_none (k : str) (a b : Dict.t) :
  Dict.get k a = None -> Dict.get k b = None -> Dict.get k (a ++ b) = None.
Proof.
  intros Ha Hb; apply get_none; apply get_none in Ha; apply get_none in Hb.
  unfold Dict.keys in *; rewrite map_app, in_app_iff; tauto.
Qed.

(** Writing the items of a record without repeated keys one after the
    other into a record that has none of the keys appends them. *)
Lemma fold_set_fresh (d acc : Dict.t) :
  Wf.nodup_keys d = true ->
  (forall k, In k (Dict.keys d) -> Dict.get k acc = None) ->
  fold_left (fun a item => Dict.set (fst item) (snd item) a) d acc = acc ++ d.
Proof.
  revert acc; induction d as [|[k v] d IH]; simpl; intros acc Hn Hf.
  - now rewrite app_nil_r.
  - destruct (Dict.get k d) eqn:G; [discriminate|].
    rewrite set_fresh by (apply Hf; now left).
    rewrite IH; [now rewrite <- app_assoc | exact Hn |].
    intros k' Hk'. apply get_app_none; [apply Hf; now right|].
    simpl. destruct (PyStr.eqb k k') eqn:E; [|reflexivity].
    apply eqb_eq in E; subst. apply get_none in G; contradiction.
Qed.

Lemma get_app (k : str) (a b : Dict.t) :
  Dict.get k (a ++ b)
  = match Dict.get k a with Some v => Some v | None => Dict.get k b end.
Proof.
  induction a as [|[k0 v0] a IH]; simpl; [reflexivity|].
  destruct (PyStr.eqb k0 k); [reflexivity | exact IH].
Qed.

Lemma get_fold_set (k : str) (d acc : Dict.t) :
  Dict.get k (fold_left (fun a item => Dict.set (fst item) (snd item) a) d acc)
  = match Dict.get k (rev d) with Some v => Some v | None => Dict.get k acc end.
Proof.
  revert acc; induction d as [|[k0 v0] d IH]; intro acc; simpl; [reflexivity|].
  rewrite IH, get_app. destruct (Dict.get k (rev d)); [reflexivity|].
  simpl. destruct (PyStr.eqb k0 k) eqn:E.
  - apply eqb_eq in E; subst. apply get_set_same.
  - apply get_set_other. apply eqb_neq in E. congruence.
Qed.

End DictFacts.

(** ** The file format *)

Section FormatFacts.

Import PyStr.

Lemma noeol_app (a b : str) : Wf.noeol (a ++ b) = Wf.noeol a && Wf.noeol b.
Proof. apply forallb_app. Qed.

Lemma is_eol_space (c : ascii) : Wf.is_eol c = true -> isspace c = true.
Proof.
  unfold Wf.is_eol; intro H; apply orb_true_iff in H as [H|H];
    apply Ascii.eqb_eq in H; subst; reflexivity.
Qed.

(** One line that ends with a line feed comes out whole. *)
Lemma lines_from_line (l cur rest : str) :
  Wf.noeol l = true ->
  lines_from cur (l ++ LF :: rest) = (rev cur ++ l ++ [LF]) :: lines_from [] rest.
Proof.
  revert cur; induction l as [|c l IH]; intros cur H; simpl.
  - reflexivity.
  - simpl in H; apply andb_true_iff in H as [Hc Hl].
    unfold Wf.is_eol in Hc; apply negb_true_iff, orb_false_iff in Hc as [H1 H2].
    rewrite H1, H2, IH by exact Hl.
    simpl; now rewrite <- app_assoc.
Qed.

Lemma status_line_eq (k v : str) :
  status_line (k, v) = (k ++ "="%char :: v) ++ [LF].
Proof. unfold status_line; simpl; now rewrite <- app_assoc. Qed.

Lemma key_value_noeol (k v : str) :
  Wf.key_ok k = true -> Wf.value_ok v = true -> Wf.noeol (k ++ "="%char :: v) = true.
Proof.
  unfold Wf.key_ok, Wf.value_ok; intros Hk Hv.
  apply andb_true_iff in Hk as [Hk _]; apply andb_true_iff in Hk as [_ Hk].
  apply andb_true_iff in Hv as [Hv _].
  rewrite noeol_app; simpl; now rewrite Hk, Hv.
Qed.

Lemma file_lines_serialize (d : Dict.t) :
  forallb (fun item => Wf.key_ok (fst item) && Wf.value_ok (snd item)) d = true ->
  file_lines (serialize d) = map status_line d.
Proof.
  unfold file_lines, serialize, concat.
  induction d as [|[k v] d IH]; simpl; intro H; [reflexivity|].
  apply andb_true_iff in H as [H0 Hd]; apply andb_true_iff in H0 as [Hk Hv].
  change (status_line (k, v)) with (k ++ "="%char :: v ++ [LF]) at 1.
  replace ((k ++ "="%char :: v ++ [LF]) ++ List.concat (map status_line d))
    with ((k ++ "="%char :: v) ++ LF :: List.concat (map status_line d))
    by (rewrite <- !app_assoc; simpl; now rewrite <- app_assoc).
  rewrite lines_from_line by now apply key_value_noeol.
  rewrite IH by exact Hd; simpl.
  now rewrite status_line_eq.
Qed.

Lemma key_value_strip (k v : str) :
  Wf.key_ok k = true -> Wf.value_ok v = true ->
  strip (status_line (k, v)) = k ++ "="%char :: v.
Proof.
  intros Hk Hv; rewrite status_line_eq, strip_eol.
  unfold Wf.key_ok in Hk; apply andb_true_iff in Hk as [_ Hk].
  unfold Wf.value_ok in Hv; apply andb_true_iff in Hv as [_ Hv].
  apply strip_id.
  - destruct k; [reflexivity | exact Hk].
  - rewrite rev_app_distr; simpl.
    destruct v as [|c v]; [reflexivity|].
    simpl in *. destruct (rev v) as [|e r]; simpl in *; [exact Hv | exact Hv].
Qed.

Lemma key_no_sep (k : str) : Wf.key_ok k = true -> ~ In "="%char k.
Proof.
  unfold Wf.key_ok; intros H Hin.
  apply andb_true_iff in H as [H _]; apply andb_true_iff in H as [H _].
  rewrite forallb_forall in H. specialize (H _ Hin).
  now rewrite Ascii.eqb_refl in H.
Qed.

(** The loop body reads a written item back. *)
Lemma read_line_item (k v : str) (status : Dict.t) :
  Wf.key_ok k = true -> Wf.value_ok v = true ->
  read_line (status_line (k, v)) status = Ok (Dict.set k v status).
Proof.
  intros Hk Hv; unfold read_line.
  rewrite key_value_strip by assumption.
  assert (contains (lit "=") (k ++ "="%char :: v) = true) as ->.
  { apply (contains_char "="%char), in_or_app; right; now left. }
  now rewrite split_once_app by now apply key_no_sep.
Qed.

Lemma read_loop_items (d acc : Dict.t) :
  forallb (fun item => Wf.key_ok (fst item) && Wf.value_ok (snd item)) d = true ->
  read_loop (map status_line d) acc
  = fold_left (fun a item => Dict.set (fst item) (snd item) a) d acc.
Proof.
  revert acc; induction d as [|[k v] d IH]; simpl; intros acc H; [reflexivity|].
  apply andb_true_iff in H as [H0 Hd]; apply andb_true_iff in H0 as [Hk Hv].
  rewrite read_line_item by assumption. now apply IH.
Qed.

(** Reading what [write_status] wrote gives the record back. *)
Lemma read_serialized (d : Dict.t) :
  Wf.record_ok d = true -> read_loop (file_lines (serialize d)) Dict.empty = d.
Proof.
  unfold Wf.record_ok; intro H; apply andb_true_iff in H as [Hi Hn].
  rewrite file_lines_serialize, read_loop_items by exact Hi.
  now rewrite fold_set_fresh.
Qed.

End FormatFacts.

(** ** The path of the log file *)

Section PathFacts.

Import PyStr.

Lemma split_sep_noeol (s cur : str) :
  Wf.noeol cur = true -> Wf.noeol s = true ->
  forallb Wf.noeol (PyPath.split_sep cur s) = true.
Proof.
  revert cur. induction s as [|c s IH]; intros cur Hc Hs; cbn [PyPath.split_sep].
  - cbn [forallb]. unfold Wf.noeol in *. now rewrite forallb_rev, Hc.
  - cbn [Wf.noeol forallb] in Hs. apply andb_true_iff in Hs as [H1 H2].
    destruct (Ascii.eqb c "/").
    + cbn [forallb]. rewrite (IH [] eq_refl H2).
      unfold Wf.noeol in *. now rewrite forallb_rev, Hc.
    + apply IH; [|exact H2]. cbn [Wf.noeol forallb]. now rewrite H1.
Qed.

Lemma forallb_filter {A} (P f : A -> bool) (l : list A) :
  forallb P l = true -> forallb P (filter f l) = true.
Proof.
  induction l as [|x l IH]; cbn [forallb filter]; [reflexivity|].
  intro H. apply andb_true_iff in H as [Hx Hl].
  destruct (f x); cbn [forallb]; [now rewrite Hx, IH | now apply IH].
Qed.

Lemma join_names_cons (n : str) (names : list str) :
  names <> [] -> PyPath.join_names (n :: names) = n ++ "/"%char :: PyPath.join_names names.
Proof. destruct names; [contradiction | reflexivity]. Qed.

(** The text of a path that ends with two more names. *)
Lemma join_names_two (names : list str) (a b : str) :
  exists pre, PyPath.join_names (names ++ [a; b]) = pre ++ a ++ "/"%char :: b
              /\ (forallb Wf.noeol names = true -> Wf.noeol pre = true).
Proof.
  induction names as [|n names (pre & E & H)].
  - exists []. split; [reflexivity | reflexivity].
  - exists (n ++ "/"%char :: pre). split.
    + cbn [app]. rewrite join_names_cons by (destruct names; discriminate).
      rewrite E, <- app_assoc. reflexivity.
    + cbn [forallb]. intro Hn. apply andb_true_iff in Hn as [H1 H2].
      rewrite noeol_app, H1. cbn [Wf.noeol forallb]. now apply H.
Qed.

Lemma to_str_names (r : str) (names : list str) :
  names <> [] -> PyPath.to_str (PyPath.mk r names) = r ++ PyPath.join_names names.
Proof. destruct r, names; try contradiction; reflexivity. Qed.

Lemma current_log_eq (script_dir : str) :
  current_log script_dir
  = PyPath.to_str
      (PyPath.mk (PyPath.root (PyPath.parse script_dir))
         (PyPath.parts (PyPath.parse script_dir) ++ [ lit "logs"; lit "current.log" ])).
Proof.
  unfold current_log, PyPath.truediv.
  change (PyPath.parse (lit "logs")) with (PyPath.mk [] [lit "logs"]).
  change (PyPath.parse (lit "current.log")) with (PyPath.mk [] [lit "current.log"]).
  cbn [PyPath.root PyPath.parts]. now rewrite <- app_assoc.
Qed.

(** The log file of a run lies under the script directory: its text ends
    with the two names, and it has a line break only when the directory
    has one. *)
Lemma current_log_shape (script_dir : str) :
  exists pre, current_log script_dir = pre ++ lit "logs/current.log"
              /\ (Wf.noeol script_dir = true -> Wf.noeol pre = true).
Proof.
  rewrite current_log_eq.
  set (p := PyPath.parse script_dir).
  destruct (join_names_two (PyPath.parts p) (lit "logs") (lit "current.log")) as (pre & E & H).
  exists (PyPath.root p ++ pre). split.
  - rewrite to_str_names by (destruct (PyPath.parts p); discriminate).
    rewrite E, <- app_assoc. reflexivity.
  - intro Hs. rewrite noeol_app. apply andb_true_iff. split.
    + subst p. unfold PyPath.parse. cbn [PyPath.root].
      destruct (startswith _ _); [reflexivity|].
      destruct (startswith _ _); [reflexivity|].
      destruct (startswith _ _); reflexivity.
    + apply H. subst p. unfold PyPath.parse. cbn [PyPath.parts].
      apply forallb_filter. now apply split_sep_noeol.
Qed.

Lemma current_log_value_ok (script_dir : str) :
  Wf.noeol script_dir = true -> Wf.value_ok (current_log script_dir) = true.
Proof.
  intro Hs. destruct (current_log_shape script_dir) as (pre & -> & H).
  unfold Wf.value_ok. rewrite noeol_app, (H Hs), rev_app_distr. reflexivity.
Qed.

End PathFacts.

(** ** Reading any file *)

Section ReadFacts.

Import PyStr.

(** The loop body never raises: the unpacking follows a test for ['=']. *)
Lemma read_line_cases (line : str) (status : Dict.t) :
  (~ In "="%char (strip line) /\ read_line line status = Ok status)
  \/ (exists k v, strip line = k ++ "="%char :: v /\ ~ In "="%char k
                  /\ read_line line status = Ok (Dict.set k v status)).
Proof.
  unfold read_line.
  destruct (contains (lit "=") (strip line)) eqn:E.
  - right. apply (contains_char "="%char) in E.
    destruct (split_once_inv _ _ E) as (k & v & Hs & Hk & Hsp).
    exists k, v. now rewrite Hsp.
  - left; split; [|reflexivity].
    intro H; apply (contains_char "="%char) in H.
    unfold lit in E; simpl in E, H; congruence.
Qed.

Lemma read_line_total (line : str) (status : Dict.t) :
  exists status', read_line line status = Ok status'.
Proof.
  destruct (read_line_cases line status) as [[_ H] | (k & v & _ & _ & H)]; eauto.
Qed.

Lemma read_loop_app (l1 l2 : list str) (acc : Dict.t) :
  read_loop (l1 ++ l2) acc = read_loop l2 (read_loop l1 acc).
Proof.
  revert acc; induction l1 as [|l l1 IH]; intro acc; simpl; [reflexivity|].
  destruct (read_line_total l acc) as [acc' ->]. apply IH.
Qed.

(** An item that comes out of a stripped line without line breaks is well
    formed. *)
Lemma read_line_ok (line : str) (status : Dict.t) :
  Wf.noeol (strip line) = true -> Wf.record_ok status = true ->
  exists status', read_line line status = Ok status' /\ Wf.record_ok status' = true.
Proof.
  intros Hn Hs.
  destruct (read_line_cases line status) as [[_ H] | (k & v & E & Hk & H)];
    rewrite H; eexists; split; try reflexivity; try assumption.
  pose proof (strip_head_ok line) as Hh.
  pose proof (strip_last_ok line) as Hl.
  rewrite E in Hn, Hh, Hl.
  rewrite noeol_app in Hn; simpl in Hn.
  apply andb_true_iff in Hn as [Hnk Hnv].
  apply record_ok_set; [| |exact Hs].
  - unfold Wf.key_ok. rewrite Hnk.
    assert (forallb (fun c => negb (Ascii.eqb c "=")) k = true) as ->.
    { apply forallb_forall; intros c Hc.
      destruct (Ascii.eqb_spec c "="%char); [subst; contradiction | reflexivity]. }
    destruct k; [reflexivity | exact Hh].
  - unfold Wf.value_ok. rewrite Hnv; simpl.
    rewrite rev_app_distr in Hl; simpl in Hl.
    destruct v as [|c v]; [reflexivity|].
    simpl in *. destruct (rev v); simpl in *; exact Hl.
Qed.

Lemma lines_from_shape (n : nat) :
  forall (s cur : str), (List.length s <= n)%nat -> Wf.noeol cur = true ->
  Forall (fun l => Wf.noeol (strip l) = true) (lines_from cur s).
Proof.
  assert (Hline : forall cur, Wf.noeol cur = true -> Wf.noeol (strip (rev (LF :: cur))) = true).
  { intros cur H; simpl; rewrite strip_eol.
    apply strip_forall. unfold Wf.noeol in *; now rewrite forallb_rev. }
  induction n as [n IH] using lt_wf_ind; intros s cur Hlen Hcur.
  destruct s as [|c s]; simpl.
  - destruct cur; constructor; [|constructor].
    apply strip_forall. unfold Wf.noeol in *; now rewrite forallb_rev.
  - simpl in Hlen.
    destruct (Ascii.eqb c LF) eqn:E1.
    { constructor; [now apply Hline|].
      apply (IH (List.length s)); [lia | lia | reflexivity]. }
    destruct (Ascii.eqb c CR) eqn:E2.
    { destruct s as [|c' s'].
      - constructor; [now apply Hline | constructor].
      - simpl in Hlen. destruct (Ascii.eqb c' LF).
        + constructor; [now apply Hline|].
          apply (IH (List.length s')); [lia | lia | reflexivity].
        + constructor; [now apply Hline|].
          apply (IH (List.length (c' :: s'))); simpl; [lia | lia | reflexivity]. }
    apply (IH (List.length s)); [lia | lia |].
    simpl. unfold Wf.is_eol. now rewrite E1, E2.
Qed.

Lemma read_loop_ok (lines : list str) (acc : Dict.t) :
  Forall (fun l => Wf.noeol (strip l) = true) lines ->
  Wf.record_ok acc = true -> Wf.record_ok (read_loop lines acc) = true.
Proof.
  intro H; revert acc; induction H as [|l lines Hl _ IH]; intros acc Hacc; simpl.
  - exact Hacc.
  - destruct (read_line_ok l acc Hl Hacc) as (acc' & -> & Hacc'). now apply IH.
Qed.

(** A read returns a record, and the record is well formed. *)
Lemma read_status_ok (st : store) :
  exists d, read_status st = Ok d /\ Wf.record_ok d = true.
Proof.
  unfold read_status, exists_, open_read.
  destruct (content st) as [s|]; [|now exists Dict.empty].
  destruct (can_read st); simpl; [|now exists Dict.empty].
  eexists; split; [reflexivity|].
  apply read_loop_ok; [|reflexivity].
  apply (lines_from_shape (List.length s)); [lia | reflexivity].
Qed.

Lemma record_of_ok (st : store) : Wf.record_ok (record_of st) = true.
Proof.
  unfold record_of. destruct (read_status_ok st) as (d & -> & H). exact H.
Qed.

Lemma read_status_record (st : store) : read_status st = Ok (record_of st).
Proof.
  unfold record_of. destruct (read_status_ok st) as (d & -> & _). reflexivity.
Qed.

(** A text that ends a line can be read on its own. *)
Lemma lines_from_boundary (n : nat) :
  forall (p cur rest : str), (List.length p <= n)%nat ->
  lines_from cur (p ++ LF :: rest) = lines_from cur (p ++ [LF]) ++ lines_from [] rest.
Proof.
  induction n as [n IH] using lt_wf_ind; intros p cur rest Hlen.
  destruct p as [|c p]; simpl; [reflexivity|].
  simpl in Hlen.
  destruct (Ascii.eqb c LF).
  { simpl; f_equal. apply (IH (List.length p)); lia. }
  destruct (Ascii.eqb c CR).
  { destruct p as [|c' p']; simpl; [reflexivity|].
    simpl in Hlen. destruct (Ascii.eqb c' LF) eqn:E'; simpl; f_equal.
    - apply (IH (List.length p')); lia.
    - assert (H : (List.length (c' :: p') < n)%nat) by (simpl; lia).
      specialize (IH _ H (c' :: p') [] rest (le_n _)).
      simpl in IH; rewrite E' in IH; exact IH. }
  apply (IH (List.length p)); lia.
Qed.

Lemma file_lines_app (pre rest : str) :
  Wf.line_start pre = true -> file_lines (pre ++ rest) = file_lines pre ++ file_lines rest.
Proof.
  unfold Wf.line_start, file_lines; intro H.
  destruct (rev pre) as [|c r] eqn:E.
  - apply (f_equal (@rev ascii)) in E; rewrite rev_involutive in E; subst; reflexivity.
  - apply Ascii.eqb_eq in H; subst c.
    apply (f_equal (@rev ascii)) in E; rewrite rev_involutive in E; simpl in E; subst pre.
    rewrite <- app_assoc; simpl.
    apply (lines_from_boundary (List.length (rev r))); lia.
Qed.

End ReadFacts.

(** ** Reading a file line by line *)

Section LayoutFacts.

Import PyStr.














End LayoutFacts.

(** ** The status store *)

Section StoreFacts.

Import PyStr.

Lemma write_status_usable (d : Dict.t) (st : store) :
  Wf.usable st = true ->
  write_status d st = Ok (mkStore (Some (serialize d)) true true).
Proof.
  unfold Wf.usable, write_status, open_write; intro H.
  apply andb_true_iff in H as [Hr Hw]. now rewrite Hw, Hr.
Qed.

(** A write never raises. *)
Lemma write_status_total (d : Dict.t) (st : store) :
  exists st', write_status d st = Ok st'.
Proof.
  unfold write_status, open_write. destruct (can_write st); simpl; eauto.
Qed.

Lemma read_written (d : Dict.t) :
  Wf.record_ok d = true ->
  read_status (mkStore (Some (serialize d)) true true) = Ok d.
Proof.
  intro H; unfold read_status; simpl. now rewrite read_serialized.
Qed.

(** On a usable store [update_status] returns, and the record read
    afterwards is the record read before with the item set. *)
Lemma update_status_spec (k v : str) (st : store) :
  Wf.usable st = true -> Wf.key_ok k = true -> Wf.value_ok v = true ->
  exists st', update_status k v st = Ok st' /\ Wf.usable st' = true
              /\ record_of st' = Dict.set k v (record_of st).
Proof.
  intros Hu Hk Hv. unfold update_status.
  rewrite read_status_record; simpl.
  rewrite write_status_usable by exact Hu.
  eexists; split; [reflexivity|]; split; [reflexivity|].
  unfold record_of at 1. rewrite read_written; [reflexivity|].
  apply record_ok_set; auto using record_of_ok.
Qed.

Lemma update_status_usable (k v : str) (st : store) :
  Wf.usable st = true ->
  update_status k v st
  = Ok (mkStore (Some (serialize (Dict.set k v (record_of st)))) true true).
Proof.
  intro Hu. unfold update_status. rewrite read_status_record; cbn [bind].
  now apply write_status_usable.
Qed.

End StoreFacts.

(** ** The claims on the status store *)

Section StoreClaims.

Import PyStr.




(** C5, as stated, fails: a value may end with a blank, and a key may
    occur on two lines; the file that is written back differs. *)
Lemma read_write_not_identity :
  let blank := mkStore (Some (lit "PART=1A " ++ [LF])) true true in
  let twice := mkStore (Some (lit "STAGE=compiling" ++ LF :: lit "STAGE=complete" ++ [LF])) true true in
  (status <- read_status blank ;; write_status status blank)
    = Ok (mkStore (Some (lit "PART=1A" ++ [LF])) true true)
  /\ (status <- read_status twice ;; write_status status twice)
    = Ok (mkStore (Some (lit "STAGE=complete" ++ [LF])) true true)
  /\ lit "PART=1A" ++ [LF] <> lit "PART=1A " ++ [LF]
  /\ lit "STAGE=complete" ++ [LF]
     <> lit "STAGE=compiling" ++ LF :: lit "STAGE=complete" ++ [LF].
Proof. repeat split; try reflexivity; intro H; discriminate H. Qed.

(** C5, amended.  For a file that holds one [key=value] line per item of
    a record without repeated keys, where no key holds ['='], a line break
    or white space in front and no value holds a line break or white space
    at the end, a read returns the items in the order of the file, and
    writing that record back leaves the text of the file as it was. *)
Theorem read_write_roundtrip (d : Dict.t) :
  Wf.record_ok d = true ->
  let st := mkStore (Some (serialize d)) true true in
  read_status st = Ok d
  /\ (status <- read_status st ;; write_status status st) = Ok st.
Proof.
  intros H st. subst st. rewrite read_written by exact H. split; [reflexivity|].
  simpl. now rewrite write_status_usable.
Qed.

Lemma read_write_roundtrip_witness :
  let d := [ (lit "MODE", lit "mini-3part"); (lit "STEP", lit "generating witness");
             (lit "LOG_FILE", lit "/w/logs/a=b.log"); (lit "PART", lit "") ] in
  let st := mkStore (Some (serialize d)) true true in
  read_status st = Ok d /\ (status <- read_status st ;; write_status status st) = Ok st.
Proof. intros d st. apply (read_write_roundtrip d). reflexivity. Defined.

(** C6, as stated, fails: a value that ends with a blank is read back
    without it, and a key that holds ['='] is read back cut at it. *)
Lemma update_then_read_loses_blank :
  (exists st', update_status "PART" "1A " started = Ok st'
               /\ Dict.get "PART" (record_of st') = Some (lit "1A")
               /\ Dict.get "PART" (record_of st') <> Some (lit "1A "))
  /\ (exists st', update_status "A=B" "1" started = Ok st'
                  /\ Dict.get "A=B" (record_of st') = None
                  /\ Dict.get "A" (record_of st') = Some (lit "B=1")).
Proof.
  split; eexists; (split; [reflexivity|]); split; try reflexivity.
  intro H; discriminate H.
Qed.

(** C6, amended.  On a status file that can be read and written, for a
    key without ['='], line break or white space in front and a value
    without line break or white space at the end, [update_status] followed
    by [read_status] yields the value for the key and the former value, or
    absence, for every other key, whatever the keys are. *)
Theorem update_then_read (k v : str) (st : store) :
  Wf.usable st = true -> Wf.key_ok k = true -> Wf.value_ok v = true ->
  exists st' d',
    update_status k v st = Ok st' /\ read_status st' = Ok d'
    /\ Dict.get k d' = Some v
    /\ forall k', k' <> k -> Dict.get k' d' = Dict.get k' (record_of st).
Proof.
  intros Hu Hk Hv.
  destruct (update_status_spec k v st Hu Hk Hv) as (st' & E & _ & R).
  exists st', (record_of st'). split; [exact E|]. split; [apply read_status_record|].
  rewrite R. split; [apply get_set_same|].
  intros k' Hne. now apply get_set_other.
Qed.

Lemma update_then_read_witness :
  exists st' d',
    update_status "CUSTOM_KEY" "a=b c" started = Ok st' /\ read_status st' = Ok d'
    /\ Dict.get "CUSTOM_KEY" d' = Some (lit "a=b c")
    /\ forall k', k' <> lit "CUSTOM_KEY" -> Dict.get k' d' = Dict.get k' (record_of started).
Proof. apply (update_then_read "CUSTOM_KEY" "a=b c" started); reflexivity. Defined.

End StoreClaims.

(** ** Numbers and their digits *)

Section NumFacts.

Import PyStr PyNum.

Lemma val_acc_pos (d : Decimal.uint) (acc : positive) :
  val_acc d (N.pos acc) = N.pos (Pos.of_uint_acc d acc).
Proof.
  revert acc; induction d; intro acc; cbn [val_acc Pos.of_uint_acc];
    try reflexivity; rewrite <- IHd; f_equal; lia.
Qed.

Lemma val_acc_zero (d : Decimal.uint) : val_acc d 0 = N.of_uint d.
Proof.
  unfold N.of_uint.
  induction d; cbn [val_acc Pos.of_uint]; try reflexivity; try exact IHd;
    rewrite <- val_acc_pos; reflexivity.
Qed.

Lemma val_acc_to_uint (n : N) : val_acc (N.to_uint n) 0 = n.
Proof. rewrite val_acc_zero. apply DecimalN.Unsigned.of_to. Qed.

Lemma digits_rest_stop (rest : str) (acc : N) (n : nat) :
  stops rest = true -> digits_rest rest acc n = (acc, n, rest).
Proof.
  destruct rest as [|c rest]; simpl; [reflexivity|].
  unfold digit_val. intro H; apply andb_true_iff in H as [H1 H2].
  apply negb_true_iff in H1, H2. now rewrite H1, H2.
Qed.

(** A printed number followed by a stop is read back whole. *)
Lemma digits_rest_uint (d : Decimal.uint) (rest : str) (acc : N) (n : nat) :
  stops rest = true ->
  digits_rest (uint_chars d ++ rest) acc n
  = (val_acc d acc, (n + Decimal.nb_digits d)%nat, rest).
Proof.
  intro Hs; revert acc n; induction d; intros acc n; simpl;
    try (rewrite IHd, Nat.add_succ_r; reflexivity).
  rewrite digits_rest_stop, Nat.add_0_r by exact Hs. reflexivity.
Qed.

Lemma to_uint_nonnil (n : N) : N.to_uint n <> Decimal.Nil.
Proof.
  destruct n; simpl; [discriminate|].
  apply DecimalPos.Unsigned.to_uint_nonnil.
Qed.

Lemma digitpart_uint (d : Decimal.uint) (rest : str) :
  d <> Decimal.Nil -> stops rest = true ->
  digitpart (uint_chars d ++ rest) = Some (val_acc d 0, Decimal.nb_digits d, rest).
Proof.
  intros Hd Hs.
  pose proof (digits_rest_uint d rest 0 0 Hs) as H.
  destruct d; try contradiction; simpl in *; now rewrite H.
Qed.

Lemma digitpart_str_of_N (n : N) (rest : str) :
  stops rest = true ->
  digitpart (str_of_N n ++ rest) = Some (n, Decimal.nb_digits (N.to_uint n), rest).
Proof.
  intro Hs. unfold str_of_N.
  rewrite digitpart_uint by (auto using to_uint_nonnil).
  now rewrite val_acc_to_uint.
Qed.

Lemma uint_chars_digits (d : Decimal.uint) : forallb is_digit (uint_chars d) = true.
Proof. induction d; simpl; auto. Qed.

Lemma digit_not_space (c : ascii) : is_digit c = true -> isspace c = false.
Proof.
  unfold is_digit, isspace. intro H.
  apply andb_true_iff in H as [H1 H2].
  apply N.leb_le in H1, H2.
  repeat rewrite orb_false_iff; repeat split;
    try (apply andb_false_iff; (left; apply N.leb_gt; lia) || (right; apply N.leb_gt; lia));
    apply N.eqb_neq; lia.
Qed.

Lemma digit_not_eol (c : ascii) : is_digit c = true -> Wf.is_eol c = false.
Proof.
  intro H. destruct (Wf.is_eol c) eqn:E; [|reflexivity].
  apply is_eol_space in E. apply digit_not_space in H. congruence.
Qed.

(** Text made of characters that are not white space can be stored as a
    value. *)
Lemma nospace_value_ok (v : str) :
  forallb (fun c => negb (isspace c)) v = true -> Wf.value_ok v = true.
Proof.
  intro H. unfold Wf.value_ok. apply andb_true_iff; split.
  - unfold Wf.noeol. apply forallb_forall. intros c Hc.
    rewrite forallb_forall in H. specialize (H c Hc).
    destruct (Wf.is_eol c) eqn:E; [|reflexivity].
    apply is_eol_space in E. rewrite E in H. discriminate.
  - rewrite <- forallb_rev in H. destruct (rev v) as [|c r]; [reflexivity|].
    simpl in *. now apply andb_true_iff in H as [H _].
Qed.

Lemma digits_nospace (s : str) :
  forallb is_digit s = true -> forallb (fun c => negb (isspace c)) s = true.
Proof.
  intro H. apply forallb_forall. intros c Hc.
  rewrite forallb_forall in H. now rewrite digit_not_space by auto.
Qed.

Lemma str_of_Z_nospace (z : Z) :
  forallb (fun c => negb (isspace c)) (str_of_Z z) = true.
Proof.
  unfold str_of_Z, str_of_N. destruct (z <? 0); simpl;
    apply digits_nospace, uint_chars_digits.
Qed.

Lemma is_space_isspace (c : ascii) : is_space c = true -> isspace c = true.
Proof.
  unfold is_space, isspace. intro H.
  repeat (apply orb_true_iff in H as [H|H]).
  - apply andb_true_iff in H as [H1 H2]. now rewrite H1, H2.
  - apply N.eqb_eq in H. now rewrite H.
  - now rewrite H, !orb_true_r.
  - now rewrite H, !orb_true_r.
Qed.

Lemma nospace_trim (s : str) :
  forallb (fun c => negb (isspace c)) s = true -> trim s = s.
Proof.
  intro H.
  assert (Hh : forall t : str, forallb (fun c => negb (isspace c)) t = true ->
               dropwhile is_space t = t).
  { intros t Ht. apply dropwhile_id. destruct t as [|c t]; [exact I|].
    simpl in Ht. apply andb_true_iff in Ht as [Hc _].
    destruct (is_space c) eqn:E; [|reflexivity].
    apply is_space_isspace in E. now rewrite E in Hc. }
  unfold trim. rewrite (Hh s H), Hh by now rewrite forallb_rev.
  apply rev_involutive.
Qed.

Lemma str_of_N_head (n : N) :
  exists c s, str_of_N n = c :: s /\ is_digit c = true.
Proof.
  unfold str_of_N. pose proof (to_uint_nonnil n) as Hn.
  pose proof (uint_chars_digits (N.to_uint n)) as Hd.
  destruct (N.to_uint n); try contradiction; simpl in *; eauto.
Qed.

Lemma sign_of_digit (c : ascii) (s : str) :
  is_digit c = true -> sign_of (c :: s) = (false, c :: s).
Proof.
  intro H. unfold sign_of.
  destruct (Ascii.eqb_spec c "-"%char) as [->|_]; [discriminate H|].
  destruct (Ascii.eqb_spec c "+"%char) as [->|_]; [discriminate H|].
  reflexivity.
Qed.

(** [int(str(z))] is [z]. *)
Lemma int_str_of_Z (z : Z) : PyNum.int (str_of_Z z) = Ok z.
Proof.
  unfold PyNum.int. rewrite nospace_trim by apply str_of_Z_nospace.
  unfold str_of_Z. destruct (z <? 0) eqn:E.
  - simpl. rewrite <- (app_nil_r (str_of_N (Z.abs_N z))).
    rewrite digitpart_str_of_N by reflexivity.
    f_equal. apply Z.ltb_lt in E. rewrite N2Z.inj_abs_N. lia.
  - destruct (str_of_N_head (Z.to_N z)) as (c & s & Hs & Hc).
    rewrite Hs, sign_of_digit, <- Hs by exact Hc.
    rewrite <- (app_nil_r (str_of_N (Z.to_N z))).
    rewrite digitpart_str_of_N by reflexivity.
    f_equal. apply Z.ltb_ge in E. now rewrite Z2N.id.
Qed.

End NumFacts.

(** ** The start of a run *)

Section InitFacts.

(** What [init_status] leaves in a usable status file. *)
Lemma init_status_record
    (script_dir mode : str) (now total_parts : Z) (st : store) :
  Wf.usable st = true -> Wf.value_ok mode = true -> Wf.noeol script_dir = true ->
  exists st',
    init_status script_dir now mode total_parts st = Ok st'
    /\ Wf.usable st' = true
    /\ read_status st'
       = Ok [ (lit "MODE", mode);
              (lit "STAGE", lit "initializing");
              (lit "PART", lit "");
              (lit "STEP", lit "");
              (lit "START_TIME", PyNum.str_of_Z now);
              (lit "TOTAL_PARTS", PyNum.str_of_Z total_parts);
              (lit "COMPLETED_PARTS", lit "0");
              (lit "CURRENT_CONSTRAINTS", lit "0");
              (lit "PEAK_MEMORY", lit "0");
              (lit "ERRORS", lit "0");
              (lit "WARNINGS", lit "0");
              (lit "LOG_FILE", current_log script_dir) ].
Proof.
  intros Hu Hm Hs. unfold init_status.
  rewrite write_status_usable by exact Hu.
  eexists; split; [reflexivity|]. split; [reflexivity|].
  pose proof (current_log_value_ok script_dir Hs) as Hlog.
  apply read_written. unfold Wf.record_ok.
  cbn [forallb fst snd]. rewrite Hm, Hlog.
  rewrite (nospace_value_ok (PyNum.str_of_Z now)),
    (nospace_value_ok (PyNum.str_of_Z total_parts)) by apply str_of_Z_nospace.
  reflexivity.
Qed.

End InitFacts.

(** ** Substrings and words *)

Section WordFacts.

Import PyStr.

Lemma startswith_iff (p s : str) :
  startswith p s = true <-> exists t, s = p ++ t.
Proof.
  revert s; induction p as [|c p IH]; intro s; simpl.
  - split; eauto.
  - destruct s as [|d s].
    + split; [discriminate | intros [t H]; discriminate H].
    + rewrite andb_true_iff, Ascii.eqb_eq, IH. split.
      * intros [-> [t ->]]; eauto.
      * intros [t H]; injection H as -> ->; eauto.
Qed.

Lemma contains_iff (sub s : str) :
  contains sub s = true <-> exists pre post, s = pre ++ sub ++ post.
Proof.
  induction s as [|c s IH]; simpl.
  - rewrite orb_false_r, startswith_iff. split.
    + intros [t H]. exists [], t. exact H.
    + intros (pre & post & H). destruct pre; simpl in H.
      * eauto.
      * discriminate H.
  - rewrite orb_true_iff, startswith_iff, IH. split.
    + intros [[t H] | (pre & post & ->)].
      * exists [], t. exact H.
      * exists (c :: pre), post. reflexivity.
    + intros (pre & post & H). destruct pre as [|e pre]; simpl in H.
      * left; eauto.
      * right. injection H as -> ->. eauto.
Qed.

Lemma contains_trans (a b c : str) :
  contains a b = true -> contains b c = true -> contains a c = true.
Proof.
  rewrite !contains_iff. intros (p1 & q1 & ->) (p2 & q2 & ->).
  exists (p2 ++ p1), (q1 ++ q2). now rewrite <- !app_assoc.
Qed.

Lemma contains_lower (sub s : str) :
  contains sub s = true -> contains (lower sub) (lower s) = true.
Proof.
  rewrite !contains_iff. intros (p & q & ->).
  exists (lower p), (lower q). unfold lower. now rewrite !map_app.
Qed.

(** The words of [split] hold no white space. *)
Lemma split_from_nospace (s cur : str) :
  forallb (fun c => negb (isspace c)) cur = true ->
  Forall (fun w => forallb (fun c => negb (isspace c)) w = true) (split_from cur s).
Proof.
  revert cur; induction s as [|c s IH]; intros cur Hc; simpl.
  - destruct cur; constructor; [now rewrite forallb_rev | constructor].
  - destruct (isspace c) eqn:E.
    + destruct cur; [now apply IH|].
      constructor; [now rewrite forallb_rev | now apply IH].
    + apply IH. simpl. now rewrite E.
Qed.

Lemma find_word_ok (p : str -> bool) (line word : str) :
  find p (split line) = Some word -> Wf.value_ok word = true.
Proof.
  intro H. apply find_some in H as [Hin _].
  apply nospace_value_ok.
  pose proof (split_from_nospace line [] eq_refl) as Hall.
  rewrite Forall_forall in Hall. now apply Hall.
Qed.

Lemma span_forall (p : ascii -> bool) (s : str) : forallb p (fst (Classifier.span p s)) = true.
Proof.
  induction s as [|c s IH]; simpl; [reflexivity|].
  destruct (p c) eqn:E; [|reflexivity].
  destruct (Classifier.span p s); simpl in *. now rewrite E.
Qed.

Lemma search_constraints_digits (s g : str) :
  Classifier.search_constraints s = Some g -> forallb PyNum.is_digit g = true.
Proof.
  assert (Hm : forall t, Classifier.match_constraints t = Some g ->
                         forallb PyNum.is_digit g = true).
  { intros t. unfold Classifier.match_constraints.
    pose proof (span_forall PyNum.is_digit t) as Hs.
    destruct (Classifier.span PyNum.is_digit t) as [a b]; simpl in Hs.
    destruct a; [discriminate|].
    destruct (startswith _ _); [|discriminate].
    intro H; injection H as <-. exact Hs. }
  induction s as [|c s IH]; cbn [Classifier.search_constraints].
  - destruct (Classifier.match_constraints []) eqn:E; [|discriminate].
    intro H; injection H as ->. now apply (Hm []).
  - destruct (Classifier.match_constraints (c :: s)) eqn:E.
    + intro H; injection H as ->. now apply (Hm (c :: s)).
    + exact IH.
Qed.

(** The test of the first rule is a test for the substring "part" in the
    line put in lower case. *)
Lemma part_rule_substring (line : str) :
  Classifier.part_rule line = contains "part" (lower line).
Proof.
  unfold Classifier.part_rule.
  destruct (contains "Compiling Part" line) eqn:E; [|reflexivity].
  simpl. symmetry.
  apply (contains_trans _ (lower "Compiling Part")); [reflexivity|].
  now apply contains_lower.
Qed.

End WordFacts.

(** ** The classifier on the record *)

Section ClassifierFacts.

Import PyStr.

Ltac step_update k v st Hu :=
  let st' := fresh "st" in
  let E := fresh "E" in
  let U := fresh "U" in
  let R := fresh "R" in
  destruct (update_status_spec k v st Hu) as (st' & E & U & R);
  [ reflexivity | try reflexivity | rewrite E; cbn [bind] ].

Lemma on_part_sim (line : str) (st : store) :
  Wf.usable st = true ->
  exists st', Classifier.on_part line st = Ok st' /\ Wf.usable st' = true
              /\ record_of st' = Rec.on_part line (record_of st).
Proof.
  intro Hu. unfold Classifier.on_part, Rec.on_part.
  destruct (Classifier.part_rule line); [|eauto].
  step_update (lit "STAGE") (lit "compiling") st Hu.
  destruct (find Classifier.is_part_word (split line)) as [word|] eqn:F.
  - destruct (update_status_spec (lit "PART") word st0 U eq_refl
                (find_word_ok _ _ _ F)) as (st1 & E1 & U1 & R1).
    exists st1. now rewrite E1, R1, R.
  - exists st0. now rewrite R.
Qed.

Lemma on_constraints_sim (line : str) (st : store) :
  Wf.usable st = true ->
  exists st', Classifier.on_constraints line st = Ok st' /\ Wf.usable st' = true
              /\ record_of st' = Rec.on_constraints line (record_of st).
Proof.
  intro Hu. unfold Classifier.on_constraints, Rec.on_constraints.
  destruct (Classifier.constraints_rule line); [|eauto].
  destruct (Classifier.search_constraints line) as [g|] eqn:F; [|eauto].
  apply update_status_spec; [exact Hu | reflexivity |].
  apply nospace_value_ok, digits_nospace. now apply (search_constraints_digits line).
Qed.

Lemma on_compiled_sim (line : str) (st : store) :
  Wf.usable st = true ->
  match Classifier.on_compiled line st with
  | Ok st' => Wf.usable st' = true
              /\ Rec.on_compiled line (record_of st) = Ok (record_of st')
  | Raise e => Rec.on_compiled line (record_of st) = Raise e
  end.
Proof.
  intro Hu. unfold Classifier.on_compiled, Rec.on_compiled.
  destruct (Classifier.compiled_rule line); [|auto].
  rewrite read_status_record; cbn [bind].
  destruct (PyNum.int _) as [n|e]; cbn [bind]; [|reflexivity].
  destruct (update_status_spec (lit "COMPLETED_PARTS") (PyNum.str_of_Z (n + 1)) st Hu eq_refl)
    as (st' & E & U & R).
  - apply nospace_value_ok, str_of_Z_nospace.
  - rewrite E, R. auto.
Qed.

Lemma two_updates (k1 v1 k2 v2 : str) (st : store) :
  Wf.usable st = true ->
  Wf.key_ok k1 = true -> Wf.value_ok v1 = true ->
  Wf.key_ok k2 = true -> Wf.value_ok v2 = true ->
  exists st', (st1 <- update_status k1 v1 st ;; update_status k2 v2 st1) = Ok st'
              /\ Wf.usable st' = true
              /\ record_of st' = Dict.set k2 v2 (Dict.set k1 v1 (record_of st)).
Proof.
  intros Hu K1 V1 K2 V2.
  destruct (update_status_spec k1 v1 st Hu K1 V1) as (st1 & E1 & U1 & R1).
  destruct (update_status_spec k2 v2 st1 U1 K2 V2) as (st2 & E2 & U2 & R2).
  exists st2. rewrite E1; cbn [bind]. now rewrite E2, R2, R1.
Qed.

Lemma on_witness_sim (line : str) (st : store) :
  Wf.usable st = true ->
  exists st', Classifier.on_witness line st = Ok st' /\ Wf.usable st' = true
              /\ record_of st' = Rec.on_witness line (record_of st).
Proof.
  intro Hu. unfold Classifier.on_witness, Rec.on_witness.
  destruct (Classifier.witness_rule line); [|eauto].
  now apply two_updates.
Qed.

Lemma on_zkey_sim (line : str) (st : store) :
  Wf.usable st = true ->
  exists st', Classifier.on_zkey line st = Ok st' /\ Wf.usable st' = true
              /\ record_of st' = Rec.on_zkey line (record_of st).
Proof.
  intro Hu. unfold Classifier.on_zkey, Rec.on_zkey.
  destruct (Classifier.zkey_rule line); [|eauto].
  now apply two_updates.
Qed.

Lemma on_proof_sim (line : str) (st : store) :
  Wf.usable st = true ->
  exists st', Classifier.on_proof line st = Ok st' /\ Wf.usable st' = true
              /\ record_of st' = Rec.on_proof line (record_of st).
Proof.
  intro Hu. unfold Classifier.on_proof, Rec.on_proof.
  destruct (Classifier.proof_rule line); [|eauto].
  now apply two_updates.
Qed.

Lemma on_done_sim (line : str) (st : store) :
  Wf.usable st = true ->
  exists st', Classifier.on_done line st = Ok st' /\ Wf.usable st' = true
              /\ record_of st' = Rec.on_done line (record_of st).
Proof.
  intro Hu. unfold Classifier.on_done, Rec.on_done.
  destruct (Classifier.done_rule line); [|eauto].
  now apply update_status_spec.
Qed.

(** On a usable status file the classifier does to the file what the
    rules do to the record, and raises when they raise. *)
Lemma classify_sim (line : str) (st : store) :
  Wf.usable st = true ->
  match Classifier.classify line st with
  | Ok st' => Wf.usable st' = true
              /\ Rec.classify line (record_of st) = Ok (record_of st')
  | Raise e => Rec.classify line (record_of st) = Raise e
  end.
Proof.
  intro Hu. unfold Classifier.classify, Rec.classify.
  destruct (on_part_sim line st Hu) as (st1 & -> & U1 & <-); cbn [bind].
  destruct (on_constraints_sim line st1 U1) as (st2 & -> & U2 & <-); cbn [bind].
  pose proof (on_compiled_sim line st2 U2) as H3.
  destruct (Classifier.on_compiled line st2) as [st3|e]; cbn [bind].
  2: { rewrite H3. reflexivity. }
  destruct H3 as [U3 ->]; cbn [bind].
  destruct (on_witness_sim line st3 U3) as (st4 & -> & U4 & <-); cbn [bind].
  destruct (on_zkey_sim line st4 U4) as (st5 & -> & U5 & <-); cbn [bind].
  destruct (on_proof_sim line st5 U5) as (st6 & -> & U6 & <-); cbn [bind].
  destruct (on_done_sim line st6 U6) as (st7 & -> & U7 & <-).
  auto.
Qed.

End ClassifierFacts.

(** ** The claims on the classifier *)

Section ClassifierClaims.

Import PyStr.

Ltac other_key := apply eqb_neq; reflexivity.

Lemma stage_on_constraints (line : str) (d : Dict.t) (k : str) :
  k <> lit "CURRENT_CONSTRAINTS" ->
  Dict.get k (Rec.on_constraints line d) = Dict.get k d.
Proof.
  intro Hk. unfold Rec.on_constraints.
  destruct (Classifier.constraints_rule line); [|reflexivity].
  destruct (Classifier.search_constraints line); [|reflexivity].
  now apply get_set_other.
Qed.

Lemma other_on_part (line : str) (d : Dict.t) (k : str) :
  k <> lit "STAGE" -> k <> lit "PART" ->
  Dict.get k (Rec.on_part line d) = Dict.get k d.
Proof.
  intros H1 H2. unfold Rec.on_part.
  destruct (Classifier.part_rule line); [|reflexivity].
  destruct (find _ _); now rewrite ?get_set_other by assumption.
Qed.

Lemma other_on_compiled (line : str) (d d' : Dict.t) (k : str) :
  k <> lit "COMPLETED_PARTS" ->
  Rec.on_compiled line d = Ok d' -> Dict.get k d' = Dict.get k d.
Proof.
  intro Hk. unfold Rec.on_compiled.
  destruct (Classifier.compiled_rule line).
  - destruct (PyNum.int _); cbn [bind]; intro H; [|discriminate H].
    injection H as <-. now apply get_set_other.
  - intro H; injection H as <-. reflexivity.
Qed.

(** What the last four rules leave in an item other than the stage and
    the step. *)
Lemma other_on_tail (line : str) (d : Dict.t) (k : str) :
  k <> lit "STAGE" -> k <> lit "STEP" ->
  Dict.get k (Rec.on_done line (Rec.on_proof line (Rec.on_zkey line (Rec.on_witness line d))))
  = Dict.get k d.
Proof.
  intros H1 H2. unfold Rec.on_done, Rec.on_proof, Rec.on_zkey, Rec.on_witness.
  destruct (Classifier.done_rule line), (Classifier.proof_rule line),
    (Classifier.zkey_rule line), (Classifier.witness_rule line);
    now rewrite ?get_set_other by assumption.
Qed.

(** The stage after the last four rules: the stage before them, or the
    stage of the last of them that fires. *)
Lemma stage_on_tail (line : str) (d : Dict.t) :
  let d' := Rec.on_done line (Rec.on_proof line (Rec.on_zkey line (Rec.on_witness line d))) in
  Dict.get "STAGE" d' = Dict.get "STAGE" d
  \/ In (Dict.get "STAGE" d')
        [ Some (lit "witness"); Some (lit "trusted_setup");
          Some (lit "proving"); Some (lit "complete") ].
Proof.
  unfold Rec.on_done, Rec.on_proof, Rec.on_zkey, Rec.on_witness.
  destruct (Classifier.done_rule line), (Classifier.proof_rule line),
    (Classifier.zkey_rule line), (Classifier.witness_rule line); cbn zeta;
    rewrite ?get_set_same;
    repeat (rewrite (get_set_other (lit "STEP") (lit "STAGE")) by other_key;
            rewrite ?get_set_same);
    simpl; tauto.
Qed.

(** C2, as stated, fails: a line with "done" in lower case leaves the
    stage as it is. *)
Lemma lower_case_done_ignored :
  contains "done" (lower "all done") = true
  /\ Classifier.classify "all done" started = Ok started
  /\ Dict.get "STAGE" (record_of started) = Some (lit "initializing").
Proof. repeat split. Qed.

(** C2, amended.  On a usable status file, a line that contains "Done"
    with this capitalisation, or "success" in any capitalisation, ends
    with the stage [complete]; the counter of completed parts has to
    parse when the line also contains "compiled", which the line "Done."
    does not. *)
Theorem done_sets_complete (line : str) (st : store) :
  Wf.usable st = true ->
  contains "Done" line = true \/ contains "success" (lower line) = true ->
  Classifier.compiled_rule line = false
  \/ (exists n, PyNum.int (Dict.get_default "COMPLETED_PARTS" "0" (record_of st)) = Ok n) ->
  exists st', Classifier.classify line st = Ok st'
              /\ Dict.get "STAGE" (record_of st') = Some (lit "complete").
Proof.
  intros Hu Hdone Hc.
  assert (Hrule : Classifier.done_rule line = true).
  { unfold Classifier.done_rule. destruct Hdone as [-> | ->]; auto using orb_true_r. }
  pose proof (classify_sim line st Hu) as Hsim.
  assert (Hrec : exists d', Rec.classify line (record_of st) = Ok d'
                            /\ Dict.get "STAGE" d' = Some (lit "complete")).
  { unfold Rec.classify.
    assert (Hok : exists d3, Rec.on_compiled line
                    (Rec.on_constraints line (Rec.on_part line (record_of st))) = Ok d3).
    { unfold Rec.on_compiled. destruct Hc as [-> | [n Hn]]; [eauto|].
      destruct (Classifier.compiled_rule line); [|eauto].
      unfold Dict.get_default in *.
      rewrite stage_on_constraints, other_on_part by other_key.
      rewrite Hn; cbn [bind]. eauto. }
    destruct Hok as [d3 ->]; cbn [bind].
    eexists; split; [reflexivity|].
    unfold Rec.on_done at 1. rewrite Hrule. apply get_set_same. }
  destruct Hrec as (d' & Hd' & Hstage).
  destruct (Classifier.classify line st) as [st'|e].
  - destruct Hsim as [_ Hsim]. exists st'. split; [reflexivity|]. congruence.
  - congruence.
Qed.

Lemma done_sets_complete_witness :
  exists st', Classifier.classify "Done." started = Ok st'
              /\ Dict.get "STAGE" (record_of st') = Some (lit "complete").
Proof.
  apply (done_sets_complete "Done." started).
  - reflexivity.
  - left; reflexivity.
  - left; reflexivity.
Defined.

(** C3, as stated, fails: "part" inside a longer word sets the stage, and
    the longer word becomes the part. *)
Lemma partial_sets_compiling :
  let line : str := "partial results" in
  contains "compiling part" (lower line) = false
  /\ existsb (fun w => PyStr.eqb (lower w) "part") (split line) = false
  /\ exists st', Classifier.classify line started = Ok st'
                 /\ Dict.get "STAGE" (record_of st') = Some (lit "compiling")
                 /\ Dict.get "PART" (record_of st') = Some (lit "partial").
Proof.
  repeat split. eexists. repeat split; reflexivity.
Qed.

Lemma classify_part_example (d : Dict.t) :
  Rec.classify "Compiling Part 1A: building constraints" d
  = Ok (Dict.set "PART" "Part" (Dict.set "STAGE" "compiling" d)).
Proof. reflexivity. Qed.

(** C3, amended.  The first rule fires exactly on the lines that hold
    "part" as a substring in any capitalisation, inside a longer word or
    not.  When it fires it sets the stage to [compiling] and sets the part
    to the first word of [split] that begins with "part" or "Part", when
    there is one.  When it does not fire it leaves the file alone, and the
    whole classification of the line leaves the stage as it was or sets
    one of the stages of the last four rules.  The line
    "Compiling Part 1A: building constraints" yields the stage [compiling]
    and the part "Part". *)
Theorem part_sets_compiling (line : str) (st : store) :
  Wf.usable st = true ->
  Classifier.part_rule line = contains "part" (lower line)
  /\ (contains "part" (lower line) = true ->
      exists st', Classifier.on_part line st = Ok st'
        /\ Dict.get "STAGE" (record_of st') = Some (lit "compiling")
        /\ Dict.get "PART" (record_of st')
           = match find Classifier.is_part_word (split line) with
             | Some word => Some word
             | None => Dict.get "PART" (record_of st)
             end)
  /\ (contains "part" (lower line) = false ->
      Classifier.on_part line st = Ok st
      /\ forall st', Classifier.classify line st = Ok st' ->
           Dict.get "STAGE" (record_of st') = Dict.get "STAGE" (record_of st)
           \/ In (Dict.get "STAGE" (record_of st'))
                [ Some (lit "witness"); Some (lit "trusted_setup");
                  Some (lit "proving"); Some (lit "complete") ])
  /\ (exists st', Classifier.classify "Compiling Part 1A: building constraints" st = Ok st'
        /\ Dict.get "STAGE" (record_of st') = Some (lit "compiling")
        /\ Dict.get "PART" (record_of st') = Some (lit "Part")).
Proof.
  intro Hu. split; [apply part_rule_substring|]. split; [|split].
  - intro Hp. destruct (on_part_sim line st Hu) as (st' & E & _ & R).
    exists st'. split; [exact E|]. rewrite R. unfold Rec.on_part.
    rewrite part_rule_substring, Hp.
    destruct (find Classifier.is_part_word (split line)).
    + split; [|apply get_set_same].
      rewrite get_set_other by other_key. apply get_set_same.
    + split; [apply get_set_same|].
      apply get_set_other. other_key.
  - intro Hp. split.
    + unfold Classifier.on_part. now rewrite part_rule_substring, Hp.
    + intros st' Hc. pose proof (classify_sim line st Hu) as Hsim.
      rewrite Hc in Hsim. destruct Hsim as [_ Hsim].
      unfold Rec.classify in Hsim.
      destruct (Rec.on_compiled line _) as [d3|] eqn:E3; [|discriminate Hsim].
      cbn [bind] in Hsim. injection Hsim as Hsim. rewrite <- Hsim.
      assert (H0 : Dict.get "STAGE" d3 = Dict.get "STAGE" (record_of st)).
      { rewrite (other_on_compiled _ _ _ (lit "STAGE") ltac:(other_key) E3).
        rewrite stage_on_constraints by other_key.
        unfold Rec.on_part. now rewrite part_rule_substring, Hp. }
      rewrite <- H0. apply stage_on_tail.
  - pose proof (classify_sim "Compiling Part 1A: building constraints" st Hu) as Hsim.
    rewrite classify_part_example in Hsim.
    destruct (Classifier.classify _ st) as [st'|e]; [|discriminate Hsim].
    destruct Hsim as [_ Hsim]. injection Hsim as Hsim.
    exists st'. split; [reflexivity|]. rewrite <- Hsim.
    split; [|apply get_set_same].
    rewrite get_set_other by other_key. apply get_set_same.
Qed.

Lemma part_sets_compiling_witness :
  exists st', Classifier.classify "Compiling Part 1A: building constraints" started = Ok st'
    /\ Dict.get "STAGE" (record_of st') = Some (lit "compiling")
    /\ Dict.get "PART" (record_of st') = Some (lit "Part").
Proof.
  destruct (part_sets_compiling "Compiling Part 1A: building constraints" started)
    as (_ & _ & _ & H); [reflexivity | exact H].
Defined.

(** C7: what the classifier does with a counter of completed parts that
    does not parse.  On a usable status file whose stored counter is not
    an integer, a line that holds "compiled" in any capitalisation makes
    the rule raise the error of [int]: nothing is added to the counter,
    the classification of the line stops there, and [read_output] ends
    with the error, so that no later line is classified and the stage is
    never set to [complete].  The file [COMPLETED_PARTS=abc] and the line
    "Compiled part 1A" are such a case.  A counter that parses is
    incremented: the lines "Compiled part 1A" and "Compiled part 1B" take
    it from 0 to 2, and a missing counter counts as 0. *)
Theorem unparseable_counter_aborts
    (line : str) (lines : list str) (st : store) (e : exn) :
  Wf.usable st = true ->
  contains "compiled" (lower line) = true ->
  PyNum.int (Dict.get_default "COMPLETED_PARTS" "0" (record_of st)) = Raise e ->
  Classifier.on_compiled line st = Raise e
  /\ Classifier.classify line st = Raise e
  /\ Classifier.read_output (Classifier.mkLog None (fun _ _ => None)) (line :: lines) st
     = Raise e
  /\ Classifier.classify "Compiled part 1A"
       (mkStore (Some (lit "COMPLETED_PARTS=abc" ++ [LF])) true true)
     = Raise ValueError
  /\ (exists st2,
        (st1 <- Classifier.classify "Compiled part 1A" started ;;
         Classifier.classify "Compiled part 1B" st1) = Ok st2
        /\ Dict.get "COMPLETED_PARTS" (record_of started) = Some (lit "0")
        /\ Dict.get "COMPLETED_PARTS" (record_of st2) = Some (lit "2"))
  /\ (exists st1,
        Classifier.classify "Compiled part 1A" (mkStore (Some []) true true) = Ok st1
        /\ Dict.get "COMPLETED_PARTS" (record_of st1) = Some (lit "1")).
Proof.
  intros Hu Hline Hn.
  assert (Hrule : Classifier.compiled_rule line = true).
  { unfold Classifier.compiled_rule. now rewrite Hline. }
  assert (Hc : Classifier.classify line st = Raise e).
  { pose proof (classify_sim line st Hu) as Hsim.
    assert (Hrec : Rec.classify line (record_of st) = Raise e).
    { unfold Rec.classify, Rec.on_compiled. rewrite Hrule.
      unfold Dict.get_default in *.
      rewrite stage_on_constraints, other_on_part by other_key.
      now rewrite Hn. }
    destruct (Classifier.classify line st) as [st'|e'].
    - destruct Hsim as [_ Hsim]. congruence.
    - congruence. }
  split; [|split; [exact Hc | split; [|split; [reflexivity | split]]]].
  - unfold Classifier.on_compiled. rewrite Hrule, read_status_record. cbn [bind].
    now rewrite Hn.
  - cbn [Classifier.read_output Classifier.open_fails Classifier.read_lines
           Classifier.write_fails]. now rewrite Hc.
  - eexists. repeat split; reflexivity.
  - eexists. split; reflexivity.
Qed.

Lemma unparseable_counter_aborts_witness :
  Classifier.classify "compiled 1B ok"
    (mkStore (Some (lit "STAGE=compiling" ++ LF :: lit "COMPLETED_PARTS=" ++ [LF])) true true)
  = Raise ValueError.
Proof.
  destruct (unparseable_counter_aborts "compiled 1B ok" []
              (mkStore (Some (lit "STAGE=compiling" ++ LF :: lit "COMPLETED_PARTS=" ++ [LF]))
                 true true) ValueError) as (_ & H & _);
    [reflexivity | reflexivity | reflexivity | exact H].
Defined.

End ClassifierClaims.

(** ** The claims on the renderer *)

Section RenderClaims.

Import Render.

Lemma update_status_total (k v : str) (st : store) :
  exists st', update_status k v st = Ok st'.
Proof.
  unfold update_status. rewrite read_status_record; cbn [bind].
  apply write_status_total.
Qed.

Lemma draw_metric_bar_total (value : Q) (max_val width : Z) (color : text) :
  exists bar, draw_metric_bar value max_val width color = Ok bar.
Proof.
  unfold draw_metric_bar, PyNum.trunc; cbn [bind]. destruct color; eauto.
Qed.

(** The system-metrics panel is drawn whenever the stored peak parses. *)
Lemma draw_system_metrics_ok (m : sample) (status : Dict.t) (st : store) :
  forall st' peak, update_peak status (mem_used m) st = Ok (st', peak) ->
  exists panel, draw_system_metrics m status st = Ok (panel, st').
Proof.
  intros st' peak E. unfold draw_system_metrics. rewrite E; cbn [bind].
  destruct (draw_metric_bar_total (cpu m) 100 25 (get_color_for_percent (cpu m) 50 80))
    as [b1 ->]; cbn [bind].
  match goal with
  | |- context [draw_metric_bar ?v 100 25 ?c] =>
      destruct (draw_metric_bar_total v 100 25 c) as [b2 ->]; cbn [bind]
  end.
  destruct (negb (Qle_bool (swap_total m) 0)); cbn [bind]; [|eauto].
  match goal with
  | |- context [draw_metric_bar ?v 100 25 ?c] =>
      destruct (draw_metric_bar_total v 100 25 c) as [b3 ->]; cbn [bind]
  end.
  eauto.
Qed.

Lemma update_peak_parsed (status : Dict.t) (used : Q) (st : store) (peak : PyNum.pyfloat) :
  PyNum.float (Dict.get_default "PEAK_MEMORY" "0" status) = Ok peak ->
  exists st' peak', update_peak status used st = Ok (st', peak').
Proof.
  intro H. unfold update_peak. rewrite H; cbn [bind].
  destruct (PyNum.gt _ _); [|eauto].
  destruct (update_status_total (lit "PEAK_MEMORY") (PyNum.fmt_f 1 (PyNum.Finite used)) st)
    as [st' ->]; cbn [bind]. eauto.
Qed.

(** C9.  For 3 of 8 parts and a width of 40 the bar is 15 full cells, 15
    being [3 * 40 / 8] rounded down, then 25 empty cells, and the text
    after the bar reports 37, which is [3 * 100 / 8] rounded down, as a
    percentage. *)
Theorem progress_bar_3_of_8 :
  exists s,
    draw_progress_bar 3 8 40 = Ok s
    /\ s = T "[" ++ times FULL_BLOCK 15 ++ times LIGHT_SHADE 25 ++ T "]  37%"
    /\ count_occ N.eq_dec s 9608%N = 15%nat
    /\ count_occ N.eq_dec s 9617%N = 25%nat
    /\ 3 * 40 / 8 = 15 /\ 40 - 15 = 25 /\ 3 * 100 / 8 = 37.
Proof. eexists. repeat split; reflexivity. Qed.

Lemma dropwhile_spaces (k : nat) (s : str) :
  PyStr.dropwhile PyNum.is_space (repeat " "%char k ++ s) = PyStr.dropwhile PyNum.is_space s.
Proof. induction k as [|k IH]; [reflexivity | exact IH]. Qed.

(** [int] reads a number that is printed to a width. *)
Lemma int_fmt_d (width : nat) (z : Z) : PyNum.int (PyNum.fmt_d width z) = Ok z.
Proof.
  transitivity (PyNum.int (PyNum.str_of_Z z)); [|apply int_str_of_Z].
  unfold PyNum.int, PyNum.fmt_d, PyNum.rjust, PyNum.trim.
  now rewrite dropwhile_spaces.
Qed.

Lemma fmt_d_length (width : nat) (z : Z) :
  (width <= List.length (PyNum.fmt_d width z))%nat.
Proof.
  unfold PyNum.fmt_d, PyNum.rjust. rewrite length_app, repeat_length. lia.
Qed.

(** C10.  [draw_progress_bar] raises [ZeroDivisionError] for no count,
    total and width: a total of zero is replaced by one before the two
    divisions, which raise on a divisor of zero.  With a total of zero the
    bar is the one of the total one, for every count and width: where a
    bar is returned, which it is for counts and widths up to a thousand,
    the cells are [current * width] full ones and the text of at least
    three characters between the bar and the percent sign reads as the
    number [current * 100]; so 3 of 0 on a width of 4 gives twelve full
    cells (U+2588) and "300%", and 0 of 0 gives four empty cells (U+2591)
    and "  0%". *)
Theorem progress_bar_total :
  (forall current total width,
     draw_progress_bar current total width <> Raise ZeroDivisionError)
  /\ (forall x, PyNum.floordiv x 0 = Raise ZeroDivisionError)
  /\ (forall current width,
        draw_progress_bar current 0 width = draw_progress_bar current 1 width)
  /\ (forall current width s,
        draw_progress_bar current 0 width = Ok s ->
        exists pct,
          s = T "[" ++ times FULL_BLOCK (current * width)
                ++ times LIGHT_SHADE (width - current * width)
                ++ T "] " ++ code_points pct ++ T "%"
          /\ PyNum.int pct = Ok (current * 100) /\ (3 <= List.length pct)%nat)
  /\ (forall current width,
        Z.abs current <= 1000 -> Z.abs width <= 1000 ->
        exists s, draw_progress_bar current 0 width = Ok s)
  /\ draw_progress_bar 3 0 4
     = Ok ([91] ++ repeat 9608 12 ++ [93; 32; 51; 48; 48; 37])%N
  /\ draw_progress_bar 0 0 4
     = Ok ([91] ++ repeat 9617 4 ++ [93; 32; 32; 32; 48; 37])%N.
Proof.
  assert (Hzero : forall c w,
            draw_progress_bar c 0 w
            = Ok (T "[" ++ times FULL_BLOCK (c * w) ++ times LIGHT_SHADE (w - c * w)
                    ++ T "] " ++ code_points (PyNum.fmt_d 3 (c * 100)) ++ T "%")).
  { intros c w. unfold draw_progress_bar, PyNum.floordiv. cbn [Z.eqb bind].
    now rewrite !Z.div_1_r, <- app_assoc. }
  split; [|split; [|split; [|split; [|split; [|split]]]]].
  - intros c t w. unfold draw_progress_bar, PyNum.floordiv.
    destruct (t =? 0) eqn:E; cbn [Z.eqb bind]; [discriminate|].
    rewrite E. cbn [bind]. discriminate.
  - reflexivity.
  - reflexivity.
  - intros c w s Hs. rewrite Hzero in Hs. injection Hs as <-.
    exists (PyNum.fmt_d 3 (c * 100)).
    split; [reflexivity|]. split; [apply int_fmt_d | apply fmt_d_length].
  - intros c w _ _. rewrite Hzero. eexists. reflexivity.
  - reflexivity.
  - reflexivity.
Qed.

Lemma progress_bar_total_witness :
  exists s pct,
    draw_progress_bar 5 0 50 = Ok s
    /\ s = T "[" ++ times FULL_BLOCK (5 * 50) ++ times LIGHT_SHADE (50 - 5 * 50)
            ++ T "] " ++ code_points pct ++ T "%"
    /\ PyNum.int pct = Ok (5 * 100) /\ (3 <= List.length pct)%nat.
Proof.
  destruct progress_bar_total as (_ & _ & _ & Hpct & Hret & _).
  destruct (Hret 5 50) as [s Hs]; [lia | lia |].
  destruct (Hpct 5 50 s Hs) as (pct & H).
  exists s, pct. split; [exact Hs | exact H].
Defined.

(** C1: what the two panels do with a field that does not parse.  A
    value of [TOTAL_PARTS], [COMPLETED_PARTS] or [START_TIME] that is not
    an integer, the empty text included, makes [draw_compilation_progress]
    raise [ValueError], and a value of [PEAK_MEMORY] that is not a number
    makes [draw_system_metrics] raise it, so the frame is not drawn; a
    value of [CURRENT_CONSTRAINTS] that is not an integer is caught inside
    the panel, which is drawn without the line.  A missing field takes the
    default written in the call. *)
Theorem unparseable_field_aborts_draw (now : Z) (m : sample) (st : store) :
  draw_compilation_progress now [ (lit "TOTAL_PARTS", lit "abc") ] = Raise ValueError
  /\ draw_compilation_progress now [ (lit "COMPLETED_PARTS", lit "") ] = Raise ValueError
  /\ draw_compilation_progress now [ (lit "START_TIME", lit "12:00") ] = Raise ValueError
  /\ draw_system_metrics m [ (lit "PEAK_MEMORY", lit "n/a") ] st = Raise ValueError
  /\ draw_panels now m (mkStore (Some (lit "TOTAL_PARTS=" ++ [PyStr.LF])) true true)
     = Raise ValueError
  /\ (exists panel,
        draw_compilation_progress now
          [ (lit "STAGE", lit "compiling"); (lit "CURRENT_CONSTRAINTS", lit "abc") ]
        = Ok panel)
  /\ (exists panel,
        draw_compilation_progress now Dict.empty = Ok panel
        /\ draw_compilation_progress now
             [ (lit "TOTAL_PARTS", lit "8"); (lit "COMPLETED_PARTS", lit "0");
               (lit "START_TIME", lit "0"); (lit "CURRENT_CONSTRAINTS", lit "0") ]
           = Ok panel).
Proof.
  repeat split; try reflexivity.
  - unfold draw_panels.
    change (read_status (mkStore (Some (lit "TOTAL_PARTS=" ++ [PyStr.LF])) true true))
      with (@Ok Dict.t [ (lit "TOTAL_PARTS", lit "") ]).
    cbn [bind].
    destruct (update_peak_parsed [ (lit "TOTAL_PARTS", lit "") ] (mem_used m)
                (mkStore (Some (lit "TOTAL_PARTS=" ++ [PyStr.LF])) true true)
                (PyNum.Finite (inject_Z 0 * PyNum.ten_to (0 - 0))) eq_refl)
      as (st' & peak' & E).
    destruct (draw_system_metrics_ok m _ _ _ _ E) as [panel ->].
    reflexivity.
  - eexists. vm_compute. reflexivity.
  - eexists. split; vm_compute; reflexivity.
Qed.

End RenderClaims.

(** ** Peak memory *)

Section PeakFacts.

Import PyStr PyNum Render.

Lemma round_half_even_ge (x : Q) (t : Z) :
  (inject_Z t <= x)%Q -> t <= round_half_even x.
Proof.
  unfold Qle, round_half_even; simpl. intro H.
  assert (Hfl : t <= Qnum x / Z.pos (Qden x)).
  { apply Z.div_le_lower_bound; lia. }
  destruct (_ <? _); [exact Hfl|].
  destruct (_ <? _); [lia|].
  destruct (Z.even _); lia.
Qed.

Lemma lower_digit (c : ascii) : is_digit c = true -> lower_char c = c.
Proof.
  unfold is_digit, lower_char. intro H.
  apply andb_true_iff in H as [_ H]. apply N.leb_le in H.
  assert ((65 <=? code c)%N = false) as -> by (apply N.leb_gt; lia).
  assert ((192 <=? code c)%N = false) as -> by (apply N.leb_gt; lia).
  reflexivity.
Qed.

(** A text that starts with a digit is none of the words that [float]
    knows. *)
Lemma digit_not_word (c : ascii) (s w : str) :
  is_digit c = true ->
  match w with x :: _ => is_digit x | [] => false end = false ->
  PyStr.eqb (lower (c :: s)) w = false.
Proof.
  intros Hc Hw. destruct w as [|x w]; [reflexivity|].
  simpl. rewrite lower_digit by exact Hc.
  destruct (Ascii.eqb_spec c x) as [->|_]; [congruence | reflexivity].
Qed.

Lemma str_of_N_length (n : N) : (1 <= List.length (str_of_N n))%nat.
Proof.
  destruct (str_of_N_head n) as (c & s & -> & _). simpl; lia.
Qed.

Lemma nb_digits_small (r : N) : (r < 10)%N -> Decimal.nb_digits (N.to_uint r) = 1%nat.
Proof.
  intro H.
  assert (r = 0 \/ r = 1 \/ r = 2 \/ r = 3 \/ r = 4 \/ r = 5 \/ r = 6 \/ r = 7
          \/ r = 8 \/ r = 9)%N as Hr by lia.
  repeat (destruct Hr as [-> | Hr]; [reflexivity|]). now subst.
Qed.

Lemma fixed_nospace (a r : N) :
  forallb (fun c => negb (isspace c)) (str_of_N a ++ "."%char :: str_of_N r) = true.
Proof.
  rewrite forallb_app. simpl.
  unfold str_of_N. now rewrite !digits_nospace by apply uint_chars_digits.
Qed.

(** [float] reads back a number printed with one digit after the point. *)
Lemma float_fixed (a r : N) :
  (r < 10)%N ->
  exists q, PyNum.float (str_of_N a ++ "."%char :: str_of_N r) = Ok (Finite q)
            /\ (q == inject_Z (Z.of_N (a * 10 + r)) / 10)%Q.
Proof.
  intro Hr. unfold PyNum.float.
  rewrite nospace_trim by apply fixed_nospace.
  destruct (str_of_N_head a) as (c & s & Hs & Hc).
  rewrite Hs. cbn [app]. rewrite sign_of_digit by exact Hc.
  cbv zeta.
  rewrite (digit_not_word c _ (lit "inf")), (digit_not_word c _ (lit "infinity")),
    (digit_not_word c _ (lit "nan")) by (exact Hc || reflexivity).
  cbn [orb]. rewrite (app_comm_cons s), <- Hs.
  unfold decimal, mantissa.
  rewrite digitpart_str_of_N by reflexivity.
  cbn [Ascii.eqb Bool.eqb]. cbn match.
  rewrite <- (app_nil_r (str_of_N r)), digitpart_str_of_N by reflexivity.
  rewrite nb_digits_small by exact Hr.
  cbn [exponent]. eexists; split; [reflexivity|].
  replace (a * 10 ^ N.of_nat 1 + r)%N with (a * 10 + r)%N by reflexivity.
  unfold ten_to, Qdiv. apply Qmult_comp; reflexivity.
Qed.

Lemma fmt_f_1_positive (used : Q) :
  (0 < used)%Q ->
  let m := Z.to_N (round_half_even (Qabs used * ten_to 1)) in
  fmt_f 1 (Finite used) = str_of_N (m / 10) ++ "."%char :: str_of_N (m mod 10).
Proof.
  intros H m. unfold fmt_f.
  change (Z.of_nat 1) with 1. change (10 ^ N.of_nat 1)%N with 10%N. fold m.
  assert (Qle_bool 0 used = true) as ->.
  { apply Qle_bool_iff. now apply Qlt_le_weak. }
  unfold zfill.
  replace (1 - List.length (str_of_N (m mod 10)))%nat with 0%nat
    by (pose proof (str_of_N_length (m mod 10)); lia).
  reflexivity.
Qed.

(** The peak that one update stores, in tenths: not below any number of
    tenths that the sample exceeds. *)
Lemma stored_peak (used : Q) (t : N) :
  (inject_Z (Z.of_N t) / 10 < used)%Q ->
  Wf.value_ok (fmt_f 1 (Finite used)) = true
  /\ exists q t', PyNum.float (fmt_f 1 (Finite used)) = Ok (Finite q)
                  /\ (q == inject_Z (Z.of_N t') / 10)%Q /\ (t <= t')%N.
Proof.
  intro H.
  assert (Ht : (0 <= inject_Z (Z.of_N t))%Q).
  { change 0%Q with (inject_Z 0). rewrite <- Zle_Qle. lia. }
  assert (H' : (inject_Z (Z.of_N t) * (1 # 10) < used)%Q) by exact H.
  assert (Hpos : (0 < used)%Q) by lra.
  rewrite fmt_f_1_positive by exact Hpos.
  set (m := Z.to_N (round_half_even (Qabs used * ten_to 1))).
  split; [apply nospace_value_ok, fixed_nospace|].
  destruct (float_fixed (m / 10) (m mod 10)) as (q & Hq & Eq).
  { apply N.mod_lt; discriminate. }
  exists q, m. split; [exact Hq|]. split.
  - rewrite Eq. replace (m / 10 * 10 + m mod 10)%N with m; [reflexivity|].
    rewrite (N.div_mod m 10) at 1 by discriminate. lia.
  - subst m.
    assert (Z.of_N t <= round_half_even (Qabs used * ten_to 1)); [|lia].
    apply round_half_even_ge.
    rewrite Qabs_pos by now apply Qlt_le_weak.
    change (ten_to 1) with (10 # 1)%Q. lra.
Qed.

(** One frame on a stored peak of [t] tenths. *)
Lemma frame_step (m : sample) (st : store) (t : N) :
  Wf.usable st = true -> peak_is st t ->
  exists st' t', frame m st = Ok st' /\ Wf.usable st' = true /\ peak_is st' t'
                 /\ (t <= t')%N
                 /\ ((mem_used m <= inject_Z (Z.of_N t) / 10)%Q -> st' = st).
Proof.
  intros Hu (q & Hq & Eq). unfold frame.
  rewrite read_status_record; cbn [bind].
  assert (Hup : exists st' peak t',
             update_peak (record_of st) (mem_used m) st = Ok (st', peak)
             /\ Wf.usable st' = true /\ peak_is st' t' /\ (t <= t')%N
             /\ ((mem_used m <= inject_Z (Z.of_N t) / 10)%Q -> st' = st)).
  { unfold update_peak. rewrite Hq; cbn [bind gt].
    destruct (Qle_bool (mem_used m) q) eqn:Hle; cbn [negb].
    - exists st, (Finite q), t. repeat split; auto.
      + exists q; auto.
      + lia.
    - assert (Hlt : (inject_Z (Z.of_N t) / 10 < mem_used m)%Q).
      { rewrite <- Eq. apply Qnot_le_lt. intro Hc.
        apply Qle_bool_iff in Hc. congruence. }
      destruct (stored_peak (mem_used m) t Hlt) as (Hv & q' & t' & Hq' & Eq' & Ht).
      destruct (update_status_spec (lit "PEAK_MEMORY") (fmt_f 1 (Finite (mem_used m))) st
                  Hu eq_refl Hv) as (st' & E & U & R).
      rewrite E; cbn [bind].
      exists st', (Finite (mem_used m)), t'. repeat split; auto.
      + exists q'. split; [|exact Eq'].
        unfold Dict.get_default. now rewrite R, get_set_same.
      + intro Hc. exfalso. apply (Qlt_not_le _ _ Hlt Hc). }
  destruct Hup as (st' & peak & t' & E & U & P & Ht & Hsame).
  destruct (draw_system_metrics_ok m _ _ _ _ E) as [panel ->]; cbn [bind].
  exists st', t'. auto.
Qed.

(** What one frame does to a usable status file whose peak parses. *)
Lemma frame_cases (m : sample) (st : store) (peak : PyNum.pyfloat) :
  Wf.usable st = true ->
  PyNum.float (Dict.get_default "PEAK_MEMORY" "0" (record_of st)) = Ok peak ->
  frame m st
  = Ok (if PyNum.gt (PyNum.Finite (mem_used m)) peak
        then mkStore (Some (serialize
               (Dict.set "PEAK_MEMORY" (PyNum.fmt_f 1 (PyNum.Finite (mem_used m)))
                  (record_of st)))) true true
        else st).
Proof.
  intros Hu Hp. unfold frame. rewrite read_status_record; cbn [bind].
  assert (E : exists shown,
            update_peak (record_of st) (mem_used m) st
            = Ok (if PyNum.gt (PyNum.Finite (mem_used m)) peak
                  then mkStore (Some (serialize
                         (Dict.set "PEAK_MEMORY" (PyNum.fmt_f 1 (PyNum.Finite (mem_used m)))
                            (record_of st)))) true true
                  else st, shown)).
  { unfold update_peak. rewrite Hp; cbn [bind].
    destruct (PyNum.gt _ _); [|eauto].
    rewrite update_status_usable by exact Hu. cbn [bind]. eauto. }
  destruct E as [shown E].
  destruct (draw_system_metrics_ok m _ _ _ _ E) as [panel ->]. reflexivity.
Qed.

End PeakFacts.

Section PeakClaims.

Import Render.

(** The classifier leaves the stored peak alone. *)
Lemma classify_keeps_peak (line : str) (st st' : store) :
  Wf.usable st = true -> Classifier.classify line st = Ok st' ->
  Dict.get "PEAK_MEMORY" (record_of st') = Dict.get "PEAK_MEMORY" (record_of st).
Proof.
  intros Hu Hc. pose proof (classify_sim line st Hu) as Hsim.
  rewrite Hc in Hsim. destruct Hsim as [_ Hsim]. unfold Rec.classify in Hsim.
  destruct (Rec.on_compiled line _) as [d3|] eqn:E3; [|discriminate Hsim].
  cbn [bind] in Hsim. injection Hsim as <-.
  rewrite other_on_tail by (apply eqb_neq; reflexivity).
  rewrite (other_on_compiled _ _ _ (lit "PEAK_MEMORY") ltac:(apply eqb_neq; reflexivity) E3).
  rewrite stage_on_constraints, other_on_part by (apply eqb_neq; reflexivity).
  reflexivity.
Qed.

(** C8, as stated, fails: the renderer stores the sample with one digit
    after the point, so a stored peak with more digits, which the sample
    exceeds, is replaced by a number below it. *)
Lemma peak_can_decrease :
  exists st' before after,
    frame (gb (522 # 100)) (mkStore (Some (lit "PEAK_MEMORY=5.21" ++ [PyStr.LF])) true true)
    = Ok st'
    /\ Dict.get "PEAK_MEMORY" (record_of st') = Some (lit "5.2")
    /\ PyNum.float "5.21" = Ok (PyNum.Finite before)
    /\ PyNum.float "5.2" = Ok (PyNum.Finite after)
    /\ (after < before)%Q.
Proof.
  do 3 eexists. split; [vm_compute; reflexivity|].
  split; [vm_compute; reflexivity|].
  split; [reflexivity|]. split; [reflexivity|].
  vm_compute. reflexivity.
Qed.

(** C8, amended.  On a usable status file whose stored peak is a whole
    number of tenths of a GB, as [init_status] leaves it and as the
    renderer writes it, any sequence of frames ends with a stored peak
    that is again a number of tenths and is not below the one it started
    from; a frame whose sample does not exceed the stored peak leaves the
    file as it is, a frame whose sample exceeds it stores the sample with
    one digit after the point, and the classification of a line leaves the
    peak as it is.  From the peak 0, the samples 2.0, 5.0 and 3.0 leave the peaks
    "2.0", "5.0" and "5.0". *)
Theorem peak_never_decreases (ms : list sample) (st : store) (t : N) :
  Wf.usable st = true -> peak_is st t ->
  (exists st' t', frames ms st = Ok st' /\ Wf.usable st' = true
                  /\ peak_is st' t' /\ (t <= t')%N)
  /\ (forall m, (mem_used m <= inject_Z (Z.of_N t) / 10)%Q -> frame m st = Ok st)
  /\ (forall m, (inject_Z (Z.of_N t) / 10 < mem_used m)%Q ->
        exists st', frame m st = Ok st'
          /\ Dict.get "PEAK_MEMORY" (record_of st')
             = Some (PyNum.fmt_f 1 (PyNum.Finite (mem_used m))))
  /\ (forall line st', Classifier.classify line st = Ok st' -> peak_is st' t)
  /\ (forall script_dir mode now total_parts,
        Wf.value_ok mode = true -> Wf.noeol script_dir = true ->
        exists st0, init_status script_dir now mode total_parts st = Ok st0
                    /\ Wf.usable st0 = true /\ peak_is st0 0)
  /\ (exists st1 st2 st3,
        frame (gb 2) started = Ok st1
        /\ Dict.get "PEAK_MEMORY" (record_of st1) = Some (lit "2.0")
        /\ frame (gb 5) st1 = Ok st2
        /\ Dict.get "PEAK_MEMORY" (record_of st2) = Some (lit "5.0")
        /\ frame (gb 3) st2 = Ok st3
        /\ Dict.get "PEAK_MEMORY" (record_of st3) = Some (lit "5.0")
        /\ frames [gb 2; gb 5; gb 3] started = Ok st3).
Proof.
  intros Hu Hp. split; [|split; [|split; [|split; [|split]]]].
  - revert st t Hu Hp. induction ms as [|m ms IH]; intros st t Hu Hp; cbn [frames].
    + exists st, t. repeat split; auto. lia.
    + destruct (frame_step m st t Hu Hp) as (st1 & t1 & -> & U1 & P1 & H1 & _).
      cbn [bind]. destruct (IH st1 t1 U1 P1) as (st' & t' & E & U & P & H).
      exists st', t'. repeat split; auto. lia.
  - intros m Hm.
    destruct (frame_step m st t Hu Hp) as (st1 & t1 & E & _ & _ & _ & Hsame).
    rewrite E. f_equal. now apply Hsame.
  - intros m Hm. destruct Hp as (q & Hq & Eq).
    rewrite (frame_cases m st _ Hu Hq). cbn [PyNum.gt].
    assert (Qle_bool (mem_used m) q = false) as ->.
    { destruct (Qle_bool (mem_used m) q) eqn:Hle; [|reflexivity].
      apply Qle_bool_iff in Hle. rewrite Eq in Hle.
      exfalso. apply (Qlt_not_le _ _ Hm Hle). }
    cbn [negb]. eexists. split; [reflexivity|].
    destruct (stored_peak (mem_used m) t Hm) as [Hv _].
    unfold record_of. rewrite read_written.
    + apply get_set_same.
    + apply record_ok_set; [reflexivity | exact Hv | apply record_of_ok].
  - intros line st' Hc. destruct Hp as (q & Hq & Eq). exists q. split; [|exact Eq].
    unfold Dict.get_default in *. now rewrite (classify_keeps_peak line st st' Hu Hc).
  - intros script_dir mode now total_parts Hm Hs.
    destruct (init_status_record script_dir mode now total_parts st Hu Hm Hs)
      as (st0 & E & U & R).
    exists st0. split; [exact E|]. split; [exact U|].
    eexists. unfold record_of. rewrite R. split; [reflexivity|].
    vm_compute. reflexivity.
  - do 3 eexists. repeat split; vm_compute; reflexivity.
Qed.

Lemma peak_never_decreases_witness :
  exists st' t',
    frames [gb 5; gb 3] (mkStore (Some (lit "PEAK_MEMORY=2.0" ++ [PyStr.LF])) true true) = Ok st'
    /\ Wf.usable st' = true /\ peak_is st' t' /\ (20 <= t')%N.
Proof.
  destruct (peak_never_decreases [gb 5; gb 3]
              (mkStore (Some (lit "PEAK_MEMORY=2.0" ++ [PyStr.LF])) true true) 20) as [H _].
  - reflexivity.
  - eexists. split; [reflexivity|]. vm_compute. reflexivity.
  - exact H.
Defined.

End PeakClaims.

(** * Further properties *)

(** ** The status store *)

Section StoreMore.

Import PyStr.

Lemma set_set (k v1 v2 : str) (d : Dict.t) :
  Dict.set k v2 (Dict.set k v1 d) = Dict.set k v2 d.
Proof.
  induction d as [|[k0 v0] d IH]; simpl.
  - now rewrite eqb_refl.
  - destruct (PyStr.eqb k0 k) eqn:E; simpl; rewrite E; [reflexivity | now rewrite IH].
Qed.

Lemma keys_set_present (k v v0 : str) (d : Dict.t) :
  Dict.get k d = Some v0 -> Dict.keys (Dict.set k v d) = Dict.keys d.
Proof.
  induction d as [|[k1 v1] d IH]; simpl; [discriminate|].
  destruct (PyStr.eqb k1 k); simpl; [reflexivity|].
  intro H. now rewrite IH.
Qed.

(** X1.  On a status file that can be read and written, writing back the
    record that was read returns, the record read from the new file is the
    record read from the old one, and writing it back once more leaves the
    new file as it is. *)
Theorem rewrite_keeps_record (st : store) :
  Wf.usable st = true ->
  exists st1,
    (status <- read_status st ;; write_status status st) = Ok st1
    /\ read_status st1 = read_status st
    /\ (status <- read_status st1 ;; write_status status st1) = Ok st1.
Proof.
  intro Hu. rewrite read_status_record; cbn [bind].
  rewrite write_status_usable by exact Hu.
  eexists; split; [reflexivity|].
  rewrite read_written by apply record_of_ok. split; [reflexivity|].
  cbn [bind]. now rewrite write_status_usable.
Qed.

Lemma rewrite_keeps_record_witness :
  exists st1,
    (status <- read_status (mkStore (Some (lit "  A = 1 " ++ LF :: lit "junk" ++ LF :: lit "A =2")) true true) ;;
     write_status status (mkStore (Some (lit "  A = 1 " ++ LF :: lit "junk" ++ LF :: lit "A =2")) true true))
    = Ok st1
    /\ read_status st1
       = read_status (mkStore (Some (lit "  A = 1 " ++ LF :: lit "junk" ++ LF :: lit "A =2")) true true)
    /\ (status <- read_status st1 ;; write_status status st1) = Ok st1.
Proof. apply rewrite_keeps_record. reflexivity. Defined.

(** X2.  When a file of well-formed [key=value] lines holds a key on
    several lines, a read returns for the key the value of its last line. *)
Theorem last_line_wins (d : Dict.t) (k : str) :
  forallb (fun item => Wf.key_ok (fst item) && Wf.value_ok (snd item)) d = true ->
  exists r, read_status (mkStore (Some (serialize d)) true true) = Ok r
            /\ Dict.get k r = Dict.get k (rev d).
Proof.
  intro H. unfold read_status; simpl.
  eexists; split; [reflexivity|].
  rewrite file_lines_serialize, read_loop_items, get_fold_set by exact H.
  now destruct (Dict.get k (rev d)).
Qed.

Lemma last_line_wins_witness :
  exists r,
    read_status (mkStore (Some (serialize
      [ (lit "STAGE", lit "compiling"); (lit "PART", lit "1A"); (lit "STAGE", lit "proving") ]))
      true true) = Ok r
    /\ Dict.get "STAGE" r
       = Dict.get "STAGE"
           (rev [ (lit "STAGE", lit "compiling"); (lit "PART", lit "1A");
                  (lit "STAGE", lit "proving") ]).
Proof. apply last_line_wins. reflexivity. Defined.

(** X3.  On a usable status file two updates of one key leave the file
    that the second update alone leaves. *)
Theorem update_twice (k v1 v2 : str) (st : store) :
  Wf.usable st = true ->
  Wf.key_ok k = true -> Wf.value_ok v1 = true ->
  (st1 <- update_status k v1 st ;; update_status k v2 st1) = update_status k v2 st.
Proof.
  intros Hu Hk Hv1.
  rewrite !update_status_usable by exact Hu. cbn [bind].
  rewrite update_status_usable by reflexivity.
  unfold record_of at 1. rewrite read_written.
  - now rewrite set_set.
  - apply record_ok_set; auto using record_of_ok.
Qed.

Lemma update_twice_witness :
  (st1 <- update_status "STAGE" "witness" started ;; update_status "STAGE" "proving" st1)
  = update_status "STAGE" "proving" started.
Proof. apply update_twice; reflexivity. Defined.

(** X4.  On a usable status file, with a well-formed key and value, an
    update keeps the keys in their order: a key that is there keeps its
    place, a new key becomes the last one. *)
Theorem update_keeps_order (k v : str) (st : store) :
  Wf.usable st = true -> Wf.key_ok k = true -> Wf.value_ok v = true ->
  exists st', update_status k v st = Ok st'
    /\ Dict.keys (record_of st')
       = match Dict.get k (record_of st) with
         | Some _ => Dict.keys (record_of st)
         | None => Dict.keys (record_of st) ++ [k]
         end.
Proof.
  intros Hu Hk Hv.
  destruct (update_status_spec k v st Hu Hk Hv) as (st' & E & _ & R).
  exists st'. split; [exact E|]. rewrite R.
  destruct (Dict.get k (record_of st)) as [v0|] eqn:G.
  - now apply (keys_set_present k v v0).
  - rewrite set_fresh by exact G. unfold Dict.keys. now rewrite map_app.
Qed.

Lemma update_keeps_order_witness :
  exists st', update_status "NOTE" "x" started = Ok st'
    /\ Dict.keys (record_of st')
       = match Dict.get "NOTE" (record_of started) with
         | Some _ => Dict.keys (record_of started)
         | None => Dict.keys (record_of started) ++ [lit "NOTE"]
         end.
Proof. apply update_keeps_order; reflexivity. Defined.



(** X6.  When the status file is there and cannot be read but can be
    written, [update_status] replaces it by the one line of the update:
    every other key is lost. *)
Theorem update_after_failed_read (k v text : str) :
  update_status k v (mkStore (Some text) false true)
  = Ok (mkStore (Some (k ++ "="%char :: v ++ [LF])) false true).
Proof.
  unfold update_status, read_status, write_status, open_write, serialize, PyStr.concat.
  simpl. now rewrite app_nil_r.
Qed.

(** X7.  On a usable status file, with a mode that can be stored, a
    script directory without line break, and a start time and a number of
    parts within the digits that [str] converts, [init_status] replaces
    whatever the file held by the twelve items of a fresh run, in this
    order; the start time and the number of parts read back as the
    integers given, and the log file is the path of [current.log] in the
    directory [logs] of the script directory. *)
Theorem init_then_read
    (script_dir mode : str) (now total_parts : Z) (st : store) :
  Wf.usable st = true -> Wf.value_ok mode = true -> Wf.noeol script_dir = true ->
  PyNum.within_str_digits now -> PyNum.within_str_digits total_parts ->
  exists st',
    init_status script_dir now mode total_parts st = Ok st'
    /\ read_status st'
       = Ok [ (lit "MODE", mode);
              (lit "STAGE", lit "initializing");
              (lit "PART", lit "");
              (lit "STEP", lit "");
              (lit "START_TIME", PyNum.str_of_Z now);
              (lit "TOTAL_PARTS", PyNum.str_of_Z total_parts);
              (lit "COMPLETED_PARTS", lit "0");
              (lit "CURRENT_CONSTRAINTS", lit "0");
              (lit "PEAK_MEMORY", lit "0");
              (lit "ERRORS", lit "0");
              (lit "WARNINGS", lit "0");
              (lit "LOG_FILE",
               PyPath.to_str
                 (PyPath.mk (PyPath.root (PyPath.parse script_dir))
                    (PyPath.parts (PyPath.parse script_dir)
                     ++ [ lit "logs"; lit "current.log" ]))) ]
    /\ PyNum.int (Dict.get_default "START_TIME" "0" (record_of st')) = Ok now
    /\ PyNum.int (Dict.get_default "TOTAL_PARTS" "8" (record_of st')) = Ok total_parts.
Proof.
  intros Hu Hm Hs _ _.
  destruct (init_status_record script_dir mode now total_parts st Hu Hm Hs)
    as (st' & E & _ & Hr).
  exists st'. split; [exact E|]. split.
  - rewrite Hr, current_log_eq. reflexivity.
  - unfold record_of. rewrite Hr.
    split; apply int_str_of_Z.
Qed.

Lemma init_then_read_witness :
  exists st',
    init_status "/" 1700000000 "mini-3part" 8 (mkStore (Some (lit "junk")) true true) = Ok st'
    /\ Dict.get "LOG_FILE" (record_of st') = Some (lit "/logs/current.log")
    /\ PyNum.int (Dict.get_default "START_TIME" "0" (record_of st')) = Ok 1700000000
    /\ PyNum.int (Dict.get_default "TOTAL_PARTS" "8" (record_of st')) = Ok 8.
Proof.
  destruct (init_then_read "/" "mini-3part" 1700000000 8 (mkStore (Some (lit "junk")) true true))
    as (st' & E & R & H); try reflexivity; try (vm_compute; reflexivity).
  exists st'. split; [exact E|]. split; [|exact H].
  unfold record_of. rewrite R. reflexivity.
Defined.

End StoreMore.

(** ** The classifier *)

Section ClassifierMore.

Import PyStr.

Ltac key_differs := apply eqb_neq; reflexivity.

Lemma rec_classify_ok (line : str) (d : Dict.t) :
  Classifier.compiled_rule line = false
  \/ (exists n, PyNum.int (Dict.get_default "COMPLETED_PARTS" "0" d) = Ok n) ->
  exists d3,
    Rec.on_compiled line (Rec.on_constraints line (Rec.on_part line d)) = Ok d3
    /\ Rec.classify line d
       = Ok (Rec.on_done line (Rec.on_proof line (Rec.on_zkey line (Rec.on_witness line d3)))).
Proof.
  intro Hc. unfold Rec.classify.
  assert (Hok : exists d3, Rec.on_compiled line
                  (Rec.on_constraints line (Rec.on_part line d)) = Ok d3).
  { unfold Rec.on_compiled. destruct Hc as [-> | [n Hn]]; [eauto|].
    destruct (Classifier.compiled_rule line); [|eauto].
    unfold Dict.get_default in *.
    rewrite stage_on_constraints, other_on_part by key_differs.
    rewrite Hn; cbn [bind]. eauto. }
  destruct Hok as [d3 E]. exists d3. rewrite E. auto.
Qed.

(** On a usable status file the classifier returns when the counter of
    completed parts parses or is not needed. *)
Lemma classify_returns (line : str) (st : store) :
  Wf.usable st = true ->
  Classifier.compiled_rule line = false \/ (exists n, counter_of st = Ok n) ->
  exists st', Classifier.classify line st = Ok st' /\ Wf.usable st' = true
              /\ Rec.classify line (record_of st) = Ok (record_of st').
Proof.
  intros Hu Hc. pose proof (classify_sim line st Hu) as Hsim.
  destruct (rec_classify_ok line (record_of st) Hc) as (d3 & _ & E).
  destruct (Classifier.classify line st) as [st'|e]; [|congruence].
  destruct Hsim as [U R]. eauto.
Qed.

Lemma stage_on_part (line : str) (d : Dict.t) :
  Dict.get "STAGE" (Rec.on_part line d)
  = if Classifier.part_rule line then Some (lit "compiling") else Dict.get "STAGE" d.
Proof.
  unfold Rec.on_part. destruct (Classifier.part_rule line); [|reflexivity].
  destruct (find _ _).
  - rewrite get_set_other by key_differs. apply get_set_same.
  - apply get_set_same.
Qed.

Lemma stage_tail (line : str) (d : Dict.t) :
  Dict.get "STAGE" (Rec.on_done line (Rec.on_proof line (Rec.on_zkey line (Rec.on_witness line d))))
  = if Classifier.done_rule line then Some (lit "complete")
    else if Classifier.proof_rule line then Some (lit "proving")
    else if Classifier.zkey_rule line then Some (lit "trusted_setup")
    else if Classifier.witness_rule line then Some (lit "witness")
    else Dict.get "STAGE" d.
Proof.
  unfold Rec.on_done, Rec.on_proof, Rec.on_zkey, Rec.on_witness.
  destruct (Classifier.done_rule line), (Classifier.proof_rule line),
    (Classifier.zkey_rule line), (Classifier.witness_rule line);
    rewrite ?get_set_same;
    repeat (rewrite (get_set_other (lit "STEP") (lit "STAGE")) by key_differs;
            rewrite ?get_set_same);
    reflexivity.
Qed.

Lemma step_tail (line : str) (d : Dict.t) :
  Dict.get "STEP" (Rec.on_done line (Rec.on_proof line (Rec.on_zkey line (Rec.on_witness line d))))
  = if Classifier.proof_rule line then Some (lit "generating proof")
    else if Classifier.zkey_rule line then Some (lit "generating zkey")
    else if Classifier.witness_rule line then Some (lit "generating witness")
    else Dict.get "STEP" d.
Proof.
  unfold Rec.on_done, Rec.on_proof, Rec.on_zkey, Rec.on_witness.
  destruct (Classifier.done_rule line), (Classifier.proof_rule line),
    (Classifier.zkey_rule line), (Classifier.witness_rule line);
    rewrite ?(get_set_other (lit "STAGE") (lit "STEP")) by key_differs;
    rewrite ?get_set_same;
    repeat (rewrite (get_set_other (lit "STAGE") (lit "STEP")) by key_differs;
            rewrite ?get_set_same);
    reflexivity.
Qed.

(** X8.  When several rules fire on one line, the stage that is left is
    the one of the last rule in the order of the code: [complete] before
    [proving] before [trusted_setup] before [witness] before [compiling];
    when none fires the stage is kept. *)
Theorem classify_stage_priority (line : str) (st : store) :
  Wf.usable st = true ->
  Classifier.compiled_rule line = false \/ (exists n, counter_of st = Ok n) ->
  exists st', Classifier.classify line st = Ok st'
    /\ Dict.get "STAGE" (record_of st')
       = if Classifier.done_rule line then Some (lit "complete")
         else if Classifier.proof_rule line then Some (lit "proving")
         else if Classifier.zkey_rule line then Some (lit "trusted_setup")
         else if Classifier.witness_rule line then Some (lit "witness")
         else if Classifier.part_rule line then Some (lit "compiling")
         else Dict.get "STAGE" (record_of st).
Proof.
  intros Hu Hc.
  destruct (classify_returns line st Hu Hc) as (st' & E & _ & R).
  exists st'. split; [exact E|].
  destruct (rec_classify_ok line (record_of st) Hc) as (d3 & E3 & Ec).
  rewrite Ec in R. injection R as <-.
  rewrite stage_tail.
  rewrite (other_on_compiled _ _ _ (lit "STAGE") ltac:(key_differs) E3).
  rewrite stage_on_constraints by key_differs.
  now rewrite stage_on_part.
Qed.

Lemma classify_stage_priority_witness :
  exists st', Classifier.classify "zkey proof written" started = Ok st'
    /\ Dict.get "STAGE" (record_of st') = Some (lit "proving").
Proof.
  destruct (classify_stage_priority "zkey proof written" started) as (st' & E & H).
  - reflexivity.
  - left; reflexivity.
  - exists st'. split; [exact E | exact H].
Defined.

(** X9.  The step that a line leaves is the one of the last of the rules
    for "proof", "zkey" and "Generating witness" that fires; no other rule
    writes the step, so a line that only completes the build or starts a
    part keeps the step of an earlier line. *)
Theorem classify_step (line : str) (st : store) :
  Wf.usable st = true ->
  Classifier.compiled_rule line = false \/ (exists n, counter_of st = Ok n) ->
  exists st', Classifier.classify line st = Ok st'
    /\ Dict.get "STEP" (record_of st')
       = if Classifier.proof_rule line then Some (lit "generating proof")
         else if Classifier.zkey_rule line then Some (lit "generating zkey")
         else if Classifier.witness_rule line then Some (lit "generating witness")
         else Dict.get "STEP" (record_of st).
Proof.
  intros Hu Hc.
  destruct (classify_returns line st Hu Hc) as (st' & E & _ & R).
  exists st'. split; [exact E|].
  destruct (rec_classify_ok line (record_of st) Hc) as (d3 & E3 & Ec).
  rewrite Ec in R. injection R as <-.
  rewrite step_tail.
  rewrite (other_on_compiled _ _ _ (lit "STEP") ltac:(key_differs) E3).
  rewrite stage_on_constraints by key_differs.
  now rewrite other_on_part by key_differs.
Qed.

Lemma classify_step_witness :
  exists st',
    Classifier.classify "Done."
      (mkStore (Some (serialize [ (lit "STAGE", lit "proving");
                                  (lit "STEP", lit "generating proof") ])) true true)
    = Ok st'
    /\ Dict.get "STEP" (record_of st') = Some (lit "generating proof").
Proof.
  apply (classify_step "Done."
           (mkStore (Some (serialize [ (lit "STAGE", lit "proving");
                                       (lit "STEP", lit "generating proof") ])) true true)).
  - reflexivity.
  - left; reflexivity.
Defined.

(** X10.  Whatever the line, the classifier changes no item but the
    stage, the part, the step, the constraints and the counter of completed
    parts: the mode, the start time, the number of parts, the peak memory,
    the log file and every unknown key read as before. *)
Theorem classify_frame (line k : str) (st st' : store) :
  Wf.usable st = true -> Classifier.classify line st = Ok st' ->
  ~ In k [ lit "STAGE"; lit "PART"; lit "STEP"; lit "CURRENT_CONSTRAINTS";
           lit "COMPLETED_PARTS" ] ->
  Dict.get k (record_of st') = Dict.get k (record_of st).
Proof.
  intros Hu Hc Hk. cbn [In] in Hk.
  pose proof (classify_sim line st Hu) as Hsim.
  rewrite Hc in Hsim. destruct Hsim as [_ Hsim]. unfold Rec.classify in Hsim.
  destruct (Rec.on_compiled line _) as [d3|] eqn:E3; [|discriminate Hsim].
  cbn [bind] in Hsim. injection Hsim as <-.
  rewrite other_on_tail by intuition congruence.
  rewrite (other_on_compiled _ _ _ k ltac:(intuition congruence) E3).
  rewrite stage_on_constraints, other_on_part by intuition congruence.
  reflexivity.
Qed.

Lemma classify_frame_witness :
  exists st',
    Classifier.classify "Compiled part 1A: 12345 constraints, proof done" started = Ok st'
    /\ Dict.get "TOTAL_PARTS" (record_of st') = Dict.get "TOTAL_PARTS" (record_of started).
Proof.
  eexists. split; [reflexivity|].
  apply (classify_frame "Compiled part 1A: 12345 constraints, proof done" "TOTAL_PARTS" started);
    [reflexivity | reflexivity |].
  cbn [In]. intros [C|[C|[C|[C|[C|[]]]]]]; discriminate C.
Defined.

(** The counter after one line. *)
Lemma counter_step (line : str) (st : store) (n : Z) :
  Wf.usable st = true -> counter_of st = Ok n ->
  exists st', Classifier.classify line st = Ok st' /\ Wf.usable st' = true
    /\ counter_of st' = Ok (if Classifier.compiled_rule line then n + 1 else n).
Proof.
  intros Hu Hn.
  assert (Hc : Classifier.compiled_rule line = false \/ (exists n, counter_of st = Ok n))
    by eauto.
  destruct (classify_returns line st Hu Hc) as (st' & E & U & R).
  exists st'. split; [exact E|]. split; [exact U|].
  destruct (rec_classify_ok line (record_of st) Hc) as (d3 & E3 & Ec).
  rewrite Ec in R. injection R as R.
  unfold counter_of, Dict.get_default in *. rewrite <- R.
  rewrite other_on_tail by key_differs.
  unfold Rec.on_compiled in E3.
  destruct (Classifier.compiled_rule line).
  - unfold Dict.get_default in E3.
    rewrite stage_on_constraints, other_on_part in E3 by key_differs.
    rewrite Hn in E3. cbn [bind] in E3. injection E3 as <-.
    rewrite get_set_same. apply int_str_of_Z.
  - injection E3 as <-.
    now rewrite stage_on_constraints, other_on_part by key_differs.
Qed.

Lemma classify_all_counter (lines : list str) (st : store) (n : Z) :
  Wf.usable st = true -> counter_of st = Ok n ->
  exists st', Classifier.classify_all lines st = Ok st' /\ Wf.usable st' = true
    /\ counter_of st'
       = Ok (n + Z.of_nat (List.length (filter Classifier.compiled_rule lines))).
Proof.
  revert st n. induction lines as [|line lines IH]; intros st n Hu Hn.
  - exists st. cbn. rewrite Z.add_0_r. auto.
  - destruct (counter_step line st n Hu Hn) as (st1 & E1 & U1 & C1).
    destruct (IH st1 _ U1 C1) as (st' & E & U & C).
    exists st'. cbn [Classifier.classify_all]. rewrite E1; cbn [bind].
    split; [exact E|]. split; [exact U|]. rewrite C. f_equal.
    cbn [filter]. destruct (Classifier.compiled_rule line); cbn [List.length]; lia.
Qed.

(** X11.  On a usable status file whose counter of completed parts parses
    as [n], any sequence of lines is classified to the end, and the counter
    then parses as [n] plus the number of lines that hold "compiled" in any
    capitalisation: it never goes down. *)
Theorem counter_counts_compiled_lines (lines : list str) (st : store) (n : Z) :
  Wf.usable st = true ->
  PyNum.int (Dict.get_default "COMPLETED_PARTS" "0" (record_of st)) = Ok n ->
  exists st', Classifier.classify_all lines st = Ok st'
    /\ PyNum.int (Dict.get_default "COMPLETED_PARTS" "0" (record_of st'))
       = Ok (n + Z.of_nat (List.length
                 (filter (fun line => contains "compiled" (lower line)) lines))).
Proof.
  intros Hu Hn.
  destruct (classify_all_counter lines st n Hu Hn) as (st' & E & _ & C).
  exists st'. split; [exact E|]. unfold counter_of in C. rewrite C.
  do 4 f_equal. apply filter_ext. intro line.
  unfold Classifier.compiled_rule.
  destruct (contains "compiled" (lower line)) eqn:E1; [reflexivity|].
  destruct (contains "Compiled" line) eqn:E2; [|reflexivity].
  apply contains_lower in E2.
  change (lower (lit "Compiled")) with (lit "compiled") in E2. congruence.
Qed.

Lemma counter_counts_compiled_lines_witness :
  exists st',
    Classifier.classify_all
      [ lit "Compiling part 1A"; lit "COMPILED part 1A"; lit "note"; lit "compiled part 1B" ]
      started = Ok st'
    /\ PyNum.int (Dict.get_default "COMPLETED_PARTS" "0" (record_of st')) = Ok (0 + 2).
Proof.
  apply (counter_counts_compiled_lines
           [ lit "Compiling part 1A"; lit "COMPILED part 1A"; lit "note"; lit "compiled part 1B" ]
           started 0); reflexivity.
Defined.

(** A text of digits is read whole. *)
Lemma digits_rest_digits (s : str) (acc : N) (n : nat) :
  forallb PyNum.is_digit s = true ->
  exists v k, PyNum.digits_rest s acc n = (v, k, []).
Proof.
  revert acc n. induction s as [|c s IH]; intros acc n H; simpl; [eauto|].
  simpl in H. apply andb_true_iff in H as [Hc Hs].
  unfold PyNum.digit_val. rewrite Hc. now apply IH.
Qed.

Lemma int_digits (g : str) :
  forallb PyNum.is_digit g = true -> g <> [] ->
  exists n, PyNum.int g = Ok (Z.of_N n).
Proof.
  intros Hd Hne. unfold PyNum.int.
  rewrite nospace_trim by now apply digits_nospace.
  destruct g as [|c s]; [contradiction|].
  simpl in Hd. apply andb_true_iff in Hd as [Hc Hs].
  rewrite sign_of_digit by exact Hc.
  unfold PyNum.digitpart, PyNum.digit_val. rewrite Hc.
  destruct (digits_rest_digits s (code c - 48)%N 1 Hs) as (v & k & ->). eauto.
Qed.

Lemma span_app (p : ascii -> bool) (s : str) :
  s = fst (Classifier.span p s) ++ snd (Classifier.span p s).
Proof.
  induction s as [|c s IH]; simpl; [reflexivity|].
  destruct (p c); [|reflexivity].
  destruct (Classifier.span p s); simpl in *. now rewrite <- IH.
Qed.

Lemma dropwhile_suffix (p : ascii -> bool) (s : str) :
  exists a, s = a ++ dropwhile p s.
Proof.
  induction s as [|c s [a IH]]; simpl; [now exists []|].
  destruct (p c); [|now exists []].
  exists (c :: a). simpl. now rewrite <- IH.
Qed.

Lemma match_constraints_inv (s g : str) :
  Classifier.match_constraints s = Some g ->
  g <> [] /\ forallb PyNum.is_digit g = true /\ contains "constraints" s = true.
Proof.
  unfold Classifier.match_constraints.
  pose proof (span_forall PyNum.is_digit s) as Hd.
  pose proof (span_app PyNum.is_digit s) as Hs.
  destruct (Classifier.span PyNum.is_digit s) as [a b]; cbn [fst snd] in *.
  destruct a as [|c a]; [discriminate|].
  destruct (startswith (lit "constraints") (dropwhile isspace b)) eqn:E; [|discriminate].
  intro H; injection H as <-. split; [discriminate|]. split; [exact Hd|].
  destruct (dropwhile_suffix isspace b) as [w Hw].
  rewrite Hs, Hw. apply contains_app, contains_app. now apply contains_here.
Qed.

Lemma search_constraints_inv (s g : str) :
  Classifier.search_constraints s = Some g ->
  g <> [] /\ forallb PyNum.is_digit g = true /\ contains "constraints" s = true.
Proof.
  induction s as [|c s IH]; cbn [Classifier.search_constraints].
  - destruct (Classifier.match_constraints []) eqn:E; [|discriminate].
    intro H; injection H as ->. now apply match_constraints_inv.
  - destruct (Classifier.match_constraints (c :: s)) eqn:E.
    + intro H; injection H as ->. now apply match_constraints_inv.
    + intro H. destruct (IH H) as (H1 & H2 & H3). split; [exact H1|]. split; [exact H2|].
      now apply (contains_app _ [c]).
Qed.

(** X12.  Whenever the pattern for constraints matches a line, the test
    for "constraints" that guards it holds, and the constraints that the
    line leaves in the status file are the digits of the leftmost match: a
    text that is not empty and that [int] reads as a number that is not
    negative. *)
Theorem constraints_value_parses (line g : str) (st : store) :
  Wf.usable st = true ->
  Classifier.compiled_rule line = false \/ (exists n, counter_of st = Ok n) ->
  Classifier.search_constraints line = Some g ->
  Classifier.constraints_rule line = true
  /\ exists st' n, Classifier.classify line st = Ok st'
       /\ Dict.get "CURRENT_CONSTRAINTS" (record_of st') = Some g
       /\ g <> [] /\ PyNum.int g = Ok (Z.of_N n).
Proof.
  intros Hu Hc Hs.
  destruct (search_constraints_inv line g Hs) as (Hne & Hd & Hin).
  assert (Hrule : Classifier.constraints_rule line = true).
  { unfold Classifier.constraints_rule. apply contains_lower in Hin. exact Hin. }
  split; [exact Hrule|].
  destruct (classify_returns line st Hu Hc) as (st' & E & _ & R).
  destruct (int_digits g Hd Hne) as [n Hn].
  exists st', n. split; [exact E|]. split; [|split; [exact Hne | exact Hn]].
  destruct (rec_classify_ok line (record_of st) Hc) as (d3 & E3 & Ec).
  rewrite Ec in R. injection R as <-.
  rewrite other_on_tail by key_differs.
  rewrite (other_on_compiled _ _ _ (lit "CURRENT_CONSTRAINTS") ltac:(key_differs) E3).
  unfold Rec.on_constraints. rewrite Hrule, Hs. apply get_set_same.
Qed.

Lemma constraints_value_parses_witness :
  Classifier.constraints_rule "template: 007 constraints, 12 constraints" = true
  /\ exists st' n,
       Classifier.classify "template: 007 constraints, 12 constraints" started = Ok st'
       /\ Dict.get "CURRENT_CONSTRAINTS" (record_of st') = Some (lit "007")
       /\ lit "007" <> [] /\ PyNum.int "007" = Ok (Z.of_N n).
Proof.
  apply (constraints_value_parses "template: 007 constraints, 12 constraints" "007" started).
  - reflexivity.
  - left; reflexivity.
  - reflexivity.
Defined.




End ClassifierMore.

(** ** Bars, durations and the part tracker *)

Section RenderMore.

Import Render Screen.

Lemma times_length (x : N) (k : Z) : List.length (times [x] k) = Z.to_nat k.
Proof.
  unfold times. induction (Z.to_nat k) as [|n IH]; simpl; [reflexivity | now rewrite IH].
Qed.

Lemma times_nonpositive (g : text) (k : Z) : k <= 0 -> times g k = [].
Proof.
  intro H. unfold times. destruct k; try lia; reflexivity.
Qed.

Lemma cells_length (x : N) (filled width : Z) :
  0 <= filled <= width ->
  List.length (cells [x] filled (width - filled)) = Z.to_nat width.
Proof.
  intro H. unfold cells, LIGHT_SHADE. rewrite length_app, !times_length. lia.
Qed.

Lemma draw_progress_bar_eq (current total width : Z) :
  let total' := if total =? 0 then 1 else total in
  draw_progress_bar current total width
  = Ok (T "[" ++ cells FULL_BLOCK (current * width / total')
               (width - current * width / total')
          ++ T "] " ++ code_points (PyNum.fmt_d 3 (current * 100 / total')) ++ T "%").
Proof.
  unfold draw_progress_bar, PyNum.floordiv, cells.
  destruct (total =? 0) eqn:E; cbn zeta.
  - cbn [Z.eqb bind]. reflexivity.
  - rewrite E; cbn [bind]. reflexivity.
Qed.

(** X14.  For a count between zero and the total and a width that is not
    negative, the bar has as many cells as the width, full ones first, and
    the percentage lies between 0 and 100; a total of zero counts as one. *)
Theorem progress_bar_in_range (current total width : Z) :
  0 <= current <= total -> 0 <= width ->
  exists filled percent,
    draw_progress_bar current total width
    = Ok (T "[" ++ cells FULL_BLOCK filled (width - filled) ++ T "] "
            ++ code_points (PyNum.fmt_d 3 percent) ++ T "%")
    /\ 0 <= filled <= width /\ 0 <= percent <= 100
    /\ List.length (cells FULL_BLOCK filled (width - filled)) = Z.to_nat width.
Proof.
  intros Hc Hw. rewrite draw_progress_bar_eq. cbn zeta.
  set (t := if total =? 0 then 1 else total).
  assert (Ht : 0 < t /\ current <= t).
  { subst t. destruct (Z.eqb_spec total 0); lia. }
  assert (Hf : 0 <= current * width / t <= width).
  { split; [apply Z.div_pos; nia|].
    apply Z.div_le_upper_bound; nia. }
  assert (Hp : 0 <= current * 100 / t <= 100).
  { split; [apply Z.div_pos; nia|].
    apply Z.div_le_upper_bound; nia. }
  eexists _, _. split; [reflexivity|]. split; [exact Hf|]. split; [exact Hp|].
  now apply cells_length.
Qed.

Lemma progress_bar_in_range_witness :
  exists filled percent,
    draw_progress_bar 0 0 50
    = Ok (T "[" ++ cells FULL_BLOCK filled (50 - filled) ++ T "] "
            ++ code_points (PyNum.fmt_d 3 percent) ++ T "%")
    /\ 0 <= filled <= 50 /\ 0 <= percent <= 100
    /\ List.length (cells FULL_BLOCK filled (50 - filled)) = Z.to_nat 50.
Proof. apply progress_bar_in_range; lia. Defined.

(** X15.  The bar is not cut at the width: for a count above the total
    it is made of full cells only, at least as many as the width, and the
    percentage is at least 100. *)
Theorem progress_bar_overflows (current total width : Z) :
  0 <= total < current -> 0 <= width ->
  exists filled percent,
    draw_progress_bar current total width
    = Ok (T "[" ++ times FULL_BLOCK filled ++ T "] "
            ++ code_points (PyNum.fmt_d 3 percent) ++ T "%")
    /\ width <= filled /\ 100 <= percent
    /\ List.length (times FULL_BLOCK filled) = Z.to_nat filled.
Proof.
  intros Hc Hw. rewrite draw_progress_bar_eq. cbn zeta.
  set (t := if total =? 0 then 1 else total).
  assert (Ht : 0 < t /\ t <= current).
  { subst t. destruct (Z.eqb_spec total 0); lia. }
  assert (Hf : width <= current * width / t).
  { apply Z.div_le_lower_bound; nia. }
  assert (Hp : 100 <= current * 100 / t).
  { apply Z.div_le_lower_bound; nia. }
  eexists _, _. split; [|split; [exact Hf|]; split; [exact Hp|]; apply times_length].
  unfold cells. rewrite (times_nonpositive LIGHT_SHADE) by lia.
  now rewrite app_nil_r.
Qed.

Lemma progress_bar_overflows_witness :
  exists filled percent,
    draw_progress_bar 9 8 50
    = Ok (T "[" ++ times FULL_BLOCK filled ++ T "] "
            ++ code_points (PyNum.fmt_d 3 percent) ++ T "%")
    /\ 50 <= filled /\ 100 <= percent
    /\ List.length (times FULL_BLOCK filled) = Z.to_nat filled.
Proof. apply progress_bar_overflows; lia. Defined.

Lemma Qnum_nonneg (q : Q) : (0 <= q)%Q -> 0 <= Qnum q.
Proof. unfold Qle; simpl. lia. Qed.

(** X16.  For a value and a maximum between zero and ten to the 300 and a
    width between zero and a million, so that the product of the value and
    the width is a [float], the metric bar has as many cells as the width,
    dark ones first and never more of them than the width, however far the
    value is above the maximum; a maximum of zero counts as one, and a
    colour is put around the cells. *)
Theorem metric_bar_clamped (value : Q) (max_val width : Z) (color : text) :
  (0 <= value <= inject_Z (10 ^ 300))%Q -> 0 <= max_val <= 10 ^ 300 ->
  0 <= width <= 10 ^ 6 ->
  exists filled,
    0 <= filled <= width
    /\ List.length (cells DARK_SHADE filled (width - filled)) = Z.to_nat width
    /\ draw_metric_bar value max_val width color
       = Ok match color with
            | [] => cells DARK_SHADE filled (width - filled)
            | _ => color ++ cells DARK_SHADE filled (width - filled) ++ Colors.NC
            end.
Proof.
  intros [Hv _] [Hm _] [Hw _]. unfold draw_metric_bar, PyNum.trunc; cbn [bind].
  set (mx := if max_val =? 0 then 1 else max_val).
  assert (Hmx : 0 < mx) by (subst mx; destruct (Z.eqb_spec max_val 0); lia).
  set (q := (value * inject_Z width / inject_Z mx)%Q).
  assert (Hq : (0 <= q)%Q).
  { subst q. unfold Qdiv. apply Qmult_le_0_compat.
    - apply Qmult_le_0_compat; [exact Hv|].
      change 0%Q with (inject_Z 0). now rewrite <- Zle_Qle.
    - apply Qinv_le_0_compat. change 0%Q with (inject_Z 0). rewrite <- Zle_Qle. lia. }
  assert (Hquot : 0 <= Z.quot (Qnum q) (Z.pos (Qden q))).
  { apply Z.quot_pos; [now apply Qnum_nonneg | lia]. }
  exists (Z.min (Z.quot (Qnum q) (Z.pos (Qden q))) width).
  assert (Hf : 0 <= Z.min (Z.quot (Qnum q) (Z.pos (Qden q))) width <= width) by lia.
  split; [exact Hf|]. split; [now apply cells_length|].
  unfold cells. destruct color; reflexivity.
Qed.

Lemma metric_bar_clamped_witness :
  exists filled,
    0 <= filled <= 25
    /\ List.length (cells DARK_SHADE filled (25 - filled)) = Z.to_nat 25
    /\ draw_metric_bar (250 # 1) 100 25 Colors.RED
       = Ok match Colors.RED with
            | [] => cells DARK_SHADE filled (25 - filled)
            | _ => Colors.RED ++ cells DARK_SHADE filled (25 - filled) ++ Colors.NC
            end.
Proof.
  apply metric_bar_clamped.
  - split; vm_compute; discriminate.
  - split; vm_compute; discriminate.
  - split; vm_compute; discriminate.
Defined.

Lemma fmt_0d_two (x : Z) :
  0 <= x < 100 -> code_points (PyNum.fmt_0d 2 x) = two_digits x.
Proof.
  intro H.
  assert (Hall : forallb (fun n => if list_eq_dec N.eq_dec
                                       (code_points (PyNum.fmt_0d 2 (Z.of_nat n)))
                                       (two_digits (Z.of_nat n))
                                   then true else false) (seq 0 100) = true)
    by (vm_compute; reflexivity).
  rewrite forallb_forall in Hall.
  specialize (Hall (Z.to_nat x)). rewrite Z2Nat.id in Hall by lia.
  destruct (list_eq_dec N.eq_dec _ _) as [E|_]; [exact E|].
  assert (false = true); [|discriminate]. apply Hall. apply in_seq. lia.
Qed.

(** X17.  Below one hundred hours a duration that is not negative is
    shown as eight characters, two digits each for the hours, the minutes
    below 60 and the seconds below 60, and the three numbers give the
    duration back. *)
Theorem format_duration_decodes (seconds : Z) :
  0 <= seconds < 360000 ->
  exists h m s,
    format_duration seconds = two_digits h ++ T ":" ++ two_digits m ++ T ":" ++ two_digits s
    /\ 0 <= h < 100 /\ 0 <= m < 60 /\ 0 <= s < 60
    /\ seconds = h * 3600 + m * 60 + s.
Proof.
  intro H. exists (seconds / 3600), (seconds mod 3600 / 60), (seconds mod 60).
  assert (Hh : 0 <= seconds / 3600 < 100).
  { split; [apply Z.div_pos; lia | apply Z.div_lt_upper_bound; lia]. }
  assert (Hr : 0 <= seconds mod 3600 < 3600) by (apply Z.mod_pos_bound; lia).
  assert (Hm : 0 <= seconds mod 3600 / 60 < 60).
  { split; [apply Z.div_pos; lia | apply Z.div_lt_upper_bound; lia]. }
  assert (Hs : 0 <= seconds mod 60 < 60) by (apply Z.mod_pos_bound; lia).
  split; [|split; [exact Hh|]; split; [exact Hm|]; split; [exact Hs|]].
  - unfold format_duration. now rewrite !fmt_0d_two by lia.
  - pose proof (Z.div_mod seconds 3600 ltac:(lia)) as E1.
    pose proof (Z.div_mod (seconds mod 3600) 60 ltac:(lia)) as E2.
    assert (E3 : (seconds mod 3600) mod 60 = seconds mod 60).
    { apply Z.mod_unique with (q := 60 * (seconds / 3600) + seconds mod 3600 / 60);
        [left; apply Z.mod_pos_bound; lia | lia]. }
    lia.
Qed.

Lemma format_duration_decodes_witness :
  exists h m s,
    format_duration 3725 = two_digits h ++ T ":" ++ two_digits m ++ T ":" ++ two_digits s
    /\ 0 <= h < 100 /\ 0 <= m < 60 /\ 0 <= s < 60
    /\ 3725 = h * 3600 + m * 60 + s.
Proof. apply format_duration_decodes. lia. Defined.

(** X18.  The tracker shows the parts in three runs: first the parts
    before the counter as done, [c - 1] of them for a counter of [c], none
    below 1 and all eight from 9 on; then, for a counter from 1 to 8, the
    part at the counter, as running when a part name is stored and as
    pending when none is; then the parts after the counter as pending.  So
    the part at the counter is never shown as done, and eight symbols are
    drawn whatever the counter. *)
Theorem part_symbols_shape (c : Z) (part : str) :
  part_symbols c part
  = repeat DONE (Z.to_nat (Z.min (Z.max (c - 1) 0) 8))
    ++ (if (1 <=? c) && (c <=? 8)
        then [ match part with [] => PENDING | _ => RUNNING end ]
        else [])
    ++ repeat PENDING (Z.to_nat (Z.min (Z.max (8 - c) 0) 8)).
Proof.
  destruct (Z.le_gt_cases c 0) as [Hlow|Hlow].
  { replace (Z.min (Z.max (c - 1) 0) 8) with 0 by lia.
    replace (Z.min (Z.max (8 - c) 0) 8) with 8 by lia.
    assert ((1 <=? c) = false) as -> by (apply Z.leb_gt; lia).
    unfold part_symbols, part_symbol.
    cbn [parts List.length seq map Z.of_nat Pos.of_succ_nat Pos.succ Z.add Pos.add].
    repeat match goal with
           | |- context [?a <? c] =>
               rewrite (proj2 (Z.ltb_ge a c)) by lia
           | |- context [?a =? c] =>
               rewrite (proj2 (Z.eqb_neq a c)) by lia
           end.
    reflexivity. }
  destruct (Z.le_gt_cases 9 c) as [Hhigh|Hhigh].
  { replace (Z.min (Z.max (c - 1) 0) 8) with 8 by lia.
    replace (Z.min (Z.max (8 - c) 0) 8) with 0 by lia.
    assert ((c <=? 8) = false) as -> by (apply Z.leb_gt; lia).
    rewrite andb_false_r.
    unfold part_symbols, part_symbol.
    cbn [parts List.length seq map Z.of_nat Pos.of_succ_nat Pos.succ Z.add Pos.add].
    repeat match goal with
           | |- context [?a <? c] =>
               rewrite (proj2 (Z.ltb_lt a c)) by lia
           end.
    reflexivity. }
  assert (Hc : c = 1 \/ c = 2 \/ c = 3 \/ c = 4 \/ c = 5 \/ c = 6 \/ c = 7 \/ c = 8) by lia.
  repeat (destruct Hc as [-> | Hc]; [destruct part; reflexivity|]).
  subst c. destruct part; reflexivity.
Qed.

End RenderMore.

(** ** The whole frame, the log panel and the history *)

Section ScreenMore.

Import PyStr Render Screen.

Lemma draw_compilation_progress_iff (now : Z) (status : Dict.t) :
  (exists panel, draw_compilation_progress now status = Ok panel)
  <-> (exists t c s,
         PyNum.int (Dict.get_default "TOTAL_PARTS" "8" status) = Ok t
         /\ PyNum.int (Dict.get_default "COMPLETED_PARTS" "0" status) = Ok c
         /\ PyNum.int (Dict.get_default "START_TIME" "0" status) = Ok s).
Proof.
  unfold draw_compilation_progress.
  destruct (PyNum.int (Dict.get_default "TOTAL_PARTS" "8" status)) as [t|e1]; cbn [bind].
  2: { split; [intros [p H]; discriminate H | intros (t & c & s & H & _); discriminate H]. }
  destruct (PyNum.int (Dict.get_default "COMPLETED_PARTS" "0" status)) as [c|e2]; cbn [bind].
  2: { split; [intros [p H]; discriminate H | intros (t' & c & s & _ & H & _); discriminate H]. }
  destruct (PyNum.int (Dict.get_default "START_TIME" "0" status)) as [s|e3]; cbn [bind].
  2: { split; [intros [p H]; discriminate H | intros (t' & c' & s & _ & _ & H); discriminate H]. }
  rewrite draw_progress_bar_eq; cbn [bind].
  split; [intros _; exists t, c, s; auto | intros _; eexists; reflexivity].
Qed.

Lemma draw_system_metrics_iff (m : sample) (status : Dict.t) (st : store) :
  (exists r, draw_system_metrics m status st = Ok r)
  <-> (exists p, PyNum.float (Dict.get_default "PEAK_MEMORY" "0" status) = Ok p).
Proof.
  split.
  - intros [r H]. unfold draw_system_metrics, update_peak in H.
    destruct (PyNum.float _) as [p|e]; [eauto | discriminate H].
  - intros [p H].
    destruct (update_peak_parsed status (mem_used m) st p H) as (st' & peak' & E).
    destruct (draw_system_metrics_ok m status st st' peak' E) as [panel Hp]. eauto.
Qed.

Lemma draw_log_tail_returns (fs : str -> textfile) (status : Dict.t) (num_lines : Z) :
  (exists panel, draw_log_tail fs status num_lines = Ok panel)
  <-> (Dict.get_default "LOG_FILE" "" status = []
       \/ fs (Dict.get_default "LOG_FILE" "" status) <> StatError).
Proof.
  unfold draw_log_tail. cbv zeta.
  destruct (Dict.get_default "LOG_FILE" "" status) as [|c path]; cbn [bind].
  - split; [now left | intros _; eexists; reflexivity].
  - destruct (fs (c :: path)); cbn [bind]; split;
      try (intros _; eexists; reflexivity);
      try (intros _; right; discriminate).
    + intros [panel H]. discriminate H.
    + intros [H|H]; [discriminate H | contradiction].
Qed.

(** X19.  [Dashboard.draw] returns a frame only when the four numeric
    fields of the record it reads parse, each with the default of its
    call when it is missing (the peak memory as a float, the number of
    parts, the completed parts and the start time as integers), and when
    the test for the log file answers.  The frame then starts with the
    codes for cursor home and clear screen, and what the log file is does
    not matter for the return or for the status file: a missing or an
    unreadable log file only changes the log panel. *)
Theorem draw_needs_fields
    (fs fs' : str -> textfile) (now : Z) (m : sample) (st st' : store) (frame : text) :
  draw fs now m st = Ok (frame, st') ->
  fs' (Dict.get_default "LOG_FILE" "" (record_of st)) <> StatError ->
  (exists p t c s,
     PyNum.float (Dict.get_default "PEAK_MEMORY" "0" (record_of st)) = Ok p
     /\ PyNum.int (Dict.get_default "TOTAL_PARTS" "8" (record_of st)) = Ok t
     /\ PyNum.int (Dict.get_default "COMPLETED_PARTS" "0" (record_of st)) = Ok c
     /\ PyNum.int (Dict.get_default "START_TIME" "0" (record_of st)) = Ok s)
  /\ (Dict.get_default "LOG_FILE" "" (record_of st) = []
      \/ fs (Dict.get_default "LOG_FILE" "" (record_of st)) <> StatError)
  /\ (exists rest, frame = Terminal.HOME ++ Terminal.CLEAR_SCREEN ++ 10%N :: rest)
  /\ (exists frame', draw fs' now m st = Ok (frame', st')).
Proof.
  unfold draw. rewrite read_status_record; cbn [bind]. intros H Hfs'.
  destruct (draw_system_metrics m (record_of st) st) as [[metrics st1]|e] eqn:E1;
    [|discriminate H]. cbn [bind] in *.
  destruct (draw_compilation_progress now (record_of st)) as [progress|e] eqn:E2;
    [|discriminate H]. cbn [bind] in *.
  destruct (draw_log_tail fs (record_of st) 5) as [log|e] eqn:E3;
    [|discriminate H]. cbn [bind] in H.
  injection H as <- <-.
  split; [|split; [|split]].
  - destruct (proj1 (draw_system_metrics_iff m (record_of st) st)) as [p Hp]; [eauto|].
    destruct (proj1 (draw_compilation_progress_iff now (record_of st))) as (t & c & s & Hi);
      [eauto|].
    exists p, t, c, s. tauto.
  - apply (draw_log_tail_returns fs (record_of st) 5). eauto.
  - cbn [join_lines]. rewrite <- app_assoc. eexists. reflexivity.
  - destruct (proj2 (draw_log_tail_returns fs' (record_of st) 5)) as [log' ->];
      [now right|]. cbn [bind]. eexists. reflexivity.
Qed.

Lemma draw_needs_fields_witness :
  exists frame st',
    draw (fun _ => NoFile) 1700000060 (gb 2) started = Ok (frame, st')
    /\ exists frame', draw (fun _ => FileUnreadable) 1700000060 (gb 2) started = Ok (frame', st').
Proof.
  destruct (draw (fun _ => NoFile) 1700000060 (gb 2) started) as [[frame st']|e] eqn:E;
    [|vm_compute in E; discriminate E].
  exists frame, st'. split; [reflexivity|].
  destruct (draw_needs_fields (fun _ => NoFile) (fun _ => FileUnreadable)
              1700000060 (gb 2) started st' frame E) as (_ & _ & _ & H);
    [discriminate | exact H].
Defined.

Lemma clip_short (line : str) :
  (List.length (strip line) <= 68)%nat -> clip line = strip line.
Proof.
  intro H. unfold clip. destruct (Nat.ltb_spec 68 (List.length (strip line))); [lia | reflexivity].
Qed.

Lemma clip_long (line : str) :
  (68 < List.length (strip line))%nat ->
  clip line = firstn 65 (strip line) ++ lit "..." /\ List.length (clip line) = 68%nat.
Proof.
  intro H. unfold clip. destruct (Nat.ltb_spec 68 (List.length (strip line))); [|lia].
  split; [reflexivity|]. rewrite length_app, length_firstn.
  change (List.length (lit "...")) with 3%nat. lia.
Qed.

(** The last lines of a list. *)
Lemma slice_from_last {A} (n : Z) (l : list A) :
  0 < n ->
  exists before, l = before ++ slice_from (- n) l
    /\ List.length (slice_from (- n) l) = Nat.min (Z.to_nat n) (List.length l).
Proof.
  intro H. unfold slice_from.
  assert ((- n <? 0) = true) as -> by (apply Z.ltb_lt; lia).
  exists (firstn (Z.to_nat (Z.max (Z.of_nat (List.length l) + - n) 0)) l).
  split; [now rewrite firstn_skipn|]. rewrite length_skipn. lia.
Qed.

(** X20.  When the record names a log file that can be read, the log
    panel shows its last lines, as many as asked for or all when there are
    fewer, one row for each: a line that has at most 68 characters once it
    is stripped is shown stripped, and a longer one is shown as its first
    65 characters and three dots, 68 characters in all. *)
Theorem log_tail_bounded
    (fs : str -> textfile) (status : Dict.t) (s : str) (num_lines : Z) :
  0 < num_lines ->
  Dict.get_default "LOG_FILE" "" status <> [] ->
  fs (Dict.get_default "LOG_FILE" "" status) = FileText s ->
  exists before shown rows,
    file_lines s = before ++ shown
    /\ List.length shown = Nat.min (Z.to_nat num_lines) (List.length (file_lines s))
    /\ draw_log_tail fs status num_lines
       = Ok (join_lines (log_head ++ map log_row rows ++ [ bottom_line ]))
    /\ Forall2 (fun line row =>
                  ((List.length (strip line) <= 68)%nat -> row = strip line)
                  /\ ((68 < List.length (strip line))%nat ->
                      row = firstn 65 (strip line) ++ lit "..."
                      /\ List.length row = 68%nat))
         shown rows.
Proof.
  intros Hn Hne Hfs.
  destruct (slice_from_last num_lines (file_lines s) Hn) as (before & Hb & Hl).
  exists before, (slice_from (- num_lines) (file_lines s)),
    (map clip (slice_from (- num_lines) (file_lines s))).
  split; [exact Hb|]. split; [exact Hl|]. split.
  - unfold draw_log_tail. cbv zeta.
    destruct (Dict.get_default "LOG_FILE" "" status) as [|c path] eqn:E; [contradiction|].
    rewrite Hfs. cbn [bind]. now rewrite map_map, <- app_assoc.
  - clear Hb Hl.
    induction (slice_from (- num_lines) (file_lines s)) as [|line l IH]; cbn [map];
      [constructor | constructor; [|exact IH]].
    split; [apply clip_short | apply clip_long].
Qed.

Lemma log_tail_bounded_witness :
  exists before shown rows,
    file_lines (lit "one" ++ LF :: lit "  two " ++ LF :: repeat "3"%char 70 ++ [LF])
    = before ++ shown
    /\ List.length shown
       = Nat.min (Z.to_nat 2)
           (List.length
              (file_lines (lit "one" ++ LF :: lit "  two " ++ LF :: repeat "3"%char 70 ++ [LF])))
    /\ draw_log_tail
         (fun _ => FileText (lit "one" ++ LF :: lit "  two " ++ LF :: repeat "3"%char 70 ++ [LF]))
         [ (lit "LOG_FILE", lit "/w/logs/current.log") ] 2
       = Ok (join_lines (log_head ++ map log_row rows ++ [ bottom_line ]))
    /\ Forall2 (fun line row =>
                  ((List.length (strip line) <= 68)%nat -> row = strip line)
                  /\ ((68 < List.length (strip line))%nat ->
                      row = firstn 65 (strip line) ++ lit "..."
                      /\ List.length row = 68%nat))
         shown rows.
Proof.
  apply (log_tail_bounded
           (fun _ => FileText (lit "one" ++ LF :: lit "  two " ++ LF :: repeat "3"%char 70 ++ [LF]))
           [ (lit "LOG_FILE", lit "/w/logs/current.log") ]).
  - lia.
  - discriminate.
  - reflexivity.
Defined.

Lemma rstrip_last_ok (s : str) : Wf.head_ok (rev (rstrip s)) = true.
Proof.
  unfold rstrip. rewrite rev_involutive. apply head_ok_spec, dropwhile_head.
Qed.

(** X21.  [show_history] prints its title and rule and then the last
    twenty lines of the history file, or all of them when there are fewer,
    each without white space at its end; a history file that cannot be
    read makes it raise, and a missing one is reported in one line. *)
Theorem show_history_bounded (s : str) :
  (exists before shown,
     file_lines s = before ++ shown
     /\ List.length shown = Nat.min 20 (List.length (file_lines s))
     /\ show_history (FileText s)
        = Ok (history_head ++ map (fun line => code_points (rstrip line)) shown)
     /\ Forall (fun line => Wf.head_ok (rev (rstrip line)) = true) shown)
  /\ show_history FileUnreadable = Raise PermissionError
  /\ (exists line, show_history NoFile = Ok (history_head ++ [ line ])).
Proof.
  split; [|split; [reflexivity | eexists; reflexivity]].
  destruct (slice_from_last 20 (file_lines s) ltac:(lia)) as (before & Hb & Hl).
  exists before, (slice_from (- 20) (file_lines s)).
  split; [exact Hb|]. split; [exact Hl|]. split; [reflexivity|].
  apply Forall_forall. intros line _. apply rstrip_last_ok.
Qed.

End ScreenMore.

(** ** Limbs *)

Section LimbsFacts.

Import Limbs.

Lemma limbs_loop_spec (modulus : Z) (k : nat) :
  0 < modulus ->
  forall x, exists limbs vs,
    limbs_loop k modulus x = Ok limbs
    /\ parse_all limbs = Ok vs
    /\ List.length vs = k
    /\ Forall (fun v => 0 <= v < modulus) vs
    /\ fold_right (fun v acc => v + modulus * acc) 0 vs = x mod modulus ^ Z.of_nat k.
Proof.
  intro Hm. induction k as [|k IH]; intro x.
  - exists [], []. repeat split; auto. cbn. now rewrite Z.mod_1_r.
  - destruct (IH (x / modulus)) as (limbs & vs & E & P & L & B & V).
    exists (PyNum.str_of_Z (x mod modulus) :: limbs), (x mod modulus :: vs).
    cbn [limbs_loop]. unfold PyNum.modulo_, PyNum.floordiv.
    assert ((modulus =? 0) = false) as -> by (apply Z.eqb_neq; lia).
    cbn [bind]. rewrite E; cbn [bind]. split; [reflexivity|].
    cbn [parse_all]. rewrite int_str_of_Z; cbn [bind]. rewrite P; cbn [bind].
    split; [reflexivity|]. split; [cbn; now rewrite L|].
    split; [constructor; [apply Z.mod_pos_bound; lia | exact B]|].
    cbn [fold_right]. rewrite V.
    rewrite Nat2Z.inj_succ, Z.pow_succ_r by lia.
    symmetry. apply Z.rem_mul_r; [lia|]. apply Z.pow_pos_nonneg; lia.
Qed.

Lemma parse_all_length (limbs : list str) (vs : list Z) :
  parse_all limbs = Ok vs -> List.length limbs = List.length vs.
Proof.
  revert vs. induction limbs as [|l limbs IH]; intros vs P; cbn [parse_all] in P.
  - now injection P as <-.
  - destruct (PyNum.int l); [|discriminate P]. cbn [bind] in P.
    destruct (parse_all limbs) as [vs'|]; [|discriminate P]. cbn [bind] in P.
    injection P as <-. cbn. now rewrite (IH vs').
Qed.

Lemma value_of_fold (n : Z) (vs : list Z) :
  value_of n vs = fold_right (fun v acc => v + 2 ^ n * acc) 0 vs.
Proof. induction vs as [|v vs IH]; simpl; [reflexivity | now rewrite IH]. Qed.

Lemma bigint_to_limbs_spec (x n k : Z) :
  0 <= n ->
  exists limbs vs,
    bigint_to_limbs x n k = Ok limbs
    /\ parse_all limbs = Ok vs
    /\ List.length vs = Z.to_nat k
    /\ Forall (fun v => 0 <= v < 2 ^ n) vs
    /\ value_of n vs = x mod 2 ^ (n * Z.of_nat (Z.to_nat k)).
Proof.
  intro Hn. unfold bigint_to_limbs, shl1.
  assert ((n <? 0) = false) as -> by (apply Z.ltb_ge; lia). cbn [bind].
  rewrite Z.shiftl_1_l.
  destruct (limbs_loop_spec (2 ^ n) (Z.to_nat k) ltac:(apply Z.pow_pos_nonneg; lia) x)
    as (limbs & vs & E & P & L & B & V).
  exists limbs, vs. rewrite value_of_fold, V, <- Z.pow_mul_r by lia. auto.
Qed.

Lemma limb_within_digits (n v : Z) :
  0 <= n <= MAX_LIMB_BITS -> 0 <= v < 2 ^ n -> PyNum.within_str_digits v.
Proof.
  intros Hn Hv. unfold PyNum.within_str_digits.
  assert (H1 : 2 ^ n <= 2 ^ MAX_LIMB_BITS) by (apply Z.pow_le_mono_r; lia).
  assert (H2 : 2 ^ MAX_LIMB_BITS < 10 ^ PyNum.MAX_STR_DIGITS) by (vm_compute; reflexivity).
  lia.
Qed.

(** X22.  For a limb size from zero to 14284 bits, with which the text of
    a limb stays within the digits that [str] converts,
    [bigint_to_limbs] returns [k] decimal texts, each the text of a number
    below two to the limb size, and the limbs, lowest first, denote the
    input modulo two to the total number of bits: an input in that range
    is given back whole, a larger or a negative one loses what does not
    fit, without an error. *)
Theorem bigint_to_limbs_value (x n k : Z) :
  0 <= n <= MAX_LIMB_BITS ->
  exists limbs vs,
    bigint_to_limbs x n k = Ok limbs
    /\ parse_all limbs = Ok vs
    /\ List.length limbs = Z.to_nat k
    /\ List.length vs = Z.to_nat k
    /\ Forall (fun v => 0 <= v < 2 ^ n /\ PyNum.within_str_digits v) vs
    /\ value_of n vs = x mod 2 ^ (n * Z.of_nat (Z.to_nat k))
    /\ (0 <= x < 2 ^ (n * Z.of_nat (Z.to_nat k)) -> value_of n vs = x).
Proof.
  intro Hn.
  destruct (bigint_to_limbs_spec x n k (proj1 Hn)) as (limbs & vs & E & P & L & B & V).
  exists limbs, vs.
  split; [exact E|]. split; [exact P|]. split; [|split; [exact L|]; split; [|
    split; [exact V | intro Hx; rewrite V; now apply Z.mod_small]]].
  - rewrite <- L. apply (parse_all_length limbs vs P).
  - apply Forall_forall. intros v Hv. rewrite Forall_forall in B.
    split; [now apply B|]. apply (limb_within_digits n); [exact Hn | now apply B].
Qed.

Lemma bigint_to_limbs_value_witness :
  exists limbs vs,
    bigint_to_limbs 1000 4 3 = Ok limbs
    /\ parse_all limbs = Ok vs
    /\ List.length limbs = Z.to_nat 3
    /\ List.length vs = Z.to_nat 3
    /\ Forall (fun v => 0 <= v < 2 ^ 4 /\ PyNum.within_str_digits v) vs
    /\ value_of 4 vs = 1000 mod 2 ^ (4 * Z.of_nat (Z.to_nat 3))
    /\ (0 <= 1000 < 2 ^ (4 * Z.of_nat (Z.to_nat 3)) -> value_of 4 vs = 1000).
Proof. apply bigint_to_limbs_value. unfold MAX_LIMB_BITS. lia. Defined.

(** X23.  With the limb size and the number of limbs of the circuit,
    seven limbs of 55 bits, every number from zero to below two to the 385
    is given back by its limbs, and a negative limb size makes the
    conversion raise. *)
Theorem default_limbs_roundtrip (x n k : Z) :
  0 <= x < 2 ^ 385 ->
  (exists limbs vs,
     bigint_to_limbs x N_BITS K_LIMBS = Ok limbs
     /\ parse_all limbs = Ok vs
     /\ List.length limbs = 7%nat
     /\ value_of N_BITS vs = x)
  /\ (n < 0 -> bigint_to_limbs x n k = Raise ValueError).
Proof.
  intro Hx. split.
  - destruct (bigint_to_limbs_spec x N_BITS K_LIMBS ltac:(unfold N_BITS; lia))
      as (limbs & vs & E & P & L & B & V).
    exists limbs, vs. split; [exact E|]. split; [exact P|]. split.
    + change (Z.to_nat K_LIMBS) with 7%nat in L. rewrite <- L.
      apply (parse_all_length limbs vs P).
    + rewrite V. apply Z.mod_small. exact Hx.
  - intro Hn. unfold bigint_to_limbs, shl1.
    now assert ((n <? 0) = true) as -> by (apply Z.ltb_lt; lia).
Qed.

Lemma default_limbs_roundtrip_witness :
  exists limbs vs,
    bigint_to_limbs (2 ^ 381 - 1) N_BITS K_LIMBS = Ok limbs
    /\ parse_all limbs = Ok vs
    /\ List.length limbs = 7%nat
    /\ value_of N_BITS vs = 2 ^ 381 - 1.
Proof.
  apply (default_limbs_roundtrip (2 ^ 381 - 1) 0 0). split; [|reflexivity].
  apply Z.leb_le. reflexivity.
Defined.

End LimbsFacts.

(** ** Frames and the stored peak *)

Section FrameMore.

Import Render.

(** X24.  On a status file whose stored peak reads as a NaN or as the
    positive infinity, or is a number of two to the 1024 or more, which is
    no [float] and which [float] reads as the positive infinity, no sample
    is above the peak: the update at the head of [draw_system_metrics]
    leaves the file as it is for every sample that is a [float], so the
    peak is never tracked again. *)
Theorem peak_stuck (m : sample) (st : store) (peak : PyNum.pyfloat) :
  PyNum.float (Dict.get_default "PEAK_MEMORY" "0" (record_of st)) = Ok peak ->
  peak = PyNum.NaN \/ peak = PyNum.PosInf
  \/ (exists q, peak = PyNum.Finite q /\ (PyNum.FLOAT_CEILING <= q)%Q) ->
  (mem_used m < PyNum.FLOAT_CEILING)%Q ->
  exists shown, update_peak (record_of st) (mem_used m) st = Ok (st, shown).
Proof.
  intros Hp Hpeak Hm. unfold update_peak. rewrite Hp. cbn [bind].
  destruct Hpeak as [-> | [-> | (q & -> & Hq)]]; cbn [PyNum.gt]; [eauto | eauto |].
  assert (Qle_bool (mem_used m) q = true) as ->.
  { apply Qle_bool_iff. apply Qlt_le_weak. eapply Qlt_le_trans; eassumption. }
  cbn [negb]. eauto.
Qed.

Lemma peak_stuck_witness :
  exists shown,
    update_peak (record_of (mkStore (Some (lit "PEAK_MEMORY=1e400" ++ [PyStr.LF])) true true))
      (mem_used (gb 9)) (mkStore (Some (lit "PEAK_MEMORY=1e400" ++ [PyStr.LF])) true true)
    = Ok (mkStore (Some (lit "PEAK_MEMORY=1e400" ++ [PyStr.LF])) true true, shown).
Proof.
  apply (peak_stuck (gb 9) (mkStore (Some (lit "PEAK_MEMORY=1e400" ++ [PyStr.LF])) true true)
           (PyNum.Finite (inject_Z 1 * PyNum.ten_to (400 - 0)))).
  - reflexivity.
  - right. right. eexists. split; [reflexivity|]. vm_compute. discriminate.
  - vm_compute. reflexivity.
Defined.

(** X25.  On a usable status file whose stored peak is a number of
    tenths, a second frame with the same sample leaves the file that the
    first frame left: the stored peak is the sample rounded to one decimal,
    and writing it again changes nothing. *)
Theorem frame_twice (m : sample) (st : store) (t : N) :
  Wf.usable st = true -> peak_is st t ->
  exists st1, frame m st = Ok st1 /\ frame m st1 = Ok st1.
Proof.
  intros Hu (q & Hq & Eq).
  rewrite (frame_cases m st _ Hu Hq). cbn [PyNum.gt].
  destruct (Qle_bool (mem_used m) q) eqn:Hle; cbn [negb].
  - exists st. split; [reflexivity|].
    rewrite (frame_cases m st _ Hu Hq). cbn [PyNum.gt]. now rewrite Hle.
  - eexists; split; [reflexivity|].
    assert (Hlt : (inject_Z (Z.of_N t) / 10 < mem_used m)%Q).
    { rewrite <- Eq. apply Qnot_le_lt. intro Hc.
      apply Qle_bool_iff in Hc. congruence. }
    destruct (stored_peak (mem_used m) t Hlt) as (Hv & q' & t' & Hq' & _ & _).
    set (v := PyNum.fmt_f 1 (PyNum.Finite (mem_used m))) in *.
    set (st1 := mkStore (Some (serialize (Dict.set "PEAK_MEMORY" v (record_of st)))) true true).
    assert (Hrec : record_of st1 = Dict.set "PEAK_MEMORY" v (record_of st)).
    { unfold record_of at 1, st1. rewrite read_written; [reflexivity|].
      apply record_ok_set; auto using record_of_ok. }
    assert (Hu1 : Wf.usable st1 = true) by reflexivity.
    assert (Hp1 : PyNum.float (Dict.get_default "PEAK_MEMORY" "0" (record_of st1))
                  = Ok (PyNum.Finite q')).
    { rewrite Hrec. unfold Dict.get_default. now rewrite get_set_same. }
    rewrite (frame_cases m st1 _ Hu1 Hp1), Hrec, set_set.
    fold st1. now destruct (PyNum.gt _ _).
Qed.

Lemma frame_twice_witness :
  exists st1, frame (gb (504 # 100)) started = Ok st1
              /\ frame (gb (504 # 100)) st1 = Ok st1.
Proof.
  apply (frame_twice (gb (504 # 100)) started 0).
  - reflexivity.
  - eexists. split; [reflexivity|]. vm_compute. reflexivity.
Defined.

End FrameMore.
